(** * libcno: the HTTP/2 connection core (core.c), embedded in Rocq

    The development follows [core.c]: the stream table, the frame writer,
    the inbound frame handlers, and the write-side API.  State is threaded
    explicitly through a small state-and-error monad whose state survives an
    error, exactly as a C function that has mutated [*conn] before it
    returns [-1].  Callbacks ([CNO_FIRE]) are recorded in a trace and their
    return values are supplied by the environment. *)

From Stdlib Require Import ZArith List Bool String Ascii Lia.
Import ListNotations.
Open Scope Z_scope.
Open Scope list_scope.

(** ** Bytes, [read1]..[read4] and the [PACK] macros *)

Definition bytes := list Z.

Definition u8 (x : Z) : Z := x mod 256.
Definition u16 (x : Z) : Z := x mod 65536.
Definition u32 (x : Z) : Z := x mod 4294967296.

(** Conversion of a 32-bit pattern to [int32_t] (two's complement). *)
Definition i32 (x : Z) : Z := (x + 2147483648) mod 4294967296 - 2147483648.

Definition byte_at (p : bytes) (i : nat) : Z := nth i p 0.

Definition read1 (p : bytes) : Z := byte_at p 0.
Definition read2 (p : bytes) : Z :=
  u16 (Z.lor (Z.shiftl (byte_at p 0) 8) (byte_at p 1)).
Definition read4 (p : bytes) : Z :=
  u32 (Z.lor (Z.shiftl (byte_at p 0) 24)
      (Z.lor (Z.shiftl (byte_at p 1) 16)
      (Z.lor (Z.shiftl (byte_at p 2) 8) (byte_at p 3)))).
Definition read3 (p : bytes) : Z := Z.shiftr (read4 p) 8.

(** [PACK(...)] builds a [uint8_t] array: every element is truncated. *)
Definition I8 (x : Z) : bytes := [u8 x].
Definition I16 (x : Z) : bytes := [u8 (Z.shiftr x 8); u8 x].
Definition I24 (x : Z) : bytes := [u8 (Z.shiftr x 16); u8 (Z.shiftr x 8); u8 x].
Definition I32 (x : Z) : bytes :=
  [u8 (Z.shiftr x 24); u8 (Z.shiftr x 16); u8 (Z.shiftr x 8); u8 x].

Definition zlen {A} (l : list A) : Z := Z.of_nat (List.length l).
Definition ztake {A} (n : Z) (l : list A) : list A := firstn (Z.to_nat n) l.
Definition zdrop {A} (n : Z) (l : list A) : list A := skipn (Z.to_nat n) l.

(** [x & f] as a C truth value. *)
Definition has_flag (x f : Z) : bool := negb (Z.land x f =? 0).
(** [x & ~f] *)
Definition clear_flag (x f : Z) : Z := Z.land x (Z.lnot f).

(** ** Constants of core.h *)

(** Modelled from the spec: core.h is not among the sources.  Frame types
    0..9 are DATA, HEADERS, PRIORITY, RST_STREAM, SETTINGS, PUSH_PROMISE,
    PING, GOAWAY, WINDOW_UPDATE, CONTINUATION (spec 4.4); the flag bits and
    the error codes are those of the HTTP/2 wire format. *)
Definition CNO_FRAME_DATA : Z := 0.
Definition CNO_FRAME_HEADERS : Z := 1.
Definition CNO_FRAME_PRIORITY : Z := 2.
Definition CNO_FRAME_RST_STREAM : Z := 3.
Definition CNO_FRAME_SETTINGS : Z := 4.
Definition CNO_FRAME_PUSH_PROMISE : Z := 5.
Definition CNO_FRAME_PING : Z := 6.
Definition CNO_FRAME_GOAWAY : Z := 7.
Definition CNO_FRAME_WINDOW_UPDATE : Z := 8.
Definition CNO_FRAME_CONTINUATION : Z := 9.
Definition CNO_FRAME_UNKNOWN : Z := 10.

Definition CNO_FLAG_ACK : Z := 1.
Definition CNO_FLAG_END_STREAM : Z := 1.
Definition CNO_FLAG_END_HEADERS : Z := 4.
Definition CNO_FLAG_PADDED : Z := 8.
Definition CNO_FLAG_PRIORITY : Z := 32.

Definition CNO_RST_NO_ERROR : Z := 0.
Definition CNO_RST_PROTOCOL_ERROR : Z := 1.
Definition CNO_RST_INTERNAL_ERROR : Z := 2.
Definition CNO_RST_FLOW_CONTROL_ERROR : Z := 3.
Definition CNO_RST_SETTINGS_TIMEOUT : Z := 4.
Definition CNO_RST_STREAM_CLOSED : Z := 5.
Definition CNO_RST_FRAME_SIZE_ERROR : Z := 6.
Definition CNO_RST_REFUSED_STREAM : Z := 7.
Definition CNO_RST_CANCEL : Z := 8.
Definition CNO_RST_COMPRESSION_ERROR : Z := 9.
Definition CNO_RST_CONNECT_ERROR : Z := 10.
Definition CNO_RST_ENHANCE_YOUR_CALM : Z := 11.

(** Modelled from the spec: the acceptance bitmask of a stream (spec 3):
    independent one-bit flags, with INBOUND = HEADERS | DATA | TRAILERS and
    OUTBOUND = WRITE_HEADERS | WRITE_DATA | WRITE_PUSH.  No proof below
    depends on the bit positions chosen here. *)
Definition CNO_ACCEPT_HEADERS : Z := 1.
Definition CNO_ACCEPT_DATA : Z := 2.
Definition CNO_ACCEPT_PUSH : Z := 4.
Definition CNO_ACCEPT_TRAILERS : Z := 8.
Definition CNO_ACCEPT_WRITE_HEADERS : Z := 16.
Definition CNO_ACCEPT_WRITE_DATA : Z := 32.
Definition CNO_ACCEPT_WRITE_PUSH : Z := 64.
Definition CNO_ACCEPT_NOP_HEADERS : Z := 128.
Definition CNO_ACCEPT_INBOUND : Z :=
  Z.lor CNO_ACCEPT_HEADERS (Z.lor CNO_ACCEPT_DATA CNO_ACCEPT_TRAILERS).
Definition CNO_ACCEPT_OUTBOUND : Z :=
  Z.lor CNO_ACCEPT_WRITE_HEADERS (Z.lor CNO_ACCEPT_WRITE_DATA CNO_ACCEPT_WRITE_PUSH).

(** Modelled from the spec: the connection feature flags (spec 3). *)
Definition CNO_CONN_FLAG_WRITING_CHUNKED : Z := 1.
Definition CNO_CONN_FLAG_DISALLOW_H2_UPGRADE : Z := 2.
Definition CNO_CONN_FLAG_DISALLOW_H2_PRIOR_KNOWLEDGE : Z := 4.
Definition CNO_CONN_FLAG_MANUAL_FLOW_CONTROL : Z := 8.

(** Six settings, identifiers 1..6; [CNO_SETTINGS_UNDEFINED] is the first
    identifier that is not one. *)
Definition CNO_SETTINGS_UNDEFINED : Z := 7.

(** config.h *)
Definition CNO_MAX_HEADERS : Z := 64.
Definition CNO_MAX_CONTINUATIONS : Z := 3.
Definition CNO_STREAM_BUCKETS : Z := 61.
Definition CNO_STREAM_RESET_HISTORY : Z := 7.

(** Error kinds (spec 7). *)
Inductive cno_error_kind : Type :=
| ASSERTION | NO_MEMORY | INVALID_STREAM | WOULD_BLOCK | TRANSPORT | DISCONNECT.

(** Negotiation states (spec 4.6). *)
Inductive CNO_CONNECTION_STATE : Type :=
| CNO_CONNECTION_UNDEFINED
| CNO_CONNECTION_INIT
| CNO_CONNECTION_PREFACE
| CNO_CONNECTION_READY_NO_SETTINGS
| CNO_CONNECTION_READY
| CNO_CONNECTION_HTTP1_READY
| CNO_CONNECTION_HTTP1_READING
| CNO_CONNECTION_HTTP1_READING_UPGRADE
| CNO_CONNECTION_UNKNOWN_PROTOCOL_UPGRADE
| CNO_CONNECTION_UNKNOWN_PROTOCOL.

(** [CNO_REMOTE = 0], [CNO_LOCAL = 1]: a side is the C truth value of
    [local]; [negb] is the peer. *)
Definition CNO_REMOTE : bool := false.
Definition CNO_LOCAL : bool := true.

(** A two-element array indexed by a side. *)
Record sided (A : Type) : Type := mk_sided { at_remote : A; at_local : A }.
Arguments mk_sided {A} _ _.
Arguments at_remote {A} _.
Arguments at_local {A} _.

Definition side_get {A} (p : sided A) (local : bool) : A :=
  if local then at_local p else at_remote p.
Definition side_set {A} (p : sided A) (local : bool) (v : A) : sided A :=
  if local then mk_sided (at_remote p) v else mk_sided v (at_local p).

(** ** Data model *)

(** [struct cno_settings_t]: a union of six named [uint32_t] fields and
    [array[6]]. *)
Record cno_settings_t : Type := mk_settings {
  header_table_size : Z;
  enable_push : Z;
  max_concurrent_streams : Z;
  initial_window_size : Z;
  max_frame_size : Z;
  max_header_list_size : Z
}.

Definition settings_array (s : cno_settings_t) : list Z :=
  [header_table_size s; enable_push s; max_concurrent_streams s;
   initial_window_size s; max_frame_size s; max_header_list_size s].

Definition settings_of_array (a : list Z) : cno_settings_t :=
  mk_settings (nth 0 a 0) (nth 1 a 0) (nth 2 a 0) (nth 3 a 0) (nth 4 a 0) (nth 5 a 0).

Fixpoint list_set {A} (l : list A) (i : nat) (v : A) : list A :=
  match l, i with
  | [], _ => []
  | _ :: t, O => v :: t
  | h :: t, S j => h :: list_set t j v
  end.

(** [cfg->array[i] = v] *)
Definition settings_array_set (s : cno_settings_t) (i : Z) (v : Z) : cno_settings_t :=
  settings_of_array (list_set (settings_array s) (Z.to_nat i) v).

Definition UINT32_MAX : Z := 4294967295.

Definition CNO_SETTINGS_STANDARD : cno_settings_t :=
  mk_settings 4096 1 UINT32_MAX 65535 16384 UINT32_MAX.
Definition CNO_SETTINGS_CONSERVATIVE : cno_settings_t :=
  mk_settings 4096 1 100 65535 16384 UINT32_MAX.
Definition CNO_SETTINGS_INITIAL : cno_settings_t :=
  mk_settings 4096 1 1024 65535 16384 UINT32_MAX.

(** [struct cno_frame_t]; the payload buffer is the list of its bytes. *)
Record cno_frame_t : Type := mk_frame {
  type : Z;
  flags : Z;
  stream : Z;
  payload : bytes
}.

(** [struct cno_header_t] (hpack.h).  A decoded header owns or borrows its
    bytes, so its [data] pointers are never [NULL]; names and values are
    byte strings. *)
Record cno_header_t : Type := mk_header {
  name : string;
  value : string
}.

(** [struct cno_buffer_t] as used for [msg->path] and [msg->method]:
    [None] is [CNO_BUFFER_EMPTY] ([data == NULL]). *)
Definition cno_buffer_t : Type := option string.
Definition CNO_BUFFER_EMPTY : cno_buffer_t := None.
Definition buffer_size (b : cno_buffer_t) : Z :=
  match b with Some s => Z.of_nat (String.length s) | None => 0 end.
Definition buffer_is_null (b : cno_buffer_t) : bool :=
  match b with Some _ => false | None => true end.

(** [struct cno_message_t] *)
Record cno_message_t : Type := mk_message {
  code : Z;
  method : cno_buffer_t;
  path : cno_buffer_t;
  headers : list cno_header_t
}.

(** [struct cno_stream_t]; [next] is the tail of the bucket chain. *)
Record cno_stream_t : Type := mk_stream {
  stream_id : Z;
  accept : Z;
  window_recv : Z;
  window_send : Z
}.

(** [struct cno_hpack_t] (hpack.h); the dynamic table is the list of its
    entries, most recent first. *)
Record cno_hpack_t : Type := mk_hpack {
  hpack_table : list cno_header_t;
  hpack_size : Z;
  hpack_limit : Z;
  limit_upper : Z;
  limit_update_min : Z;
  limit_update_end : Z
}.

(** [struct cno_connection_t] *)
Record cno_connection_t : Type := mk_connection {
  client : bool;
  state : CNO_CONNECTION_STATE;
  conn_flags : Z;
  last_stream : sided Z;
  stream_count : sided Z;
  settings : sided cno_settings_t;
  conn_window_recv : Z;
  conn_window_send : Z;
  goaway_sent : Z;
  buffer : bytes;
  continued : bytes;
  continued_flags : Z;
  continued_stream : Z;
  continued_promise : Z;
  http1_remaining : Z;
  decoder : cno_hpack_t;
  encoder : cno_hpack_t;
  recently_reset : list Z;
  recently_reset_next : Z;
  streams : Z -> list cno_stream_t
}.

(** Field updates of [*conn]. *)
Definition set_state (v : CNO_CONNECTION_STATE) (c : cno_connection_t) : cno_connection_t :=
  mk_connection (client c) v (conn_flags c) (last_stream c) (stream_count c) (settings c) (conn_window_recv c) (conn_window_send c) (goaway_sent c) (buffer c) (continued c) (continued_flags c) (continued_stream c) (continued_promise c) (http1_remaining c) (decoder c) (encoder c) (recently_reset c) (recently_reset_next c) (streams c).
Definition set_conn_flags (v : Z) (c : cno_connection_t) : cno_connection_t :=
  mk_connection (client c) (state c) v (last_stream c) (stream_count c) (settings c) (conn_window_recv c) (conn_window_send c) (goaway_sent c) (buffer c) (continued c) (continued_flags c) (continued_stream c) (continued_promise c) (http1_remaining c) (decoder c) (encoder c) (recently_reset c) (recently_reset_next c) (streams c).
Definition set_last_stream (v : sided Z) (c : cno_connection_t) : cno_connection_t :=
  mk_connection (client c) (state c) (conn_flags c) v (stream_count c) (settings c) (conn_window_recv c) (conn_window_send c) (goaway_sent c) (buffer c) (continued c) (continued_flags c) (continued_stream c) (continued_promise c) (http1_remaining c) (decoder c) (encoder c) (recently_reset c) (recently_reset_next c) (streams c).
Definition set_stream_count (v : sided Z) (c : cno_connection_t) : cno_connection_t :=
  mk_connection (client c) (state c) (conn_flags c) (last_stream c) v (settings c) (conn_window_recv c) (conn_window_send c) (goaway_sent c) (buffer c) (continued c) (continued_flags c) (continued_stream c) (continued_promise c) (http1_remaining c) (decoder c) (encoder c) (recently_reset c) (recently_reset_next c) (streams c).
Definition set_settings (v : sided cno_settings_t) (c : cno_connection_t) : cno_connection_t :=
  mk_connection (client c) (state c) (conn_flags c) (last_stream c) (stream_count c) v (conn_window_recv c) (conn_window_send c) (goaway_sent c) (buffer c) (continued c) (continued_flags c) (continued_stream c) (continued_promise c) (http1_remaining c) (decoder c) (encoder c) (recently_reset c) (recently_reset_next c) (streams c).
Definition set_conn_window_send (v : Z) (c : cno_connection_t) : cno_connection_t :=
  mk_connection (client c) (state c) (conn_flags c) (last_stream c) (stream_count c) (settings c) (conn_window_recv c) v (goaway_sent c) (buffer c) (continued c) (continued_flags c) (continued_stream c) (continued_promise c) (http1_remaining c) (decoder c) (encoder c) (recently_reset c) (recently_reset_next c) (streams c).
Definition set_goaway_sent (v : Z) (c : cno_connection_t) : cno_connection_t :=
  mk_connection (client c) (state c) (conn_flags c) (last_stream c) (stream_count c) (settings c) (conn_window_recv c) (conn_window_send c) v (buffer c) (continued c) (continued_flags c) (continued_stream c) (continued_promise c) (http1_remaining c) (decoder c) (encoder c) (recently_reset c) (recently_reset_next c) (streams c).
Definition set_buffer (v : bytes) (c : cno_connection_t) : cno_connection_t :=
  mk_connection (client c) (state c) (conn_flags c) (last_stream c) (stream_count c) (settings c) (conn_window_recv c) (conn_window_send c) (goaway_sent c) v (continued c) (continued_flags c) (continued_stream c) (continued_promise c) (http1_remaining c) (decoder c) (encoder c) (recently_reset c) (recently_reset_next c) (streams c).
Definition set_continued (v : bytes) (c : cno_connection_t) : cno_connection_t :=
  mk_connection (client c) (state c) (conn_flags c) (last_stream c) (stream_count c) (settings c) (conn_window_recv c) (conn_window_send c) (goaway_sent c) (buffer c) v (continued_flags c) (continued_stream c) (continued_promise c) (http1_remaining c) (decoder c) (encoder c) (recently_reset c) (recently_reset_next c) (streams c).
Definition set_continued_flags (v : Z) (c : cno_connection_t) : cno_connection_t :=
  mk_connection (client c) (state c) (conn_flags c) (last_stream c) (stream_count c) (settings c) (conn_window_recv c) (conn_window_send c) (goaway_sent c) (buffer c) (continued c) v (continued_stream c) (continued_promise c) (http1_remaining c) (decoder c) (encoder c) (recently_reset c) (recently_reset_next c) (streams c).
Definition set_continued_stream (v : Z) (c : cno_connection_t) : cno_connection_t :=
  mk_connection (client c) (state c) (conn_flags c) (last_stream c) (stream_count c) (settings c) (conn_window_recv c) (conn_window_send c) (goaway_sent c) (buffer c) (continued c) (continued_flags c) v (continued_promise c) (http1_remaining c) (decoder c) (encoder c) (recently_reset c) (recently_reset_next c) (streams c).
Definition set_continued_promise (v : Z) (c : cno_connection_t) : cno_connection_t :=
  mk_connection (client c) (state c) (conn_flags c) (last_stream c) (stream_count c) (settings c) (conn_window_recv c) (conn_window_send c) (goaway_sent c) (buffer c) (continued c) (continued_flags c) (continued_stream c) v (http1_remaining c) (decoder c) (encoder c) (recently_reset c) (recently_reset_next c) (streams c).
Definition set_http1_remaining (v : Z) (c : cno_connection_t) : cno_connection_t :=
  mk_connection (client c) (state c) (conn_flags c) (last_stream c) (stream_count c) (settings c) (conn_window_recv c) (conn_window_send c) (goaway_sent c) (buffer c) (continued c) (continued_flags c) (continued_stream c) (continued_promise c) v (decoder c) (encoder c) (recently_reset c) (recently_reset_next c) (streams c).
Definition set_decoder (v : cno_hpack_t) (c : cno_connection_t) : cno_connection_t :=
  mk_connection (client c) (state c) (conn_flags c) (last_stream c) (stream_count c) (settings c) (conn_window_recv c) (conn_window_send c) (goaway_sent c) (buffer c) (continued c) (continued_flags c) (continued_stream c) (continued_promise c) (http1_remaining c) v (encoder c) (recently_reset c) (recently_reset_next c) (streams c).
Definition set_encoder (v : cno_hpack_t) (c : cno_connection_t) : cno_connection_t :=
  mk_connection (client c) (state c) (conn_flags c) (last_stream c) (stream_count c) (settings c) (conn_window_recv c) (conn_window_send c) (goaway_sent c) (buffer c) (continued c) (continued_flags c) (continued_stream c) (continued_promise c) (http1_remaining c) (decoder c) v (recently_reset c) (recently_reset_next c) (streams c).
Definition set_recently_reset (v : list Z) (c : cno_connection_t) : cno_connection_t :=
  mk_connection (client c) (state c) (conn_flags c) (last_stream c) (stream_count c) (settings c) (conn_window_recv c) (conn_window_send c) (goaway_sent c) (buffer c) (continued c) (continued_flags c) (continued_stream c) (continued_promise c) (http1_remaining c) (decoder c) (encoder c) v (recently_reset_next c) (streams c).
Definition set_recently_reset_next (v : Z) (c : cno_connection_t) : cno_connection_t :=
  mk_connection (client c) (state c) (conn_flags c) (last_stream c) (stream_count c) (settings c) (conn_window_recv c) (conn_window_send c) (goaway_sent c) (buffer c) (continued c) (continued_flags c) (continued_stream c) (continued_promise c) (http1_remaining c) (decoder c) (encoder c) (recently_reset c) v (streams c).
Definition set_streams (v : Z -> list cno_stream_t) (c : cno_connection_t) : cno_connection_t :=
  mk_connection (client c) (state c) (conn_flags c) (last_stream c) (stream_count c) (settings c) (conn_window_recv c) (conn_window_send c) (goaway_sent c) (buffer c) (continued c) (continued_flags c) (continued_stream c) (continued_promise c) (http1_remaining c) (decoder c) (encoder c) (recently_reset c) (recently_reset_next c) v.

(** Field updates of [*stream]. *)
Definition stream_set_accept (v : Z) (s : cno_stream_t) : cno_stream_t :=
  mk_stream (stream_id s) v (window_recv s) (window_send s).
Definition stream_set_window_send (v : Z) (s : cno_stream_t) : cno_stream_t :=
  mk_stream (stream_id s) (accept s) (window_recv s) v.

(** Field updates of a frame. *)
Definition frame_set_type (v : Z) (f : cno_frame_t) : cno_frame_t :=
  mk_frame v (flags f) (stream f) (payload f).
Definition frame_set_flags (v : Z) (f : cno_frame_t) : cno_frame_t :=
  mk_frame (type f) v (stream f) (payload f).
Definition frame_set_stream (v : Z) (f : cno_frame_t) : cno_frame_t :=
  mk_frame (type f) (flags f) v (payload f).
Definition frame_set_payload (v : bytes) (f : cno_frame_t) : cno_frame_t :=
  mk_frame (type f) (flags f) (stream f) v.

(** ** Callbacks and the environment *)

(** One constructor per callback the engine fires ([CNO_FIRE]). *)
Inductive cno_event : Type :=
| on_write (data : bytes)
| on_frame (f : cno_frame_t)
| on_frame_send (f : cno_frame_t)
| on_stream_start (id : Z)
| on_stream_end (id : Z)
| on_message_start (id : Z) (msg : cno_message_t)
| on_message_push (id : Z) (msg : cno_message_t) (parent : Z)
| on_message_data (id : Z) (data : bytes)
| on_message_trail (id : Z) (msg : cno_message_t)
| on_message_end (id : Z)
| on_settings
| on_flow_increase (id : Z)
| on_pong (data : bytes).

(** ** The monad

    A computation reads and writes [*conn], appends to the trace of fired
    callbacks and finishes with a value, with an error kind (the C function
    returned [-1]), or stuck.  [Stuck] is not a C return value: it marks an
    execution that never comes back to the caller (a loop that does not
    terminate) or that reads a stream after [free]. *)
Inductive stuck : Type := LOOPS_FOREVER | FREED_STREAM.

Inductive result (A : Type) : Type :=
| Ok (a : A)
| Err (k : cno_error_kind)
| Stuck (s : stuck).
Arguments Ok {A} a.
Arguments Err {A} k.
Arguments Stuck {A} s.

Definition M (A : Type) : Type :=
  cno_connection_t -> cno_connection_t * list cno_event * result A.

Definition ret {A} (a : A) : M A := fun c => (c, [], Ok a).

Definition bind {A B} (m : M A) (k : A -> M B) : M B := fun c =>
  match m c with
  | (c1, t1, Ok a) =>
      match k a c1 with (c2, t2, r) => (c2, t1 ++ t2, r) end
  | (c1, t1, Err e) => (c1, t1, Err e)
  | (c1, t1, Stuck s) => (c1, t1, Stuck s)
  end.

Declare Scope cno_scope.
Delimit Scope cno_scope with cno.
Notation "x <- m ;; k" := (bind m (fun x => k))
  (at level 61, m at next level, right associativity) : cno_scope.
Notation "m ;; k" := (bind m (fun _ => k))
  (at level 61, right associativity) : cno_scope.
Open Scope cno_scope.

(** [return CNO_ERROR(kind, ...)] *)
Definition CNO_ERROR {A} (k : cno_error_kind) : M A := fun c => (c, [], Err k).
Definition get_stuck {A} (s : stuck) : M A := fun c => (c, [], Stuck s).
Definition get : M cno_connection_t := fun c => (c, [], Ok c).
Definition modify (f : cno_connection_t -> cno_connection_t) : M unit :=
  fun c => (f c, [], Ok tt).
Definition when (b : bool) (m : M unit) : M unit := if b then m else ret tt.

(** [int failed = f(...)]: run [m] and hand its outcome to the caller
    instead of returning at once. *)
Definition attempt {A} (m : M A) : M (result A) := fun c =>
  match m c with (c1, t1, r) => (c1, t1, Ok r) end.
Definition finish {A} (r : result A) : M A := fun c => (c, [], r).

Definition run {A} (m : M A) (c : cno_connection_t) := m c.
Definition conn_of {A} (x : cno_connection_t * list cno_event * result A) :=
  fst (fst x).
Definition trace_of {A} (x : cno_connection_t * list cno_event * result A) :=
  snd (fst x).
Definition result_of {A} (x : cno_connection_t * list cno_event * result A) :=
  snd x.

(** What the engine does not own: the user's callbacks ([None] is
    [CNO_OK], [Some k] a propagated error of kind [k]), the allocator, and
    the HPACK codec of hpack.c, which is not among the sources (its
    interface is hpack.h), and the HTTP/1.x cases of the switch in
    [cno_connection_proceed], which run picohttpparser (the result is
    whether the case ends in [break]); of the case HTTP1_READY this is the
    part from the call of the parser on.  Callbacks are taken not to call
    back into the engine. *)
Record cno_env : Type := mk_env {
  callback : cno_event -> option cno_error_kind;
  malloc_ok : bool;
  cno_hpack_init : Z -> cno_hpack_t;
  cno_hpack_setlimit : cno_hpack_t -> Z -> cno_hpack_t;
  cno_hpack_decode : cno_hpack_t -> bytes -> Z ->
                     cno_hpack_t * (list cno_header_t + cno_error_kind);
  cno_connection_proceed_http1 : M bool
}.

Section Engine.

Variable env : cno_env.

(** [CNO_FIRE(conn, cb, ...)] *)
Definition CNO_FIRE (e : cno_event) : M unit := fun c =>
  (c, [e], match callback env e with None => Ok tt | Some k => Err k end).

(** ** The stream table *)

Definition cno_stream_is_local (c : cno_connection_t) (id : Z) : bool :=
  id mod 2 =? (if client c then 1 else 0).

Definition cno_connection_is_http2 (c : cno_connection_t) : bool :=
  match state c with
  | CNO_CONNECTION_INIT
  | CNO_CONNECTION_PREFACE
  | CNO_CONNECTION_READY
  | CNO_CONNECTION_READY_NO_SETTINGS
  | CNO_CONNECTION_HTTP1_READING_UPGRADE => true
  | _ => false
  end.

Definition bucket_of (id : Z) : Z := id mod CNO_STREAM_BUCKETS.

Definition set_bucket (b : Z) (chain : list cno_stream_t) (c : cno_connection_t) :=
  set_streams (fun j => if j =? b then chain else streams c j) c.

(** A [struct cno_stream_t *] is modelled by the id of the node it points
    to: the first node with that id in its bucket, which is the node
    [cno_stream_find] returns and the node [cno_stream_new] links. *)
Definition cno_stream_find (c : cno_connection_t) (id : Z) : option cno_stream_t :=
  find (fun s => stream_id s =? id) (streams c (bucket_of id)).

(** [*stream]; a pointer to a freed node has nothing to read. *)
Definition deref (p : Z) : M cno_stream_t := fun c =>
  match cno_stream_find c p with
  | Some s => (c, [], Ok s)
  | None => (c, [], Stuck FREED_STREAM)
  end.

Fixpoint chain_update (p : Z) (f : cno_stream_t -> cno_stream_t)
         (l : list cno_stream_t) : list cno_stream_t :=
  match l with
  | [] => []
  | s :: t => if stream_id s =? p then f s :: t else s :: chain_update p f t
  end.

Fixpoint chain_remove (p : Z) (l : list cno_stream_t) : list cno_stream_t :=
  match l with
  | [] => []
  | s :: t => if stream_id s =? p then t else s :: chain_remove p t
  end.

(** [stream->field = ...] through the pointer [p]. *)
Definition stream_update (p : Z) (f : cno_stream_t -> cno_stream_t) : M unit :=
  _ <- deref p ;;
  modify (fun c => set_bucket (bucket_of p) (chain_update p f (streams c (bucket_of p))) c).

Definition stream_count_add (local : bool) (d : Z) (c : cno_connection_t) :=
  set_stream_count
    (side_set (stream_count c) local (u32 (side_get (stream_count c) local + d))) c.

Definition cno_stream_new (id : Z) (local : bool) : M Z :=
  c <- get ;;
  if negb (Bool.eqb (cno_stream_is_local c id) local) then CNO_ERROR INVALID_STREAM
  else if cno_connection_is_http2 c && (id <=? side_get (last_stream c) local)
  then CNO_ERROR INVALID_STREAM
  else if negb (cno_connection_is_http2 c) && negb (id =? 1)
  then CNO_ERROR INVALID_STREAM
  else if side_get (stream_count c) local
          >=? max_concurrent_streams (side_get (settings c) (negb local))
  then (if local then CNO_ERROR WOULD_BLOCK else CNO_ERROR TRANSPORT)
  else if negb (malloc_ok env) then CNO_ERROR NO_MEMORY
  else
    let next := streams c (bucket_of id) in
    let s := mk_stream id 0
               (i32 (initial_window_size (side_get (settings c) CNO_LOCAL)))
               (i32 (initial_window_size (side_get (settings c) CNO_REMOTE))) in
    modify (fun c => set_last_stream (side_set (last_stream c) local id) c) ;;
    modify (set_bucket (bucket_of id) (s :: next)) ;;
    modify (stream_count_add local 1) ;;
    r <- attempt (CNO_FIRE (on_stream_start id)) ;;
    match r with
    | Ok _ => ret id
    | _ =>
        modify (set_bucket (bucket_of id) next) ;;
        modify (stream_count_add local (-1)) ;;
        _ <- finish r ;; ret id
    end.

Definition cno_stream_free (p : Z) : M unit :=
  s <- deref p ;;
  modify (fun c => stream_count_add (cno_stream_is_local c (stream_id s)) (-1) c) ;;
  modify (fun c => set_bucket (bucket_of p) (chain_remove p (streams c (bucket_of p))) c).

Definition cno_stream_rst (p : Z) : M unit :=
  s <- deref p ;;
  let id := stream_id s in
  cno_stream_free p ;;
  CNO_FIRE (on_stream_end id).

(** ** Writing frames *)

Definition frame_header (f : cno_frame_t) : bytes :=
  I24 (zlen (payload f)) ++ I8 (type f) ++ I8 (flags f) ++ I32 (stream f).

(** The branch [length <= limit] of [cno_frame_write]: one frame on the
    wire. *)
Definition cno_frame_write_one (f : cno_frame_t) : M unit :=
  CNO_FIRE (on_frame_send f) ;;
  CNO_FIRE (on_write (frame_header f)) ;;
  if zlen (payload f) =? 0 then ret tt else CNO_FIRE (on_write (payload f)).

(** The [while (length > limit)] loop and the last part.  [part] carries
    the bytes from [part.payload.data] to the end of the original payload,
    so that [length] is their number; a part is written with
    [part.payload.size = limit], which sends the recursive call through
    [cno_frame_write_one].  The loop makes no progress when [limit] is 0:
    the fuel then runs out and the execution is stuck. *)
Fixpoint cno_frame_write_parts (fuel : nat) (limit carry_on_last : Z)
         (frame part : cno_frame_t) : M unit :=
  if zlen (payload part) >? limit then
    match fuel with
    | O => get_stuck LOOPS_FOREVER
    | S fuel' =>
        cno_frame_write_one (frame_set_payload (ztake limit (payload part)) part) ;;
        let part := frame_set_flags
                      (clear_flag (flags part)
                                  (Z.lor CNO_FLAG_PRIORITY CNO_FLAG_END_STREAM)) part in
        let part := frame_set_payload (zdrop limit (payload part)) part in
        let part := if negb (type part =? CNO_FRAME_DATA)
                    then frame_set_type CNO_FRAME_CONTINUATION part else part in
        cno_frame_write_parts fuel' limit carry_on_last frame part
    end
  else
    cno_frame_write_one
      (frame_set_flags (Z.lor (flags part) (Z.land (flags frame) carry_on_last)) part).

Definition cno_frame_write (frame : cno_frame_t) : M unit :=
  c <- get ;;
  let length := zlen (payload frame) in
  let limit := max_frame_size (side_get (settings c) CNO_REMOTE) in
  if length <=? limit then cno_frame_write_one frame
  else if has_flag (flags frame) CNO_FLAG_PADDED then CNO_ERROR ASSERTION
  else if negb (type frame =? CNO_FRAME_DATA)
          && negb (type frame =? CNO_FRAME_HEADERS)
          && negb (type frame =? CNO_FRAME_PUSH_PROMISE)
  then CNO_ERROR ASSERTION
  else
    let carry_on_last :=
      if type frame =? CNO_FRAME_DATA then CNO_FLAG_END_STREAM else CNO_FLAG_END_HEADERS in
    let part := frame_set_flags (clear_flag (flags frame) carry_on_last) frame in
    cno_frame_write_parts (Z.to_nat length) limit carry_on_last frame part.

(** The loop of [cno_frame_write_settings]: [i] is the identifier after
    [++i], [ax] and [bx] walk the two arrays. *)
Fixpoint settings_diff (i : Z) (ax bx : list Z) : bytes :=
  match ax, bx with
  | a :: ax', b :: bx' =>
      if i <? CNO_SETTINGS_UNDEFINED
      then (if negb (a =? b) then I16 i ++ I32 b else []) ++ settings_diff (i + 1) ax' bx'
      else []
  | _, _ => []
  end.

Definition cno_frame_write_settings (previous current : cno_settings_t) : M unit :=
  let payload := settings_diff 1 (settings_array previous) (settings_array current) in
  cno_frame_write (mk_frame CNO_FRAME_SETTINGS 0 0 payload).

Definition cno_stream_rst_by_local (p : Z) : M unit :=
  s <- deref p ;;
  modify (fun c =>
    set_recently_reset
      (list_set (recently_reset c) (Z.to_nat (recently_reset_next c)) (stream_id s)) c) ;;
  modify (fun c =>
    set_recently_reset_next ((recently_reset_next c + 1) mod CNO_STREAM_RESET_HISTORY) c) ;;
  cno_stream_rst p.

Definition cno_frame_write_rst_stream (p : Z) (code : Z) : M unit :=
  s <- deref p ;;
  cno_frame_write (mk_frame CNO_FRAME_RST_STREAM 0 (stream_id s) (I32 code)) ;;
  if negb (has_flag (accept s) CNO_ACCEPT_HEADERS) then cno_stream_rst_by_local p
  else
    stream_update p (fun s => stream_set_accept (clear_flag (accept s) CNO_ACCEPT_OUTBOUND) s) ;;
    stream_update p (fun s => stream_set_accept (Z.lor (accept s) CNO_ACCEPT_NOP_HEADERS) s).

Definition cno_frame_write_goaway (code : Z) : M unit :=
  c <- get ;;
  when (negb (goaway_sent c =? 0))
       (modify (fun c => set_goaway_sent (side_get (last_stream c) CNO_REMOTE) c)) ;;
  c <- get ;;
  cno_frame_write (mk_frame CNO_FRAME_GOAWAY 0 0 (I32 (goaway_sent c) ++ I32 code)).

(** [cno_frame_write_error]: shut the connection down, then throw
    TRANSPORT. *)
Definition cno_frame_write_error {A} (code : Z) : M A :=
  cno_frame_write_goaway code ;; CNO_ERROR TRANSPORT.

(** ** Inbound frames *)

Definition cno_buffer_eq (a b : string) : bool := String.eqb a b.
Definition cno_buffer_startswith (a b : string) : bool := String.prefix b a.

(** Modelled from the spec: [cno_buffer_dyn_concat] (common.c is not among
    the sources) appends to a dynamic buffer and fails with NO_MEMORY
    (spec 4.1). *)
Definition cno_buffer_dyn_concat_continued (data : bytes) : M unit :=
  if malloc_ok env then modify (fun c => set_continued (continued c ++ data) c)
  else CNO_ERROR NO_MEMORY.

Definition cno_frame_handle_end_stream (p : Z) : M unit :=
  stream_update p (fun s => stream_set_accept (clear_flag (accept s) CNO_ACCEPT_INBOUND) s) ;;
  s <- deref p ;;
  let half_open := negb (accept s =? 0) in
  CNO_FIRE (on_message_end (stream_id s)) ;;
  if half_open then ret tt else cno_stream_rst p.

(** The first loop of [cno_frame_handle_message]: the index of the first
    header whose name does not start with a colon. *)
Fixpoint first_non_pseudo (hs : list cno_header_t) : nat :=
  match hs with
  | h :: t => if cno_buffer_startswith (name h) ":" then S (first_non_pseudo t) else O
  | [] => O
  end.

Definition CNO_HEADER_EMPTY : cno_header_t := mk_header "" "".

(** Locals of [cno_frame_handle_message] that the loop over the
    pseudo-headers updates: the header array, [into], the message fields
    and [has_scheme]. *)
Record pseudo_state : Type := mk_pseudo {
  ps_array : list cno_header_t;
  ps_into : nat;
  ps_code : Z;
  ps_method : cno_buffer_t;
  ps_path : cno_buffer_t;
  ps_has_scheme : bool
}.

(** [save_header:] the header at [it] is swapped with the one at [--into]. *)
Definition save_header (it : nat) (st : pseudo_state) (has_scheme : bool) : pseudo_state :=
  let into := pred (ps_into st) in
  let arr := ps_array st in
  let arr' :=
    if Nat.eqb it into then arr
    else list_set (list_set arr it (nth into arr CNO_HEADER_EMPTY))
                  into (nth it arr CNO_HEADER_EMPTY) in
  mk_pseudo arr' into (ps_code st) (ps_method st) (ps_path st) has_scheme.

Definition is_digit (a : ascii) : bool :=
  (48 <=? Z.of_nat (nat_of_ascii a)) && (Z.of_nat (nat_of_ascii a) <=? 57).
Definition is_upper (a : ascii) : bool :=
  (65 <=? Z.of_nat (nat_of_ascii a)) && (Z.of_nat (nat_of_ascii a) <=? 90).

(** The digits of [:status]; [msg->code] is an [int]. *)
Fixpoint parse_status (v : string) (code : Z) : option Z :=
  match v with
  | EmptyString => Some code
  | String a v' =>
      if negb (is_digit a) then None
      else parse_status v' (i32 (code * 10 + (Z.of_nat (nat_of_ascii a) - 48)))
  end.

Fixpoint has_upper (s : string) : bool :=
  match s with
  | EmptyString => false
  | String a s' => is_upper a || has_upper s'
  end.

(** [while (it-- != msg->headers)]: [None] is [goto invalid_message]. *)
Fixpoint pseudo_loop (it : nat) (trailers is_response : bool)
         (st : pseudo_state) : option pseudo_state :=
  match it with
  | O => Some st
  | S it =>
      let h := nth it (ps_array st) CNO_HEADER_EMPTY in
      if trailers then None
      else if is_response then
        if cno_buffer_eq (name h) ":status" then
          if negb (ps_code st =? 0) then None
          else match parse_status (value h) (ps_code st) with
               | None => None
               | Some code' =>
                   pseudo_loop it trailers is_response
                     (mk_pseudo (ps_array st) (ps_into st) code'
                                (ps_method st) (ps_path st) (ps_has_scheme st))
               end
        else None
      else if cno_buffer_eq (name h) ":path" then
        if negb (buffer_is_null (ps_path st)) then None
        else pseudo_loop it trailers is_response
               (mk_pseudo (ps_array st) (ps_into st) (ps_code st)
                          (ps_method st) (Some (value h)) (ps_has_scheme st))
      else if cno_buffer_eq (name h) ":method" then
        if negb (buffer_is_null (ps_method st)) then None
        else pseudo_loop it trailers is_response
               (mk_pseudo (ps_array st) (ps_into st) (ps_code st)
                          (Some (value h)) (ps_path st) (ps_has_scheme st))
      else if cno_buffer_eq (name h) ":authority" then
        pseudo_loop it trailers is_response (save_header it st (ps_has_scheme st))
      else if cno_buffer_eq (name h) ":scheme" then
        if ps_has_scheme st then None
        else pseudo_loop it trailers is_response (save_header it st true)
      else None
  end.

(** [for (it = first_non_pseudo; it != end; ++it)] *)
Definition regular_ok (hs : list cno_header_t) : bool :=
  forallb (fun h => negb (cno_buffer_startswith (name h) ":")
                    && negb (has_upper (name h))) hs.

Definition cno_frame_handle_message (p : Z) (frame : cno_frame_t)
           (msg : cno_message_t) : M unit :=
  c <- get ;;
  s <- deref p ;;
  let invalid_message := cno_frame_write_rst_stream p CNO_RST_PROTOCOL_ERROR in
  let is_response := client c && (continued_promise c =? 0) in
  let k := first_non_pseudo (headers msg) in
  match pseudo_loop k (has_flag (accept s) CNO_ACCEPT_TRAILERS) is_response
          (mk_pseudo (headers msg) k (code msg) (method msg) (path msg) false) with
  | None => invalid_message
  | Some st =>
      let msg := mk_message (ps_code st) (ps_method st) (ps_path st)
                            (skipn (ps_into st) (ps_array st)) in
      if negb (regular_ok (skipn k (ps_array st))) then invalid_message
      else if has_flag (accept s) CNO_ACCEPT_TRAILERS then
        if negb (has_flag (flags frame) CNO_FLAG_END_STREAM) then invalid_message
        else
          stream_update p
            (fun s => stream_set_accept (clear_flag (accept s) CNO_ACCEPT_INBOUND) s) ;;
          CNO_FIRE (on_message_trail (stream_id s) msg) ;;
          cno_frame_handle_end_stream p
      else if (if is_response then code msg =? 0
               else buffer_is_null (path msg) || (buffer_size (path msg) =? 0)
                    || buffer_is_null (method msg) || (buffer_size (method msg) =? 0)
                    || negb (ps_has_scheme st))
      then invalid_message
      else if negb (continued_promise c =? 0) then
        CNO_FIRE (on_message_push (stream_id s) msg (continued_stream c))
      else
        stream_update p
          (fun s => stream_set_accept (clear_flag (accept s) CNO_ACCEPT_HEADERS) s) ;;
        stream_update p
          (fun s => stream_set_accept
                      (Z.lor (accept s) (Z.lor CNO_ACCEPT_TRAILERS CNO_ACCEPT_DATA)) s) ;;
        s <- deref p ;;
        if has_flag (accept s) CNO_ACCEPT_NOP_HEADERS then cno_stream_rst_by_local p
        else
          CNO_FIRE (on_message_start (stream_id s) msg) ;;
          if has_flag (flags frame) CNO_FLAG_END_STREAM
          then cno_frame_handle_end_stream p else ret tt
  end.

Definition cno_frame_handle_end_headers (p : Z) (frame : cno_frame_t) : M unit :=
  c <- get ;;
  match cno_hpack_decode env (decoder c) (continued c) CNO_MAX_HEADERS with
  | (dec, inr e) =>
      modify (set_decoder dec) ;;
      modify (set_continued []) ;;
      r <- attempt (cno_frame_write_goaway CNO_RST_COMPRESSION_ERROR) ;;
      match r with
      | Ok _ => CNO_ERROR e
      | _ => finish r
      end
  | (dec, inl hs) =>
      modify (set_decoder dec) ;;
      failed <- attempt (cno_frame_handle_message p frame
                           (mk_message 0 CNO_BUFFER_EMPTY CNO_BUFFER_EMPTY hs)) ;;
      modify (set_continued []) ;;
      modify (set_continued_stream 0) ;;
      modify (set_continued_promise 0) ;;
      finish failed
  end.

Definition cno_frame_handle_padding (frame : cno_frame_t) : M cno_frame_t :=
  if has_flag (flags frame) CNO_FLAG_PADDED then
    if zlen (payload frame) =? 0 then cno_frame_write_error CNO_RST_FRAME_SIZE_ERROR
    else
      let padding := read1 (payload frame) + 1 in
      if padding >? zlen (payload frame) then cno_frame_write_error CNO_RST_PROTOCOL_ERROR
      else ret (frame_set_payload
                  (ztake (zlen (payload frame) - padding) (zdrop 1 (payload frame))) frame)
  else ret frame.

Definition cno_frame_handle_priority_prefix (stream_p : option Z)
           (frame : cno_frame_t) : M unit :=
  let target := Z.land (read4 (payload frame)) 2147483647 in
  if target =? stream frame then
    match stream_p with
    | Some p => cno_frame_write_rst_stream p CNO_RST_PROTOCOL_ERROR
    | None => cno_frame_write_error CNO_RST_PROTOCOL_ERROR
    end
  else ret tt.

Definition cno_frame_handle_headers (stream_p : option Z) (frame : cno_frame_t) : M unit :=
  frame <- cno_frame_handle_padding frame ;;
  p <- match stream_p with
       | Some p => ret p
       | None =>
           c <- get ;;
           if client c then cno_frame_write_error CNO_RST_PROTOCOL_ERROR
           else
             p <- cno_stream_new (stream frame) CNO_REMOTE ;;
             stream_update p
               (stream_set_accept
                  (Z.lor CNO_ACCEPT_HEADERS
                         (Z.lor CNO_ACCEPT_WRITE_HEADERS CNO_ACCEPT_WRITE_PUSH))) ;;
             ret p
       end ;;
  s <- deref p ;;
  (if has_flag (accept s) CNO_ACCEPT_TRAILERS then
     stream_update p (fun s => stream_set_accept (clear_flag (accept s) CNO_ACCEPT_DATA) s) ;;
     if negb (has_flag (flags frame) CNO_FLAG_END_STREAM)
     then cno_frame_write_error CNO_RST_PROTOCOL_ERROR else ret tt
   else if negb (has_flag (accept s) CNO_ACCEPT_HEADERS)
   then cno_frame_write_error CNO_RST_PROTOCOL_ERROR else ret tt) ;;
  frame <- (if has_flag (flags frame) CNO_FLAG_PRIORITY then
              if zlen (payload frame) <? 5 then cno_frame_write_error CNO_RST_FRAME_SIZE_ERROR
              else
                cno_frame_handle_priority_prefix (Some p) frame ;;
                ret (frame_set_payload (zdrop 5 (payload frame)) frame)
            else ret frame) ;;
  modify (set_continued_flags (Z.land (flags frame) CNO_FLAG_END_STREAM)) ;;
  s <- deref p ;;
  modify (set_continued_stream (stream_id s)) ;;
  cno_buffer_dyn_concat_continued (payload frame) ;;
  if has_flag (flags frame) CNO_FLAG_END_HEADERS
  then cno_frame_handle_end_headers p frame else ret tt.

Definition cno_frame_handle_push_promise (stream_p : option Z) (frame : cno_frame_t) : M unit :=
  frame <- cno_frame_handle_padding frame ;;
  c <- get ;;
  match stream_p with
  | None => cno_frame_write_error CNO_RST_PROTOCOL_ERROR
  | Some p =>
      s <- deref p ;;
      if (enable_push (side_get (settings c) CNO_LOCAL) =? 0)
         || negb (has_flag (accept s) CNO_ACCEPT_PUSH)
      then cno_frame_write_error CNO_RST_PROTOCOL_ERROR
      else if zlen (payload frame) <? 4 then cno_frame_write_error CNO_RST_FRAME_SIZE_ERROR
      else
        let promised := read4 (payload frame) in
        child <- cno_stream_new promised CNO_REMOTE ;;
        stream_update child (stream_set_accept CNO_ACCEPT_HEADERS) ;;
        modify (set_continued_flags 0) ;;
        s <- deref p ;;
        modify (set_continued_stream (stream_id s)) ;;
        modify (set_continued_promise promised) ;;
        cno_buffer_dyn_concat_continued (zdrop 4 (payload frame)) ;;
        if has_flag (flags frame) CNO_FLAG_END_HEADERS
        then cno_frame_handle_end_headers child frame else ret tt
  end.

Definition cno_frame_handle_continuation (stream_p : option Z) (frame : cno_frame_t) : M unit :=
  c <- get ;;
  match stream_p with
  | None => cno_frame_write_error CNO_RST_PROTOCOL_ERROR
  | Some p =>
      if continued_stream c =? 0 then cno_frame_write_error CNO_RST_PROTOCOL_ERROR
      else
        let max_buf_size :=
          (CNO_MAX_CONTINUATIONS + 1) * max_frame_size (side_get (settings c) CNO_LOCAL) in
        if zlen (payload frame) + zlen (continued c) >? max_buf_size
        then cno_frame_write_error CNO_RST_ENHANCE_YOUR_CALM
        else
          cno_buffer_dyn_concat_continued (payload frame) ;;
          let frame := frame_set_flags (Z.lor (flags frame) (continued_flags c)) frame in
          if has_flag (flags frame) CNO_FLAG_END_HEADERS
          then cno_frame_handle_end_headers p frame else ret tt
  end.

Definition cno_frame_handle_invalid_stream (frame : cno_frame_t) : M unit :=
  c <- get ;;
  if negb (stream frame =? 0)
     && (stream frame <=? side_get (last_stream c) (cno_stream_is_local c (stream frame)))
     && existsb (fun r => r =? stream frame)
                (firstn (Z.to_nat CNO_STREAM_RESET_HISTORY) (recently_reset c))
  then ret tt
  else cno_frame_write_error CNO_RST_PROTOCOL_ERROR.

Definition cno_frame_handle_data (stream_p : option Z) (frame : cno_frame_t) : M unit :=
  let length := u32 (zlen (payload frame)) in
  frame <- cno_frame_handle_padding frame ;;
  when (negb (length =? 0))
       (cno_frame_write (mk_frame CNO_FRAME_WINDOW_UPDATE 0 0 (I32 length))) ;;
  match stream_p with
  | None => cno_frame_handle_invalid_stream frame
  | Some p =>
      s <- deref p ;;
      if negb (has_flag (accept s) CNO_ACCEPT_DATA)
      then cno_frame_write_rst_stream p CNO_RST_STREAM_CLOSED
      else
        CNO_FIRE (on_message_data (stream frame) (payload frame)) ;;
        if has_flag (flags frame) CNO_FLAG_END_STREAM then cno_frame_handle_end_stream p
        else
          c <- get ;;
          if (length =? 0) || has_flag (conn_flags c) CNO_CONN_FLAG_MANUAL_FLOW_CONTROL
          then ret tt
          else
            s <- deref p ;;
            cno_frame_write (mk_frame CNO_FRAME_WINDOW_UPDATE 0 (stream_id s) (I32 length))
  end.

Definition cno_frame_handle_ping (stream_p : option Z) (frame : cno_frame_t) : M unit :=
  if negb (stream frame =? 0) then cno_frame_write_error CNO_RST_PROTOCOL_ERROR
  else if negb (zlen (payload frame) =? 8) then cno_frame_write_error CNO_RST_FRAME_SIZE_ERROR
  else if has_flag (flags frame) CNO_FLAG_ACK then CNO_FIRE (on_pong (payload frame))
  else cno_frame_write (mk_frame CNO_FRAME_PING CNO_FLAG_ACK 0 (payload frame)).

Definition cno_frame_handle_goaway (stream_p : option Z) (frame : cno_frame_t) : M unit :=
  if negb (stream frame =? 0) then cno_frame_write_error CNO_RST_PROTOCOL_ERROR
  else if zlen (payload frame) <? 8 then cno_frame_write_error CNO_RST_FRAME_SIZE_ERROR
  else
    let error := read4 (zdrop 4 (payload frame)) in
    if negb (error =? CNO_RST_NO_ERROR) then CNO_ERROR TRANSPORT
    else CNO_ERROR DISCONNECT.

Definition cno_frame_handle_rst_stream (stream_p : option Z) (frame : cno_frame_t) : M unit :=
  match stream_p with
  | None => cno_frame_handle_invalid_stream frame
  | Some p =>
      if negb (zlen (payload frame) =? 4) then cno_frame_write_error CNO_RST_FRAME_SIZE_ERROR
      else cno_stream_rst p
  end.

Definition cno_frame_handle_priority (stream_p : option Z) (frame : cno_frame_t) : M unit :=
  if stream frame =? 0 then cno_frame_write_error CNO_RST_PROTOCOL_ERROR
  else if negb (zlen (payload frame) =? 5) then cno_frame_write_error CNO_RST_FRAME_SIZE_ERROR
  else cno_frame_handle_priority_prefix stream_p frame.

(** [for (; ptr != end; ptr += 6)] over the [n] entries of a SETTINGS
    payload, writing through [cfg = &conn->settings[CNO_REMOTE]]. *)
Fixpoint settings_store (n : nat) (ptr : bytes) (cfg : cno_settings_t) : cno_settings_t :=
  match n with
  | O => cfg
  | S n' =>
      let setting := read2 ptr in
      let value := read4 (skipn 2 ptr) in
      settings_store n' (skipn 6 ptr)
        (if negb (setting =? 0) && (setting <? CNO_SETTINGS_UNDEFINED)
         then settings_array_set cfg (setting - 1) value else cfg)
  end.

Definition hpack_set_limit_upper (v : Z) (h : cno_hpack_t) : cno_hpack_t :=
  mk_hpack (hpack_table h) (hpack_size h) (hpack_limit h) v
           (limit_update_min h) (limit_update_end h).

Definition cno_frame_handle_settings (stream_p : option Z) (frame : cno_frame_t) : M unit :=
  if negb (stream frame =? 0) then cno_frame_write_error CNO_RST_PROTOCOL_ERROR
  else if has_flag (flags frame) CNO_FLAG_ACK then
    if negb (zlen (payload frame) =? 0) then cno_frame_write_error CNO_RST_FRAME_SIZE_ERROR
    else ret tt
  else if negb (zlen (payload frame) mod 6 =? 0)
  then cno_frame_write_error CNO_RST_FRAME_SIZE_ERROR
  else
    modify (fun c =>
      set_settings
        (side_set (settings c) CNO_REMOTE
           (settings_store (Z.to_nat (zlen (payload frame) / 6)) (payload frame)
                           (side_get (settings c) CNO_REMOTE))) c) ;;
    c <- get ;;
    let cfg := side_get (settings c) CNO_REMOTE in
    if enable_push cfg >? 1 then cno_frame_write_error CNO_RST_PROTOCOL_ERROR
    else if initial_window_size cfg >? 2147483647
    then cno_frame_write_error CNO_RST_FLOW_CONTROL_ERROR
    else if (max_frame_size cfg <? 16384) || (max_frame_size cfg >? 16777215)
    then cno_frame_write_error CNO_RST_PROTOCOL_ERROR
    else
      modify (fun c => set_encoder (hpack_set_limit_upper (header_table_size cfg) (encoder c)) c) ;;
      modify (fun c => set_encoder
                         (cno_hpack_setlimit env (encoder c) (limit_upper (encoder c))) c) ;;
      cno_frame_write (mk_frame CNO_FRAME_SETTINGS CNO_FLAG_ACK 0 []) ;;
      CNO_FIRE on_settings.

Definition cno_frame_handle_window_update (stream_p : option Z) (frame : cno_frame_t) : M unit :=
  if negb (zlen (payload frame) =? 4) then cno_frame_write_error CNO_RST_FRAME_SIZE_ERROR
  else
    let increment := read4 (payload frame) in
    if (increment =? 0) || (increment >? 2147483647)
    then cno_frame_write_error CNO_RST_PROTOCOL_ERROR
    else
      if stream frame =? 0 then
        c <- get ;;
        if conn_window_send c >? 2147483647 - i32 increment
        then cno_frame_write_error CNO_RST_FLOW_CONTROL_ERROR
        else
          modify (fun c => set_conn_window_send (i32 (conn_window_send c + increment)) c) ;;
          CNO_FIRE (on_flow_increase (stream frame))
      else
        match stream_p with
        | None => cno_frame_handle_invalid_stream frame
        | Some p =>
            s <- deref p ;;
            if window_send s >? 2147483647 - i32 increment
            then cno_frame_write_rst_stream p CNO_RST_FLOW_CONTROL_ERROR
            else
              stream_update p
                (fun s => stream_set_window_send (i32 (window_send s + increment)) s) ;;
              CNO_FIRE (on_flow_increase (stream frame))
        end.

Definition CNO_FRAME_HANDLERS : list (option Z -> cno_frame_t -> M unit) :=
  [ cno_frame_handle_data;
    cno_frame_handle_headers;
    cno_frame_handle_priority;
    cno_frame_handle_rst_stream;
    cno_frame_handle_settings;
    cno_frame_handle_push_promise;
    cno_frame_handle_ping;
    cno_frame_handle_goaway;
    cno_frame_handle_window_update;
    cno_frame_handle_continuation ].

Definition cno_frame_handle (frame : cno_frame_t) : M unit :=
  c <- get ;;
  if negb (continued_stream c =? 0)
     && (negb (type frame =? CNO_FRAME_CONTINUATION)
         || negb (stream frame =? continued_stream c))
  then cno_frame_write_error CNO_RST_PROTOCOL_ERROR
  else if type frame >=? CNO_FRAME_UNKNOWN then ret tt
  else
    let stream_p := option_map stream_id (cno_stream_find c (stream frame)) in
    match nth_error CNO_FRAME_HANDLERS (Z.to_nat (type frame)) with
    | Some handler => handler stream_p frame
    | None => ret tt
    end.

(** ** Configuration and life cycle *)

Definition state_eqb (a b : CNO_CONNECTION_STATE) : bool :=
  match a, b with
  | CNO_CONNECTION_UNDEFINED, CNO_CONNECTION_UNDEFINED
  | CNO_CONNECTION_INIT, CNO_CONNECTION_INIT
  | CNO_CONNECTION_PREFACE, CNO_CONNECTION_PREFACE
  | CNO_CONNECTION_READY_NO_SETTINGS, CNO_CONNECTION_READY_NO_SETTINGS
  | CNO_CONNECTION_READY, CNO_CONNECTION_READY
  | CNO_CONNECTION_HTTP1_READY, CNO_CONNECTION_HTTP1_READY
  | CNO_CONNECTION_HTTP1_READING, CNO_CONNECTION_HTTP1_READING
  | CNO_CONNECTION_HTTP1_READING_UPGRADE, CNO_CONNECTION_HTTP1_READING_UPGRADE
  | CNO_CONNECTION_UNKNOWN_PROTOCOL_UPGRADE, CNO_CONNECTION_UNKNOWN_PROTOCOL_UPGRADE
  | CNO_CONNECTION_UNKNOWN_PROTOCOL, CNO_CONNECTION_UNKNOWN_PROTOCOL => true
  | _, _ => false
  end.

Definition cno_connection_set_config (new_settings : cno_settings_t) : M unit :=
  if negb (enable_push new_settings =? 0) && negb (enable_push new_settings =? 1)
  then CNO_ERROR ASSERTION
  else if (max_frame_size new_settings <? 16384) || (max_frame_size new_settings >? 16777215)
  then CNO_ERROR ASSERTION
  else
    c <- get ;;
    when (negb (state_eqb (state c) CNO_CONNECTION_INIT) && cno_connection_is_http2 c)
         (cno_frame_write_settings (side_get (settings c) CNO_LOCAL) new_settings) ;;
    modify (fun c => set_settings (side_set (settings c) CNO_LOCAL new_settings) c) ;;
    modify (fun c => set_decoder
                       (hpack_set_limit_upper (header_table_size new_settings) (decoder c)) c).

Inductive CNO_CONNECTION_KIND : Type := CNO_SERVER | CNO_CLIENT.

Definition cno_connection_init (kind : CNO_CONNECTION_KIND) : cno_connection_t :=
  mk_connection
    (match kind with CNO_CLIENT => true | CNO_SERVER => false end)
    CNO_CONNECTION_UNDEFINED
    0
    (mk_sided 0 0)
    (mk_sided 0 0)
    (mk_sided CNO_SETTINGS_CONSERVATIVE CNO_SETTINGS_INITIAL)
    (initial_window_size CNO_SETTINGS_STANDARD)
    (initial_window_size CNO_SETTINGS_STANDARD)
    0 [] [] 0 0 0 0
    (cno_hpack_init env (header_table_size CNO_SETTINGS_INITIAL))
    (cno_hpack_init env (header_table_size CNO_SETTINGS_STANDARD))
    (repeat 0 (Z.to_nat CNO_STREAM_RESET_HISTORY))
    0
    (fun _ => []).

(** ** The inbound driver *)

Definition CNO_PREFACE : bytes :=
  [80; 82; 73; 32; 42; 32; 72; 84; 84; 80; 47; 50; 46; 48; 13; 10; 13; 10;
   83; 77; 13; 10; 13; 10].

Fixpoint bytes_eqb (a b : bytes) : bool :=
  match a, b with
  | [], [] => true
  | x :: a', y :: b' => (x =? y) && bytes_eqb a' b'
  | _, _ => false
  end.

(** Modelled from the spec: [cno_buffer_dyn_shift] and
    [cno_buffer_dyn_concat] on [conn->buffer] (spec 4.1). *)
Definition cno_buffer_dyn_shift_buffer (n : Z) : M unit :=
  modify (fun c => set_buffer (zdrop n (buffer c)) c).
Definition cno_buffer_dyn_concat_buffer (data : bytes) : M unit :=
  if malloc_ok env then modify (fun c => set_buffer (buffer c ++ data) c)
  else CNO_ERROR NO_MEMORY.

Definition cno_connection_upgrade : M unit :=
  c <- get ;;
  when (client c) (CNO_FIRE (on_write CNO_PREFACE)) ;;
  cno_frame_write_settings CNO_SETTINGS_STANDARD (side_get (settings c) CNO_LOCAL).

(** The cases READY_NO_SETTINGS and READY of the switch; the result is
    whether the case ends in [break] (go round the loop again) rather than
    [return CNO_OK]. *)
Definition cno_connection_proceed_ready : M bool :=
  c <- get ;;
  if zlen (buffer c) <? 9 then ret false
  else
    let base := buffer c in
    let m := read3 base in
    if m >? max_frame_size (side_get (settings c) CNO_LOCAL)
    then cno_frame_write_error CNO_RST_FRAME_SIZE_ERROR
    else if zlen (buffer c) <? 9 + m then ret false
    else
      let frame := mk_frame (read1 (skipn 3 base)) (read1 (skipn 4 base))
                            (Z.land (read4 (skipn 5 base)) 2147483647)
                            (ztake m (skipn 9 base)) in
      if state_eqb (state c) CNO_CONNECTION_READY_NO_SETTINGS
         && negb (type frame =? CNO_FRAME_SETTINGS)
      then CNO_ERROR TRANSPORT
      else
        modify (set_state CNO_CONNECTION_READY) ;;
        cno_buffer_dyn_shift_buffer (9 + m) ;;
        c <- get ;;
        when ((goaway_sent c =? 0) || (stream frame <=? goaway_sent c))
             (CNO_FIRE (on_frame frame) ;; cno_frame_handle frame) ;;
        ret true.

(** The number of leading CR and LF bytes of the buffer. *)
Fixpoint leading_crlf (b : bytes) : Z :=
  match b with
  | x :: b' => if (x =? 13) || (x =? 10) then 1 + leading_crlf b' else 0
  | [] => 0
  end.

(** [!strncmp(a, b, n)] for a NUL-terminated [b] and an [a] of at least [n]
    bytes: the first [n] bytes agree, or the bytes up to a NUL that both
    have. *)
Fixpoint strncmp_eq (a b : bytes) (n : nat) : bool :=
  match n with
  | O => true
  | S n' =>
      match a, b with
      | x :: a', y :: b' => (x =? y) && ((x =? 0) || strncmp_eq a' b' n')
      | _, _ => false
      end
  end.

(** The case HTTP1_READY of the switch up to the call of the parser:
    leading line ends are dropped, stream 1 is found or (on a server)
    created, and a server that sees the HTTP/2 client preface goes over to
    HTTP/2.  [CNO_PREFACE.data] is a string literal, NUL-terminated. *)
Definition cno_connection_proceed_http1_ready : M bool :=
  c <- get ;;
  cno_buffer_dyn_shift_buffer (leading_crlf (buffer c)) ;;
  c <- get ;;
  if zlen (buffer c) =? 0 then ret false
  else
    p <- (if client c then
            match cno_stream_find c 1 with
            | Some stream =>
                if negb (has_flag (accept stream) CNO_ACCEPT_HEADERS)
                then CNO_ERROR TRANSPORT else ret (stream_id stream)
            | None => CNO_ERROR TRANSPORT
            end
          else
            p <- match cno_stream_find c 1 with
                 | Some stream => ret (stream_id stream)
                 | None =>
                     p <- cno_stream_new 1 CNO_REMOTE ;;
                     stream_update p (stream_set_accept CNO_ACCEPT_HEADERS) ;;
                     ret p
                 end ;;
            s <- deref p ;;
            if negb (has_flag (accept s) CNO_ACCEPT_HEADERS)
            then CNO_ERROR WOULD_BLOCK else ret p) ;;
    c <- get ;;
    if negb (client c)
       && negb (has_flag (conn_flags c) CNO_CONN_FLAG_DISALLOW_H2_PRIOR_KNOWLEDGE)
       && strncmp_eq (buffer c) (CNO_PREFACE ++ [0]) (List.length (buffer c))
    then
      if zlen (buffer c) <? zlen CNO_PREFACE then ret false
      else
        modify (set_state CNO_CONNECTION_INIT) ;;
        modify (fun c => set_last_stream (side_set (last_stream c) CNO_REMOTE 0) c) ;;
        modify (fun c => set_last_stream (side_set (last_stream c) CNO_LOCAL 0) c) ;;
        cno_stream_rst p ;;
        ret true
    else cno_connection_proceed_http1 env.

(** [while (1) switch (conn->state)]: every [break] costs one unit of
    fuel. *)
Fixpoint cno_connection_proceed (fuel : nat) : M unit :=
  match fuel with
  | O => get_stuck LOOPS_FOREVER
  | S fuel' =>
      c <- get ;;
      again <-
        match state c with
        | CNO_CONNECTION_UNDEFINED => ret false
        | CNO_CONNECTION_INIT =>
            modify (set_state CNO_CONNECTION_PREFACE) ;;
            cno_connection_upgrade ;;
            ret true
        | CNO_CONNECTION_PREFACE =>
            if negb (client c) then
              if zlen (buffer c) <? zlen CNO_PREFACE then ret false
              else if negb (bytes_eqb (ztake (zlen CNO_PREFACE) (buffer c)) CNO_PREFACE)
              then CNO_ERROR TRANSPORT
              else
                cno_buffer_dyn_shift_buffer (zlen CNO_PREFACE) ;;
                modify (set_state CNO_CONNECTION_READY_NO_SETTINGS) ;;
                ret true
            else
              modify (set_state CNO_CONNECTION_READY_NO_SETTINGS) ;;
              ret true
        | CNO_CONNECTION_READY_NO_SETTINGS
        | CNO_CONNECTION_READY => cno_connection_proceed_ready
        | CNO_CONNECTION_HTTP1_READY => cno_connection_proceed_http1_ready
        | _ => cno_connection_proceed_http1 env
        end ;;
      if again then cno_connection_proceed fuel' else ret tt
  end.

Inductive CNO_HTTP_VERSION : Type := CNO_HTTP1 | CNO_HTTP2.

Definition cno_connection_made (fuel : nat) (version : CNO_HTTP_VERSION) : M unit :=
  c <- get ;;
  if negb (state_eqb (state c) CNO_CONNECTION_UNDEFINED) then CNO_ERROR ASSERTION
  else
    modify (set_state (match version with
                       | CNO_HTTP2 => CNO_CONNECTION_INIT
                       | CNO_HTTP1 => CNO_CONNECTION_HTTP1_READY
                       end)) ;;
    cno_connection_proceed fuel.

Definition cno_connection_data_received (fuel : nat) (data : bytes) : M unit :=
  c <- get ;;
  if state_eqb (state c) CNO_CONNECTION_UNDEFINED then CNO_ERROR DISCONNECT
  else
    cno_buffer_dyn_concat_buffer data ;;
    cno_connection_proceed fuel.

(** ** The write side *)

Definition cno_write_reset (stream : Z) (code : Z) : M unit :=
  c <- get ;;
  if negb (cno_connection_is_http2 c) then
    if (stream =? 0) && (code =? CNO_RST_NO_ERROR) then ret tt
    else
      match cno_stream_find c 1 with
      | Some obj => cno_stream_rst (stream_id obj)
      | None => ret tt
      end ;;
      CNO_ERROR DISCONNECT
  else if stream =? 0 then cno_frame_write_goaway code
  else
    match cno_stream_find c stream with
    | Some obj => cno_frame_write_rst_stream (stream_id obj) code
    | None => ret tt
    end.

Definition cno_connection_stop : M unit :=
  cno_write_reset 0 CNO_RST_NO_ERROR.

Definition cno_discard_remaining_payload (p : Z) : M unit :=
  stream_update p (fun s => stream_set_accept (clear_flag (accept s) CNO_ACCEPT_OUTBOUND) s) ;;
  s <- deref p ;;
  if accept s =? 0 then cno_stream_rst_by_local p
  else
    c <- get ;;
    if negb (client c) && cno_connection_is_http2 c
    then cno_frame_write_rst_stream p CNO_RST_NO_ERROR
    else ret tt.

Definition hex_digit (d : Z) : Z := if d <? 10 then 48 + d else 55 + d.

(** The digits that [%zX] prints. *)
Fixpoint hex_upper (fuel : nat) (n : Z) (acc : bytes) : bytes :=
  match fuel with
  | O => acc
  | S fuel' =>
      let acc' := hex_digit (n mod 16) :: acc in
      if n / 16 =? 0 then acc' else hex_upper fuel' (n / 16) acc'
  end.

(** The last statement of [cno_write_data]. *)
Definition cno_write_data_return (p : Z) (length : Z) (final : bool) : M Z :=
  when final (cno_discard_remaining_payload p) ;;
  ret (i32 length).

(** [data] holds the [length] bytes to write. *)
Definition cno_write_data (stream : Z) (data : bytes) (final : bool) : M Z :=
  let length := zlen data in
  c <- get ;;
  if state_eqb (state c) CNO_CONNECTION_UNDEFINED then CNO_ERROR DISCONNECT
  else
    match cno_stream_find c stream with
    | None => CNO_ERROR INVALID_STREAM
    | Some streamobj =>
        let p := stream_id streamobj in
        if negb (has_flag (accept streamobj) CNO_ACCEPT_WRITE_DATA)
        then CNO_ERROR INVALID_STREAM
        else if state_eqb (state c) CNO_CONNECTION_UNKNOWN_PROTOCOL then
          CNO_FIRE (on_write data) ;;
          if final then
            stream_update p
              (fun s => stream_set_accept (clear_flag (accept s) CNO_ACCEPT_WRITE_DATA) s) ;;
            s <- deref p ;;
            when (accept s =? 0) (cno_stream_rst p) ;;
            CNO_ERROR DISCONNECT
          else ret (i32 length)
        else if negb (cno_connection_is_http2 c) then
          let chunked := has_flag (conn_flags c) CNO_CONN_FLAG_WRITING_CHUNKED in
          when (negb (length =? 0))
               (when chunked (CNO_FIRE (on_write (hex_upper 16 length [] ++ [13; 10]))) ;;
                CNO_FIRE (on_write data) ;;
                when chunked (CNO_FIRE (on_write [13; 10]))) ;;
          when (final && chunked) (CNO_FIRE (on_write [48; 13; 10; 13; 10])) ;;
          cno_write_data_return p length final
        else if (conn_window_send c <? 0) || (window_send streamobj <? 0) then ret 0
        else
          let '(length, final) :=
            if length >? u32 (conn_window_send c)
            then (u32 (conn_window_send c), false) else (length, final) in
          let '(length, final) :=
            if length >? u32 (window_send streamobj)
            then (u32 (window_send streamobj), false) else (length, final) in
          if (length =? 0) && negb final then ret 0
          else
            cno_frame_write
              (mk_frame CNO_FRAME_DATA (if final then CNO_FLAG_END_STREAM else 0)
                        stream (ztake length data)) ;;
            modify (fun c => set_conn_window_send (i32 (conn_window_send c - length)) c) ;;
            stream_update p
              (fun s => stream_set_window_send (i32 (window_send s - length)) s) ;;
            cno_write_data_return p length final
    end.

(** ** The rest of the API *)

Definition cno_connection_next_stream (c : cno_connection_t) : Z :=
  if negb (cno_connection_is_http2 c) then 1
  else
    let last := side_get (last_stream c) CNO_LOCAL in
    if client c && (last =? 0) then 1 else u32 (last + 2).

(** [data] holds the eight bytes of the payload. *)
Definition cno_write_ping (data : bytes) : M unit :=
  c <- get ;;
  if negb (cno_connection_is_http2 c) then CNO_ERROR ASSERTION
  else cno_frame_write (mk_frame CNO_FRAME_PING 0 0 data).

Definition cno_write_frame (frame : cno_frame_t) : M unit :=
  c <- get ;;
  if negb (cno_connection_is_http2 c) then CNO_ERROR ASSERTION
  else cno_frame_write frame.

Definition cno_increase_flow_window (stream : Z) (bytes : Z) : M unit :=
  c <- get ;;
  if (bytes =? 0) || (stream =? 0) || negb (cno_connection_is_http2 c)
     || match cno_stream_find c stream with Some _ => false | None => true end
  then ret tt
  else cno_frame_write (mk_frame CNO_FRAME_WINDOW_UPDATE 0 stream (I32 bytes)).

(** [while ( *s ) cno_stream_rst(conn, *s)] on the chain of the bucket [b]:
    its head is reset until the chain is empty.  Every round of the loop
    costs one unit of fuel. *)
Fixpoint cno_connection_lost_bucket (fuel : nat) (b : Z) : M unit :=
  c <- get ;;
  match streams c b with
  | [] => ret tt
  | s :: _ =>
      match fuel with
      | O => get_stuck LOOPS_FOREVER
      | S fuel' => cno_stream_rst (stream_id s) ;; cno_connection_lost_bucket fuel' b
      end
  end.

(** The indices of [conn->streams], in the order of the [for] loops over
    them. *)
Definition stream_buckets : list Z :=
  map Z.of_nat (seq 0 (Z.to_nat CNO_STREAM_BUCKETS)).

Fixpoint cno_connection_lost_buckets (fuel : nat) (bs : list Z) : M unit :=
  match bs with
  | [] => ret tt
  | b :: bs' => cno_connection_lost_bucket fuel b ;; cno_connection_lost_buckets fuel bs'
  end.

Definition cno_connection_lost (fuel : nat) : M unit :=
  c <- get ;;
  if negb (cno_connection_is_http2 c) then
    match cno_stream_find c 1 with
    | Some stream =>
        let p := stream_id stream in
        (if state_eqb (state c) CNO_CONNECTION_UNKNOWN_PROTOCOL
         then CNO_FIRE (on_message_end 1)
         else if has_flag (accept stream) CNO_ACCEPT_DATA then CNO_ERROR TRANSPORT
         else ret tt) ;;
        stream_update p
          (fun s => stream_set_accept (clear_flag (accept s) CNO_ACCEPT_INBOUND) s) ;;
        s <- deref p ;;
        when (accept s =? 0) (cno_stream_rst p)
    | None => ret tt
    end
  else
    modify (set_state CNO_CONNECTION_UNDEFINED) ;;
    cno_connection_lost_buckets fuel stream_buckets.

(** [while (conn->streams[i]) cno_stream_free(conn, conn->streams[i])] *)
Fixpoint cno_connection_reset_bucket (fuel : nat) (b : Z) : M unit :=
  c <- get ;;
  match streams c b with
  | [] => ret tt
  | s :: _ =>
      match fuel with
      | O => get_stuck LOOPS_FOREVER
      | S fuel' => cno_stream_free (stream_id s) ;; cno_connection_reset_bucket fuel' b
      end
  end.

Fixpoint cno_connection_reset_buckets (fuel : nat) (bs : list Z) : M unit :=
  match bs with
  | [] => ret tt
  | b :: bs' => cno_connection_reset_bucket fuel b ;; cno_connection_reset_buckets fuel bs'
  end.

(** ** Formatting with [snprintf] *)

(** config.h *)
Definition CNO_MAX_HTTP1_HEADER_SIZE : Z := 2048.

Definition bytes_of_string (s : string) : bytes :=
  map (fun a => Z.of_nat (nat_of_ascii a)) (list_ascii_of_string s).

Definition string_of_bytes (b : bytes) : string :=
  string_of_list_ascii (map (fun x => ascii_of_nat (Z.to_nat x)) b).

(** [%.*s] with the size of a buffer as its precision: the bytes of the
    buffer up to its end or to the first NUL. *)
Fixpoint until_nul (s : string) : string :=
  match s with
  | EmptyString => EmptyString
  | String a s' => if Ascii.eqb a Ascii.zero then EmptyString else String a (until_nul s')
  end.

Definition fmt_s (s : string) : bytes := bytes_of_string (until_nul s).

(** The same for [msg->method] and [msg->path]; nothing is printed for
    [CNO_BUFFER_EMPTY], whose precision is 0. *)
Definition fmt_buffer (b : cno_buffer_t) : bytes :=
  match b with Some s => fmt_s s | None => [] end.

(** The digits that [%d] prints for a number that is not negative. *)
Fixpoint decimal (fuel : nat) (n : Z) (acc : bytes) : bytes :=
  match fuel with
  | O => acc
  | S fuel' =>
      let acc' := (48 + n mod 10) :: acc in
      if n / 10 =? 0 then acc' else decimal fuel' (n / 10) acc'
  end.

(** [%d] of an [int]. *)
Definition fmt_d (n : Z) : bytes :=
  if n <? 0 then 45 :: decimal 10 (- n) [] else decimal 10 n [].

(** What [snprintf(buffer, size, ...)] leaves in the first [n] bytes of
    [buffer], where [n] is its return value, the length of the whole
    [text]: the text when it fits with its terminator, and otherwise its
    first [size - 1] bytes and the terminator. *)
Definition snprintf_written (size : Z) (text : bytes) : bytes :=
  if zlen text <? size then text else ztake (size - 1) text ++ [0].

Definition buffer_string (b : cno_buffer_t) : string :=
  match b with Some s => s | None => EmptyString end.

(** Modelled from the spec: [cno_buffer_endswith] (common.h is not among the
    sources) tells whether a buffer ends with another (spec 4.7 strips a
    trailing [, chunked]). *)
Definition cno_buffer_endswith (a b : string) : bool :=
  (String.length b <=? String.length a)%nat
  && String.eqb (substring (String.length a - String.length b) (String.length b) a) b.

(** [value.size -= n] *)
Definition buffer_shorten (n : nat) (v : string) : string :=
  substring 0 (String.length v - n) v.

Section Codec.

(** The encoder of hpack.c, which is not among the sources (its interface
    is hpack.h): from the encoder state and the headers, the new state and
    the bytes appended to the payload, or an error. *)
Variable cno_hpack_encode :
  cno_hpack_t -> list cno_header_t -> cno_hpack_t * (bytes + cno_error_kind).
Variable cno_hpack_clear : cno_hpack_t -> cno_hpack_t.

Definition cno_connection_reset (fuel : nat) : M unit :=
  modify (set_buffer []) ;;
  modify (set_continued []) ;;
  modify (fun c => set_encoder (cno_hpack_clear (encoder c)) c) ;;
  modify (fun c => set_decoder (cno_hpack_clear (decoder c)) c) ;;
  cno_connection_reset_buckets fuel stream_buckets.

(** [cno_hpack_encode(&conn->encoder, &payload, ...)]: the bytes appended
    to [payload]. *)
Definition hpack_encode (hs : list cno_header_t) : M bytes :=
  c <- get ;;
  match cno_hpack_encode (encoder c) hs with
  | (enc, inl b) => modify (set_encoder enc) ;; ret b
  | (enc, inr e) => modify (set_encoder enc) ;; CNO_ERROR e
  end.

Definition cno_write_push (stream : Z) (msg : cno_message_t) : M unit :=
  c <- get ;;
  if state_eqb (state c) CNO_CONNECTION_UNDEFINED then CNO_ERROR DISCONNECT
  else if client c then CNO_ERROR ASSERTION
  else if negb (cno_connection_is_http2 c)
          || (enable_push (side_get (settings c) CNO_REMOTE) =? 0)
  then ret tt
  else
    match cno_stream_find c stream with
    | None => CNO_ERROR INVALID_STREAM
    | Some streamobj =>
        if negb (has_flag (accept streamobj) CNO_ACCEPT_WRITE_PUSH) then ret tt
        else
          let child := cno_connection_next_stream c in
          childobj <- cno_stream_new child CNO_LOCAL ;;
          stream_update childobj (stream_set_accept CNO_ACCEPT_WRITE_HEADERS) ;;
          let head := [mk_header ":method" (buffer_string (method msg));
                       mk_header ":path" (buffer_string (path msg))] in
          if negb (malloc_ok env) then CNO_ERROR NO_MEMORY
          else
            b1 <- hpack_encode head ;;
            b2 <- hpack_encode (headers msg) ;;
            cno_frame_write (mk_frame CNO_FRAME_PUSH_PROMISE CNO_FLAG_END_HEADERS stream
                                      (I32 child ++ b1 ++ b2)) ;;
            CNO_FIRE (on_message_start child msg) ;;
            CNO_FIRE (on_message_end child)
    end.

(** One header line of an HTTP/1.x message: [snprintf] into
    [buffer[CNO_MAX_HTTP1_HEADER_SIZE + 3]] and [on_write]. *)
Definition write_http1_header (name value : string) : M unit :=
  let text := fmt_s name ++ bytes_of_string ": " ++ fmt_s value
              ++ [13; 10] in
  let size := zlen text in
  if size >? CNO_MAX_HTTP1_HEADER_SIZE + 3 then CNO_ERROR ASSERTION
  else if negb (size =? 0)
  then CNO_FIRE (on_write (snprintf_written (CNO_MAX_HTTP1_HEADER_SIZE + 3) text))
  else ret tt.

(** The loop over [msg->headers] in HTTP/1.x mode; the result is
    [had_connection_header]. *)
Fixpoint write_http1_headers (hs : list cno_header_t)
         (had_connection_header : bool) : M bool :=
  match hs with
  | [] => ret had_connection_header
  | h :: hs' =>
      if cno_buffer_eq (name h) ":authority" then
        write_http1_header "host" (value h) ;;
        write_http1_headers hs' had_connection_header
      else if cno_buffer_startswith (name h) ":" then
        write_http1_headers hs' had_connection_header
      else if cno_buffer_eq (name h) "connection" then
        write_http1_header (name h) (value h) ;;
        write_http1_headers hs' true
      else if cno_buffer_eq (name h) "content-length" || cno_buffer_eq (name h) "upgrade" then
        modify (fun c =>
          set_conn_flags (clear_flag (conn_flags c) CNO_CONN_FLAG_WRITING_CHUNKED) c) ;;
        write_http1_header (name h) (value h) ;;
        write_http1_headers hs' had_connection_header
      else if cno_buffer_eq (name h) "transfer-encoding" then
        if cno_buffer_eq (value h) "chunked" then
          write_http1_headers hs' had_connection_header
        else
          let value :=
            if cno_buffer_endswith (value h) ", chunked" then buffer_shorten 9 (value h)
            else if cno_buffer_endswith (value h) ",chunked" then buffer_shorten 8 (value h)
            else value h in
          write_http1_header (name h) value ;;
          write_http1_headers hs' had_connection_header
      else
        write_http1_header (name h) (value h) ;;
        write_http1_headers hs' had_connection_header
  end.

(** The branch of [cno_write_message] for HTTP/1.x; the result is
    [is_informational] as the branch leaves it. *)
Definition cno_write_message_http1 (msg : cno_message_t) (final : bool)
           (is_informational : bool) : M bool :=
  c <- get ;;
  let text :=
    if client c
    then fmt_buffer (method msg) ++ [32] ++ fmt_buffer (path msg)
         ++ bytes_of_string " HTTP/1.1" ++ [13; 10]
    else bytes_of_string "HTTP/1.1 " ++ fmt_d (code msg)
         ++ bytes_of_string " Something" ++ [13; 10] in
  if zlen text >? CNO_MAX_HTTP1_HEADER_SIZE then CNO_ERROR ASSERTION
  else
    CNO_FIRE (on_write text) ;;
    modify (fun c =>
      set_conn_flags
        (if is_informational || final
         then clear_flag (conn_flags c) CNO_CONN_FLAG_WRITING_CHUNKED
         else Z.lor (conn_flags c) CNO_CONN_FLAG_WRITING_CHUNKED) c) ;;
    had_connection_header <- write_http1_headers (headers msg) false ;;
    c <- get ;;
    when (has_flag (conn_flags c) CNO_CONN_FLAG_WRITING_CHUNKED)
         (CNO_FIRE (on_write (bytes_of_string "transfer-encoding: chunked" ++ [13; 10]))) ;;
    when (negb had_connection_header)
         (CNO_FIRE (on_write (bytes_of_string "connection: keep-alive" ++ [13; 10]))) ;;
    CNO_FIRE (on_write [13; 10]) ;;
    c <- get ;;
    if (code msg =? 101) && state_eqb (state c) CNO_CONNECTION_UNKNOWN_PROTOCOL_UPGRADE
    then modify (set_state CNO_CONNECTION_UNKNOWN_PROTOCOL) ;; ret false
    else ret is_informational.

(** The branch for HTTP/2.  The value of [:status] is [code[8]] with the
    length that [snprintf] returns: a status of up to seven characters, or
    the first seven and the terminator (for a longer one the C code reads
    past the array; the model keeps to its eight bytes). *)
Definition cno_write_message_http2 (stream : Z) (msg : cno_message_t)
           (final : bool) : M unit :=
  c <- get ;;
  let flags := if final then Z.lor CNO_FLAG_END_HEADERS CNO_FLAG_END_STREAM
               else CNO_FLAG_END_HEADERS in
  b1 <- (if client c
         then hpack_encode [mk_header ":method" (buffer_string (method msg));
                            mk_header ":path" (buffer_string (path msg))]
         else hpack_encode
                [mk_header ":status"
                   (string_of_bytes (snprintf_written 8 (fmt_d (code msg))))]) ;;
  b2 <- hpack_encode (headers msg) ;;
  cno_frame_write (mk_frame CNO_FRAME_HEADERS flags stream (b1 ++ b2)).

Definition cno_write_message (stream : Z) (msg : cno_message_t) (final : bool) : M unit :=
  c <- get ;;
  if state_eqb (state c) CNO_CONNECTION_UNDEFINED then CNO_ERROR DISCONNECT
  else
    let is_informational := (100 <=? code msg) && (code msg <? 200) in
    if is_informational && final then CNO_ERROR ASSERTION
    else
      p <- (if client c then
              p <- match cno_stream_find c stream with
                   | Some streamobj => ret (stream_id streamobj)
                   | None =>
                       p <- cno_stream_new stream CNO_LOCAL ;;
                       stream_update p
                         (stream_set_accept
                            (Z.lor CNO_ACCEPT_HEADERS
                               (Z.lor CNO_ACCEPT_PUSH CNO_ACCEPT_WRITE_HEADERS))) ;;
                       ret p
                   end ;;
              s <- deref p ;;
              if negb (cno_connection_is_http2 c)
                 && negb (has_flag (accept s) CNO_ACCEPT_WRITE_HEADERS)
              then CNO_ERROR WOULD_BLOCK else ret p
            else
              match cno_stream_find c stream with
              | Some streamobj =>
                  if negb (has_flag (accept streamobj) CNO_ACCEPT_WRITE_HEADERS)
                  then CNO_ERROR INVALID_STREAM else ret (stream_id streamobj)
              | None => CNO_ERROR INVALID_STREAM
              end) ;;
      is_informational <-
        (if negb (cno_connection_is_http2 c)
         then cno_write_message_http1 msg final is_informational
         else cno_write_message_http2 stream msg final ;; ret is_informational) ;;
      if final then cno_discard_remaining_payload p
      else
        when (negb is_informational)
             (stream_update p
                (fun s => stream_set_accept
                            (clear_flag (accept s) CNO_ACCEPT_WRITE_HEADERS) s) ;;
              stream_update p
                (fun s => stream_set_accept (Z.lor (accept s) CNO_ACCEPT_WRITE_DATA) s)).

End Codec.

End Engine.

(** * Specification vocabulary *)

(** ** Frames on the wire and stream bookkeeping *)

(** The callbacks fired for one frame that fits the peer's frame size. *)
Definition wire (f : cno_frame_t) : list cno_event :=
  on_frame_send f :: on_write (frame_header f) ::
  (if zlen (payload f) =? 0 then [] else [on_write (payload f)]).

Definition goaway_frame (last code : Z) : cno_frame_t :=
  mk_frame CNO_FRAME_GOAWAY 0 0 (I32 last ++ I32 code).

Definition rst_stream_frame (id code : Z) : cno_frame_t :=
  mk_frame CNO_FRAME_RST_STREAM 0 id (I32 code).

Definition window_update_frame (id increment : Z) : cno_frame_t :=
  mk_frame CNO_FRAME_WINDOW_UPDATE 0 id (I32 increment).

(** What [cno_frame_write_goaway] leaves in [goaway_sent]. *)
Definition goaway_mark (c : cno_connection_t) : cno_connection_t :=
  if goaway_sent c =? 0 then c
  else set_goaway_sent (side_get (last_stream c) CNO_REMOTE) c.

(** The peer's frame size limit admits a payload of [n] bytes. *)
Definition peer_accepts (c : cno_connection_t) (n : Z) : Prop :=
  n <= max_frame_size (side_get (settings c) CNO_REMOTE).

(** An update of a stream node and [cno_stream_free] as state transformers. *)
Definition stream_store (p : Z) (f : cno_stream_t -> cno_stream_t)
           (c : cno_connection_t) : cno_connection_t :=
  set_bucket (bucket_of p) (chain_update p f (streams c (bucket_of p))) c.

Definition stream_unlink (p : Z) (c : cno_connection_t) : cno_connection_t :=
  set_bucket (bucket_of p) (chain_remove p (streams c (bucket_of p)))
             (stream_count_add (cno_stream_is_local c p) (-1) c).

Definition remember_reset (id : Z) (c : cno_connection_t) : cno_connection_t :=
  set_recently_reset_next ((recently_reset_next c + 1) mod CNO_STREAM_RESET_HISTORY)
    (set_recently_reset
       (list_set (recently_reset c) (Z.to_nat (recently_reset_next c)) id) c).

(** Range of [int32_t]. *)
Definition int32_range (x : Z) : Prop := -2147483648 <= x <= 2147483647.

(** No send window of [c'] differs from the one the same stream had in
    [c]. *)
Definition send_windows_kept (c c' : cno_connection_t) : Prop :=
  conn_window_send c' = conn_window_send c /\
  forall b s', In s' (streams c' b) ->
    exists s, In s (streams c b) /\ stream_id s = stream_id s'
              /\ window_send s = window_send s'.

(** ** Padding and SETTINGS entries *)

(** The frame that [cno_frame_handle_padding] leaves when the padding is
    well formed: the pad-length byte and the padding are gone. *)
Definition strip_padding (frame : cno_frame_t) : cno_frame_t :=
  if has_flag (flags frame) CNO_FLAG_PADDED
  then frame_set_payload
         (ztake (zlen (payload frame) - (read1 (payload frame) + 1))
                (zdrop 1 (payload frame))) frame
  else frame.

Definition padding_well_formed (frame : cno_frame_t) : Prop :=
  has_flag (flags frame) CNO_FLAG_PADDED = true ->
  read1 (payload frame) + 1 <= zlen (payload frame).

(** One entry of a SETTINGS payload, and the value a settings record holds
    for the identifier [i] (1..6). *)
Definition setting_entry (e : Z * Z) : bytes := I16 (fst e) ++ I32 (snd e).

Definition setting_value (s : cno_settings_t) (i : Z) : Z :=
  nth (Z.to_nat (i - 1)) (settings_array s) 0.

(** The six bytes of one entry on the wire: the identifier in two bytes,
    the value in four, most significant byte first. *)
Definition setting_entry_bytes (e : Z * Z) : bytes :=
  [0; fst e;
   snd e / 16777216 mod 256; snd e / 65536 mod 256; snd e / 256 mod 256; snd e mod 256].

(** ** Invariants of a computation *)

Definition h2_framing (st : CNO_CONNECTION_STATE) : bool :=
  match st with
  | CNO_CONNECTION_INIT | CNO_CONNECTION_PREFACE
  | CNO_CONNECTION_READY_NO_SETTINGS | CNO_CONNECTION_READY => true
  | _ => false
  end.

(** What [F] asks of a callback: that a frame handed to [on_frame_send]
    satisfies it. *)
Definition event_ok (F : cno_frame_t -> Prop) (e : cno_event) : Prop :=
  match e with on_frame_send f => F f | _ => True end.

(** The computation [m] preserves [Inv], whatever its outcome, and fires
    only callbacks that [F] allows. *)
Definition keeps (Inv : cno_connection_t -> Prop) (F : cno_frame_t -> Prop)
           {A} (m : M A) : Prop :=
  forall c, Inv c -> Inv (conn_of (m c)) /\ Forall (event_ok F) (trace_of (m c)).

Definition never_marked (c : cno_connection_t) : Prop := goaway_sent c = 0.

(** The last-stream-id of a GOAWAY frame, its first four payload bytes, is
    zero. *)
Definition goaway_last_stream_zero (f : cno_frame_t) : Prop :=
  type f = CNO_FRAME_GOAWAY -> firstn 4 (payload f) = [0; 0; 0; 0].

Definition goaway_safe {A} (m : M A) : Prop :=
  keeps never_marked goaway_last_stream_zero m.

(** The connection is in HTTP/2 mode and [last_stream] of the side [k] is
    at least [n]. *)
Definition last_stream_from (n : Z) (k : bool) (c : cno_connection_t) : Prop :=
  cno_connection_is_http2 c = true /\ n <= side_get (last_stream c) k.

(** ** Parts of a split frame *)

(** The frames handed to [on_frame_send], in order. *)
Definition sent_frames (t : list cno_event) : list cno_frame_t :=
  flat_map (fun e => match e with on_frame_send f => [f] | _ => [] end) t.

(** The body of the loop of [cno_frame_write] after the write: the part
    that the next iteration starts from. *)
Definition next_part (limit : Z) (part : cno_frame_t) : cno_frame_t :=
  let part := frame_set_flags
                (clear_flag (flags part) (Z.lor CNO_FLAG_PRIORITY CNO_FLAG_END_STREAM)) part in
  let part := frame_set_payload (zdrop limit (payload part)) part in
  if negb (type part =? CNO_FRAME_DATA) then frame_set_type CNO_FRAME_CONTINUATION part
  else part.

(** The parts that [cno_frame_write_parts] writes, as a list. *)
Fixpoint frame_parts (fuel : nat) (limit carry_on_last : Z)
         (frame part : cno_frame_t) : list cno_frame_t :=
  if zlen (payload part) >? limit then
    match fuel with
    | O => []
    | S fuel' =>
        frame_set_payload (ztake limit (payload part)) part
        :: frame_parts fuel' limit carry_on_last frame (next_part limit part)
    end
  else [frame_set_flags (Z.lor (flags part) (Z.land (flags frame) carry_on_last)) part].

(** ** Request header blocks *)

Open Scope string_scope.
Open Scope list_scope.

Definition is_pseudo (h : cno_header_t) : bool := String.prefix ":" (name h).

(** The headers of a block that have a given name. *)
Definition named (n : string) (hs : list cno_header_t) : list cno_header_t :=
  filter (fun h => String.eqb (name h) n) hs.

Definition count_name (n : string) (hs : list cno_header_t) : nat :=
  List.length (named n hs).

Definition request_pseudo (n : string) : bool :=
  String.eqb n ":path" || String.eqb n ":method"
  || String.eqb n ":authority" || String.eqb n ":scheme".

Definition contains_uppercase (n : string) : Prop :=
  exists a, In a (list_ascii_of_string n)
            /\ (65 <= nat_of_ascii a <= 90)%nat.

(** Some pseudo-header comes after some regular header. *)
Definition pseudo_after_regular (hs : list cno_header_t) : Prop :=
  exists l1 r l2 q l3,
    hs = l1 ++ r :: l2 ++ q :: l3 /\ is_pseudo r = false /\ is_pseudo q = true.

(** What makes a request header block invalid for the code. *)
Definition request_block_invalid (hs : list cno_header_t) : Prop :=
  count_name ":method" hs <> 1%nat
  \/ ~ (exists h, named ":path" hs = [h] /\ value h <> "")
  \/ count_name ":scheme" hs <> 1%nat
  \/ (exists h, In h hs /\ contains_uppercase (name h))
  \/ pseudo_after_regular hs
  \/ (exists h, In h hs /\ is_pseudo h = true /\ request_pseudo (name h) = false).

(** The same with the clause on [:authority] that the specification
    adds. *)
Definition request_block_invalid_as_specified (hs : list cno_header_t) : Prop :=
  request_block_invalid hs \/ (1 < count_name ":authority" hs)%nat.

(** What the loop over the pseudo-headers has established about a message
    field when it ends without [goto invalid_message]. *)
Definition field_found (n : string) (before after : cno_buffer_t)
           (pre : list cno_header_t) : Prop :=
  match before with
  | Some _ => named n pre = [] /\ after = before
  | None => (named n pre = [] /\ after = None)
            \/ exists h, named n pre = [h] /\ after = Some (value h)
  end.

Definition scheme_found (before after : bool) (pre : list cno_header_t) : Prop :=
  if before then named ":scheme" pre = [] /\ after = true
  else count_name ":scheme" pre = if after then 1%nat else 0%nat.

Close Scope string_scope.

(** ** Outcomes of resets, configuration and writes *)

(** What [cno_frame_write_rst_stream] does to the stream: it is destroyed
    when its headers have been handled, and muted otherwise. *)
Definition rst_stream_state (p : Z) (s : cno_stream_t) (c : cno_connection_t) :=
  if negb (has_flag (accept s) CNO_ACCEPT_HEADERS)
  then stream_unlink p (remember_reset p c)
  else stream_store p (fun s => stream_set_accept (Z.lor (accept s) CNO_ACCEPT_NOP_HEADERS) s)
         (stream_store p
            (fun s => stream_set_accept (clear_flag (accept s) CNO_ACCEPT_OUTBOUND) s) c).

Definition rst_stream_trace (p : Z) (s : cno_stream_t) (code : Z) : list cno_event :=
  wire (rst_stream_frame p code)
  ++ (if negb (has_flag (accept s) CNO_ACCEPT_HEADERS) then [on_stream_end p] else []).

(** The connection after a successful [cno_connection_set_config]. *)
Definition config_stored (new_settings : cno_settings_t) (c : cno_connection_t) :=
  set_decoder (hpack_set_limit_upper (header_table_size new_settings) (decoder c))
    (set_settings (side_set (settings c) CNO_LOCAL new_settings) c).

(** The carried flag and the first part of a split frame. *)
Definition carry_on_last_of (frame : cno_frame_t) : Z :=
  if type frame =? CNO_FRAME_DATA then CNO_FLAG_END_STREAM else CNO_FLAG_END_HEADERS.

Definition first_part_of (frame : cno_frame_t) : cno_frame_t :=
  frame_set_flags (clear_flag (flags frame) (carry_on_last_of frame)) frame.

(** The stream after the local side has finished writing. *)
Definition discarded (p : Z) (c : cno_connection_t) : cno_connection_t :=
  let c1 := stream_store p
              (fun s => stream_set_accept (clear_flag (accept s) CNO_ACCEPT_OUTBOUND) s) c in
  match cno_stream_find c1 p with
  | None => c1
  | Some s1 =>
      if accept s1 =? 0 then stream_unlink p (remember_reset p c1)
      else if negb (client c) && cno_connection_is_http2 c
           then rst_stream_state p s1 c1
           else c1
  end.

(** The state of [cno_write_data] once the DATA frame is out: both send
    windows have gone down by the bytes consumed. *)
Definition data_written (stream n : Z) (c : cno_connection_t) : cno_connection_t :=
  stream_store stream (fun s => stream_set_window_send (i32 (window_send s - n)) s)
    (set_conn_window_send (i32 (conn_window_send c - n)) c).

(** ** Received SETTINGS *)

(** The remote settings once the loop over the entries of a SETTINGS frame
    has run. *)
Definition settings_received (frame : cno_frame_t) (c : cno_connection_t) : cno_settings_t :=
  settings_store (Z.to_nat (zlen (payload frame) / 6)) (payload frame)
                 (side_get (settings c) CNO_REMOTE).

Definition settings_out_of_bounds (cfg : cno_settings_t) : Prop :=
  1 < enable_push cfg \/ 2147483647 < initial_window_size cfg
  \/ max_frame_size cfg < 16384 \/ 16777215 < max_frame_size cfg.

Definition settings_error_code (cfg : cno_settings_t) : Z :=
  if enable_push cfg >? 1 then CNO_RST_PROTOCOL_ERROR
  else if initial_window_size cfg >? 2147483647 then CNO_RST_FLOW_CONTROL_ERROR
  else CNO_RST_PROTOCOL_ERROR.

(** ** Concrete environments, connections and frames *)

(** An environment whose callbacks all return [CNO_OK], whose allocations
    succeed and whose HPACK decoder yields the header list [hs] for every
    block. *)
Definition example_hpack (limit : Z) : cno_hpack_t :=
  mk_hpack [] 0 limit limit limit limit.

Definition example_env (hs : list cno_header_t) : cno_env :=
  mk_env (fun _ => None) true example_hpack (fun h _ => h)
         (fun h _ _ => (h, inl hs)) (fun c => (c, [], Ok false)).

(** A server in the READY state, and the same with one stream. *)
Definition server_ready : cno_connection_t :=
  set_state CNO_CONNECTION_READY (cno_connection_init (example_env []) CNO_SERVER).

Definition with_stream (s : cno_stream_t) (c : cno_connection_t) : cno_connection_t :=
  set_bucket (bucket_of (stream_id s)) (s :: streams c (bucket_of (stream_id s))) c.

(** Stream 1 after its request headers: DATA and TRAILERS are accepted,
    HEADERS and DATA may be written. *)
Definition stream_open : cno_stream_t :=
  mk_stream 1 (Z.lor CNO_ACCEPT_DATA
                 (Z.lor CNO_ACCEPT_TRAILERS
                    (Z.lor CNO_ACCEPT_WRITE_HEADERS CNO_ACCEPT_WRITE_DATA)))
            65535 65535.

(** Stream 1 as [cno_frame_handle_headers] creates it. *)
Definition stream_fresh : cno_stream_t :=
  mk_stream 1 (Z.lor CNO_ACCEPT_HEADERS
                 (Z.lor CNO_ACCEPT_WRITE_HEADERS CNO_ACCEPT_WRITE_PUSH))
            65535 65535.

(** A peer that has announced a [max_frame_size] of 4; the protocol does
    not allow so small a value, which keeps the example frames short. *)
Definition small_peer (c : cno_connection_t) : cno_connection_t :=
  set_settings (side_set (settings c) CNO_REMOTE
                  (mk_settings 4096 1 100 65535 4 UINT32_MAX)) c.

Definition example_window_update : cno_frame_t :=
  mk_frame CNO_FRAME_WINDOW_UPDATE 0 0 [0; 0; 0; 5].

Definition example_stream_window_update : cno_frame_t :=
  mk_frame CNO_FRAME_WINDOW_UPDATE 0 1 [0; 0; 0; 5].

Definition awaiting_continuation : cno_connection_t :=
  set_continued_stream 1 (with_stream stream_fresh server_ready).

Definition example_big_data : cno_frame_t :=
  mk_frame CNO_FRAME_DATA CNO_FLAG_END_STREAM 1 [1; 2; 3; 4; 5; 6; 7; 8; 9].

Definition example_padded_big_data : cno_frame_t :=
  mk_frame CNO_FRAME_DATA CNO_FLAG_PADDED 1 [1; 2; 3; 4; 5; 6; 7; 8; 9].

Definition example_priority_data : cno_frame_t :=
  mk_frame CNO_FRAME_DATA CNO_FLAG_PRIORITY 1 [1; 2; 3; 4; 5; 6; 7; 8; 9].

Definition example_big_ping : cno_frame_t :=
  mk_frame CNO_FRAME_PING 0 0 [1; 2; 3; 4; 5; 6; 7; 8].

(** A peer whose [max_frame_size] is zero. *)
Definition deaf_peer (c : cno_connection_t) : cno_connection_t :=
  set_settings (side_set (settings c) CNO_REMOTE
                  (mk_settings 4096 1 100 65535 0 UINT32_MAX)) c.

(** C4 as the specification has it: every frame larger than the limit is
    split, and of the parts of a DATA frame all but the last carry neither
    END_STREAM nor PRIORITY. *)
Definition data_split_as_specified (env : cno_env) (c : cno_connection_t)
           (frame : cno_frame_t) : Prop :=
  max_frame_size (side_get (settings c) CNO_REMOTE) < zlen (payload frame) ->
  type frame = CNO_FRAME_DATA ->
  let parts := sent_frames (trace_of (cno_frame_write env frame c)) in
  List.concat (map payload parts) = payload frame
  /\ Forall (fun p => type p = CNO_FRAME_DATA
                      /\ zlen (payload p)
                         <= max_frame_size (side_get (settings c) CNO_REMOTE)) parts
  /\ Forall (fun p => has_flag (flags p) CNO_FLAG_END_STREAM = false
                      /\ has_flag (flags p) CNO_FLAG_PRIORITY = false) (removelast parts).

Definition example_padded_data : cno_frame_t :=
  mk_frame CNO_FRAME_DATA CNO_FLAG_PADDED 1 [4; 1; 2; 3; 4; 5; 0; 0; 0; 0].

(** C5 as the specification has it: the increment of the stream-level
    WINDOW_UPDATE is the size of the payload once the pad-length byte and the
    padding are gone. *)
Definition data_window_update_as_specified (env : cno_env) (c : cno_connection_t)
           (p : Z) (frame : cno_frame_t) : Prop :=
  In (on_frame_send (window_update_frame p (zlen (payload (strip_padding frame)))))
     (trace_of (cno_frame_handle_data env (Some p) frame c)).

Open Scope string_scope.
Open Scope list_scope.

(** [:path] after a regular header. *)
Definition example_misordered : list cno_header_t :=
  [mk_header ":method" "GET"; mk_header "cookie" "x"; mk_header ":path" "/"].

(** A complete request with two [:authority] headers. *)
Definition example_two_authorities : list cno_header_t :=
  [mk_header ":method" "GET"; mk_header ":path" "/"; mk_header ":scheme" "https";
   mk_header ":authority" "a"; mk_header ":authority" "b"].

Close Scope string_scope.

Definition example_headers_frame : cno_frame_t :=
  mk_frame CNO_FRAME_HEADERS CNO_FLAG_END_HEADERS 1 [].

(** C7 as the specification has it: a request with more than one
    [:authority] is answered with RST_STREAM and not delivered. *)
Definition invalid_request_reset_as_specified (env : cno_env) (c : cno_connection_t)
           (p : Z) (frame : cno_frame_t) (hs : list cno_header_t) : Prop :=
  request_block_invalid_as_specified hs ->
  let t := trace_of (cno_frame_handle_message env p frame
                       (mk_message 0 CNO_BUFFER_EMPTY CNO_BUFFER_EMPTY hs) c) in
  In (on_frame_send (rst_stream_frame p CNO_RST_PROTOCOL_ERROR)) t
  /\ forall msg, ~ In (on_message_start p msg) t.

(** A SETTINGS frame whose one entry sets [max_frame_size] to 0. *)
Definition example_zero_frame_size : cno_frame_t :=
  mk_frame CNO_FRAME_SETTINGS 0 0 [0; 5; 0; 0; 0; 0].

(** [last_stream] of either side does not go down when [data] is
    received. *)
Definition last_stream_non_decreasing_as_specified
           (env : cno_env) (fuel : nat) (data : bytes) (c : cno_connection_t) : Prop :=
  forall k : bool,
    side_get (last_stream c) k
    <= side_get (last_stream (conn_of (cno_connection_data_received env fuel data c))) k.

(** A server made for HTTP/1.x that has received the first byte of the
    client preface, the letter P. *)
Definition server_preface_begun : cno_connection_t :=
  conn_of (cno_connection_data_received (example_env []) 8 [80]
             (conn_of (cno_connection_made (example_env []) 8 CNO_HTTP1
                         (cno_connection_init (example_env []) CNO_SERVER)))).

(** ** Vocabulary of the further properties *)

(** The fields of a frame fit the nine bytes of its header. *)
Definition frame_fits_header (f : cno_frame_t) : Prop :=
  0 <= type f < 256 /\ 0 <= flags f < 256 /\ 0 <= stream f < 2 ^ 31
  /\ zlen (payload f) < 2 ^ 24.

(** The settings after the entries that [settings_diff] writes for the
    identifiers from [i] on have been stored. *)
Fixpoint settings_patch (i : Z) (ax bx : list Z) (cfg : cno_settings_t) : cno_settings_t :=
  match ax, bx with
  | a :: ax', b :: bx' =>
      settings_patch (i + 1) ax' bx'
        (if a =? b then cfg else settings_array_set cfg (i - 1) b)
  | _, _ => cfg
  end.

(** The ids of the streams of a bucket, of the whole table bucket by
    bucket, and of the streams that one side has opened. *)
Definition bucket_ids (c : cno_connection_t) (b : Z) : list Z :=
  map stream_id (streams c b).

Definition table_ids (c : cno_connection_t) : list Z :=
  flat_map (bucket_ids c) stream_buckets.

Definition side_ids (c : cno_connection_t) (local : bool) : list Z :=
  filter (fun id => Bool.eqb (cno_stream_is_local c id) local) (table_ids c).

(** The stream table is well formed: every stream hangs in the bucket of
    its id, no bucket holds an id twice, no id is above [last_stream] of its
    side, and [stream_count] counts the streams of each side (as a
    [uint32_t]). *)
Definition table_ok (c : cno_connection_t) : Prop :=
  (forall b id, In id (bucket_ids c b) -> bucket_of id = b)
  /\ (forall b, NoDup (bucket_ids c b))
  /\ (forall b id, In id (bucket_ids c b) ->
        id <= side_get (last_stream c) (cno_stream_is_local c id))
  /\ (forall local, side_get (stream_count c) local = u32 (zlen (side_ids c local))).

(** The ring of recently reset streams has its [CNO_STREAM_RESET_HISTORY]
    slots and its cursor points at one of them. *)
Definition ring_ok (c : cno_connection_t) : Prop :=
  List.length (recently_reset c) = Z.to_nat CNO_STREAM_RESET_HISTORY
  /\ 0 <= recently_reset_next c < CNO_STREAM_RESET_HISTORY.

Definition engine_ok (c : cno_connection_t) : Prop :=
  table_ok c /\ ring_ok c /\ h2_framing (state c) = true.

(** The ids of a chain once the first node with the id [p] is gone. *)
Fixpoint ids_remove (p : Z) (l : list Z) : list Z :=
  match l with
  | [] => []
  | x :: t => if x =? p then t else x :: ids_remove p t
  end.

(** A stream whose request headers have been received and whose body may
    end with trailers, and a HEADERS frame for it (END_STREAM, END_HEADERS,
    PRIORITY) whose priority block names the stream itself. *)
Definition stream_trailers : cno_stream_t :=
  mk_stream 1 (Z.lor CNO_ACCEPT_DATA (Z.lor CNO_ACCEPT_TRAILERS CNO_ACCEPT_WRITE_HEADERS))
            65535 65535.

Definition example_self_dependent_trailers : cno_frame_t :=
  mk_frame CNO_FRAME_HEADERS
           (Z.lor CNO_FLAG_END_STREAM (Z.lor CNO_FLAG_END_HEADERS CNO_FLAG_PRIORITY))
           1 [0; 0; 0; 1; 16].

Definition example_ping : cno_frame_t :=
  mk_frame CNO_FRAME_PING 0 0 [1; 2; 3; 4; 5; 6; 7; 8].

Definition example_goaway : cno_frame_t :=
  mk_frame CNO_FRAME_GOAWAY 0 0 [0; 0; 0; 0; 0; 0; 0; 0].

(** The first nine bytes of a frame of 65536 bytes. *)
Definition example_oversized_header : bytes := [1; 0; 0; 0; 0; 0; 0; 0; 0].

(** A header whose name has no special meaning for [cno_write_message]. *)
Definition ordinary_header_name (n : string) : Prop :=
  cno_buffer_eq n ":authority" = false
  /\ cno_buffer_startswith n ":" = false
  /\ cno_buffer_eq n "connection" = false
  /\ cno_buffer_eq n "content-length" = false
  /\ cno_buffer_eq n "upgrade" = false
  /\ cno_buffer_eq n "transfer-encoding" = false.

(** The line of a header in HTTP/1.x, without its line end. *)
Definition http1_header_line (h : cno_header_t) : bytes :=
  fmt_s (name h) ++ bytes_of_string ": " ++ fmt_s (value h).

(** A header whose line has 2051 bytes with its line end. *)
Definition example_long_header : cno_header_t :=
  mk_header "x" (string_of_list_ascii (repeat "a"%char 2046)).

(** A server made for HTTP/1.x whose stream 1 awaits its response. *)
Definition server_http1 : cno_connection_t :=
  with_stream stream_fresh
    (set_state CNO_CONNECTION_HTTP1_READY (cno_connection_init (example_env []) CNO_SERVER)).

(** A server with one open stream, which its peer has opened. *)
Definition example_served : cno_connection_t :=
  set_last_stream (mk_sided 1 0) (with_stream stream_open server_ready).

(** * Properties *)

(** ** Running the monad *)

Lemma bind_Ok {A B} (m : M A) (k : A -> M B) c c1 t1 a :
  m c = (c1, t1, Ok a) ->
  bind m k c = (conn_of (k a c1), t1 ++ trace_of (k a c1), result_of (k a c1)).
Proof.
  intros H. unfold bind. rewrite H. destruct (k a c1) as [[c2 t2] r]. reflexivity.
Qed.

Lemma bind_Err {A B} (m : M A) (k : A -> M B) c c1 t1 e :
  m c = (c1, t1, Err e) -> bind m k c = (c1, t1, Err e).
Proof. intros H. unfold bind. rewrite H. reflexivity. Qed.

Lemma bind_get {B} (k : cno_connection_t -> M B) c : bind get k c = k c c.
Proof. unfold bind, get. destruct (k c c) as [[c2 t2] r]. reflexivity. Qed.

Lemma bind_ret {A B} (a : A) (k : A -> M B) c : bind (ret a) k c = k a c.
Proof. unfold bind, ret. destruct (k a c) as [[c2 t2] r]. reflexivity. Qed.

Lemma bind_modify {B} f (k : unit -> M B) c : bind (modify f) k c = k tt (f c).
Proof. unfold bind, modify. destruct (k tt (f c)) as [[c2 t2] r]. reflexivity. Qed.

Lemma triple_eta {A} (x : cno_connection_t * list cno_event * result A) :
  x = (conn_of x, trace_of x, result_of x).
Proof. destruct x as [[c t] r]. reflexivity. Qed.

Lemma i32_id x : int32_range x -> i32 x = x.
Proof.
  unfold int32_range, i32. intros H.
  rewrite Z.mod_small by lia. lia.
Qed.

Lemma find_stream_id c p s : cno_stream_find c p = Some s -> stream_id s = p.
Proof.
  unfold cno_stream_find. intros H. apply find_some in H.
  destruct H as [_ H]. apply Z.eqb_eq in H. exact H.
Qed.

Lemma chain_find_update p f l s :
  find (fun s => stream_id s =? p) l = Some s ->
  stream_id (f s) = p ->
  find (fun s => stream_id s =? p) (chain_update p f l) = Some (f s).
Proof.
  intros H Hf. induction l as [|x l IH]; cbn in *; [discriminate|].
  destruct (stream_id x =? p) eqn:E.
  - injection H as ->. cbn. rewrite Hf, Z.eqb_refl. reflexivity.
  - cbn. rewrite E. apply IH, H.
Qed.

Lemma find_stream_store c p f s :
  cno_stream_find c p = Some s ->
  stream_id (f s) = p ->
  cno_stream_find (stream_store p f c) p = Some (f s).
Proof.
  unfold cno_stream_find, stream_store, set_bucket. cbn. rewrite Z.eqb_refl.
  apply chain_find_update.
Qed.

Lemma chain_update_kept p f l s' :
  (forall s, stream_id (f s) = stream_id s /\ window_send (f s) = window_send s) ->
  In s' (chain_update p f l) ->
  exists s, In s l /\ stream_id s = stream_id s' /\ window_send s = window_send s'.
Proof.
  intros Hf. induction l as [|x l IH]; cbn; [tauto|].
  destruct (stream_id x =? p).
  - intros [<-|H]; [exists x; destruct (Hf x); auto | exists s'; auto].
  - intros [<-|H]; [exists x; auto|].
    destruct (IH H) as (s & ? & ?). exists s. auto.
Qed.

Lemma chain_remove_In p l s' : In s' (chain_remove p l) -> In s' l.
Proof.
  induction l as [|x l IH]; cbn; [tauto|].
  destruct (stream_id x =? p); cbn; intuition.
Qed.

Lemma send_windows_kept_refl c : send_windows_kept c c.
Proof. split; [reflexivity|]. intros b s' H. exists s'. auto. Qed.

Lemma send_windows_kept_trans c1 c2 c3 :
  send_windows_kept c1 c2 -> send_windows_kept c2 c3 -> send_windows_kept c1 c3.
Proof.
  intros [H1 K1] [H2 K2]. split; [congruence|].
  intros b s3 H3. destruct (K2 _ _ H3) as (s2 & I2 & E2 & W2).
  destruct (K1 _ _ I2) as (s1 & I1 & E1 & W1).
  exists s1. repeat split; congruence.
Qed.

Lemma send_windows_kept_store c p f :
  (forall s, stream_id (f s) = stream_id s /\ window_send (f s) = window_send s) ->
  send_windows_kept c (stream_store p f c).
Proof.
  intros Hf. split; [reflexivity|]. intros b s'. unfold stream_store, set_bucket. cbn.
  destruct (b =? bucket_of p) eqn:E.
  - apply Z.eqb_eq in E. subst b. apply chain_update_kept, Hf.
  - intros H. exists s'. auto.
Qed.

Lemma send_windows_kept_unlink c p : send_windows_kept c (stream_unlink p c).
Proof.
  split; [reflexivity|]. intros b s'. unfold stream_unlink, set_bucket. cbn.
  destruct (b =? bucket_of p) eqn:E.
  - apply Z.eqb_eq in E. subst b. intros H. apply chain_remove_In in H. exists s'. auto.
  - intros H. exists s'. auto.
Qed.

Lemma zlen_nonneg {A} (l : list A) : 0 <= zlen l.
Proof. unfold zlen. lia. Qed.

Lemma settings_diff_entries ax : forall bx i,
  List.length ax = List.length bx ->
  i + zlen ax <= CNO_SETTINGS_UNDEFINED ->
  exists es,
    settings_diff i ax bx = flat_map setting_entry es
    /\ (forall j v, In (j, v) es <->
          i <= j < i + zlen ax
          /\ nth (Z.to_nat (j - i)) bx 0 = v
          /\ nth (Z.to_nat (j - i)) ax 0 <> v)
    /\ NoDup (map fst es).
Proof.
  induction ax as [|a ax IH]; intros [|b bx] i Hlen Hi; try discriminate.
  - exists []. cbn. split; [reflexivity|]. split; [|constructor].
    intros j v. unfold zlen. cbn. split; [tauto|lia].
  - cbn in Hlen. injection Hlen as Hlen.
    assert (Hz : zlen (a :: ax) = 1 + zlen ax) by (unfold zlen; cbn [List.length]; lia).
    rewrite Hz in *.
    destruct (IH bx (i + 1) Hlen ltac:(lia)) as (es & Hes & Hin & Hnd).
    assert (Hlt : (i <? CNO_SETTINGS_UNDEFINED) = true)
      by (apply Z.ltb_lt; pose proof (zlen_nonneg ax); lia).
    assert (Hfresh : ~ In i (map fst es)).
    { intros H. apply in_map_iff in H. destruct H as ([j v] & Hj & H). cbn in Hj. subst j.
      apply Hin in H. lia. }
    assert (Hnth : forall j (l : list Z), i + 1 <= j ->
                   nth (Z.to_nat (j - i)) (b :: l) 0 = nth (Z.to_nat (j - (i + 1))) l 0
                   /\ forall a', nth (Z.to_nat (j - i)) (a' :: l) 0
                                 = nth (Z.to_nat (j - (i + 1))) l 0).
    { intros j l Hj. replace (Z.to_nat (j - i)) with (S (Z.to_nat (j - (i + 1)))) by lia.
      split; reflexivity. }
    exists ((if negb (a =? b) then [(i, b)] else []) ++ es).
    cbn [settings_diff]. rewrite Hlt, Hes, flat_map_app. split; [|split].
    + destruct (negb (a =? b)); reflexivity.
    + intros j v. rewrite in_app_iff, Hin. split.
      * intros [H|H].
        -- destruct (a =? b) eqn:E; cbn in H; [tauto|].
           destruct H as [H|[]]. injection H as <- <-.
           rewrite Z.sub_diag. change (Z.to_nat 0) with 0%nat. cbn [nth].
           apply Z.eqb_neq in E.
           pose proof (zlen_nonneg ax). repeat split; auto; lia.
        -- destruct H as (Hj & Hb & Ha).
           destruct (Hnth j bx ltac:(lia)) as [Eb _].
           destruct (Hnth j ax ltac:(lia)) as [_ Ea].
           rewrite Eb, (Ea a). repeat split; auto; lia.
      * intros (Hj & Hb & Ha).
        destruct (Z.eq_dec j i) as [->|Hne].
        -- left. rewrite Z.sub_diag in *. change (Z.to_nat 0) with 0%nat in *.
           cbn [nth] in Hb, Ha. subst v.
           apply Z.eqb_neq in Ha. rewrite Ha. cbn. auto.
        -- right.
           destruct (Hnth j bx ltac:(lia)) as [Eb _].
           destruct (Hnth j ax ltac:(lia)) as [_ Ea].
           rewrite Eb in Hb. rewrite (Ea a) in Ha. repeat split; auto; lia.
    + rewrite map_app. destruct (negb (a =? b)); cbn; [constructor|]; auto.
Qed.

(** ** Invariants of the engine

    [keeps] says that a computation preserves an invariant [Inv] of the
    connection, whatever its outcome, and that every frame it hands to
    [on_frame_send] satisfies [F].  The rules below follow the shape of the
    code, so that one proof per function serves every such invariant. *)

Create HintDb keeps.

Section Invariant.

Variable env : cno_env.
Variable Inv : cno_connection_t -> Prop.
Variable F : cno_frame_t -> Prop.

(** [Inv] looks at [goaway_sent], [last_stream] and [state] only. *)
Hypothesis Inv_frame : forall c c',
  goaway_sent c' = goaway_sent c -> last_stream c' = last_stream c ->
  state c' = state c -> Inv c -> Inv c'.
Hypothesis F_other : forall f, type f <> CNO_FRAME_GOAWAY -> F f.
(** The two assignments that [Inv_frame] does not cover, and the GOAWAY
    frame. *)
Hypothesis Inv_goaway_sent : forall c,
  Inv c -> goaway_sent c <> 0 ->
  Inv (set_goaway_sent (side_get (last_stream c) CNO_REMOTE) c).
Hypothesis Inv_last_stream : forall c id local,
  Inv c ->
  (cno_connection_is_http2 c = true -> side_get (last_stream c) local < id) ->
  Inv (set_last_stream (side_set (last_stream c) local id) c).
Hypothesis F_goaway : forall c code,
  Inv c -> F (mk_frame CNO_FRAME_GOAWAY 0 0 (I32 (goaway_sent c) ++ I32 code)).

Lemma keeps_ret {A} (a : A) : keeps Inv F (ret a).
Proof. intros c H. split; [exact H | constructor]. Qed.

Lemma keeps_error {A} k : keeps Inv F (@CNO_ERROR A k).
Proof. intros c H. split; [exact H | constructor]. Qed.

Lemma keeps_stuck {A} k : keeps Inv F (@get_stuck A k).
Proof. intros c H. split; [exact H | constructor]. Qed.

Lemma keeps_finish {A} (r : result A) : keeps Inv F (finish r).
Proof. intros c H. split; [exact H | constructor]. Qed.

Lemma keeps_get : keeps Inv F get.
Proof. intros c H. split; [exact H | constructor]. Qed.

Lemma keeps_modify f : (forall c, Inv c -> Inv (f c)) -> keeps Inv F (modify f).
Proof. intros Hf c H. split; [apply Hf, H | constructor]. Qed.

Lemma keeps_fire e : event_ok F e -> keeps Inv F (CNO_FIRE env e).
Proof. intros He c H. split; [exact H | repeat constructor; exact He]. Qed.

Lemma keeps_bind {A B} (m : M A) (k : A -> M B) :
  keeps Inv F m -> (forall a, keeps Inv F (k a)) -> keeps Inv F (bind m k).
Proof.
  intros Hm Hk c H. unfold bind. destruct (Hm c H) as [H1 T1].
  destruct (m c) as [[c1 t1] [a|e|st]]; cbn in *; try (split; assumption).
  destruct (Hk a c1 H1) as [H2 T2].
  destruct (k a c1) as [[c2 t2] r]; cbn in *.
  split; [exact H2 | apply Forall_app; split; assumption].
Qed.

Lemma keeps_attempt {A} (m : M A) : keeps Inv F m -> keeps Inv F (attempt m).
Proof.
  intros Hm c H. unfold attempt. destruct (Hm c H) as [H1 T1].
  destruct (m c) as [[c1 t1] r]. split; assumption.
Qed.

Lemma keeps_when b m : keeps Inv F m -> keeps Inv F (when b m).
Proof. intros Hm. destruct b; [exact Hm | apply keeps_ret]. Qed.

Lemma keeps_deref p : keeps Inv F (deref p).
Proof.
  intros c H. unfold deref. destruct (cno_stream_find c p); (split; [exact H | constructor]).
Qed.

Ltac keeps_side :=
  let c := fresh "c" in let H := fresh "H" in
  intros c H; apply (Inv_frame c); [reflexivity | reflexivity | reflexivity | exact H].

Ltac keeps_frame_side :=
  apply F_other; let H := fresh "H" in intros H; cbv in H; discriminate H.

Ltac keeps_step :=
  lazymatch goal with
  | |- keeps Inv F (bind _ _) => apply keeps_bind; [ | intro ]
  | |- keeps Inv F (ret _) => apply keeps_ret
  | |- keeps Inv F get => apply keeps_get
  | |- keeps Inv F (CNO_ERROR _) => apply keeps_error
  | |- keeps Inv F (get_stuck _) => apply keeps_stuck
  | |- keeps Inv F (finish _) => apply keeps_finish
  | |- keeps Inv F (attempt _) => apply keeps_attempt
  | |- keeps Inv F (when _ _) => apply keeps_when
  | |- keeps Inv F (modify _) => apply keeps_modify; keeps_side
  | |- keeps Inv F (CNO_FIRE _ _) => apply keeps_fire; exact Logic.I
  | |- keeps Inv F (deref _) => apply keeps_deref
  | |- keeps Inv F (if ?b then _ else _) => destruct b
  | |- keeps Inv F (match ?x with _ => _ end) => destruct x
  | |- keeps Inv F _ => solve [auto with keeps]
  end.

Ltac keeps_auto := cbv zeta; repeat keeps_step.

Lemma keeps_stream_update p f : keeps Inv F (stream_update p f).
Proof. unfold stream_update. keeps_auto. Qed.
#[local] Hint Resolve keeps_stream_update : keeps.

Lemma keeps_stream_free p : keeps Inv F (cno_stream_free p).
Proof. unfold cno_stream_free. keeps_auto. Qed.
#[local] Hint Resolve keeps_stream_free : keeps.

Lemma keeps_stream_rst p : keeps Inv F (cno_stream_rst env p).
Proof. unfold cno_stream_rst. keeps_auto. Qed.
#[local] Hint Resolve keeps_stream_rst : keeps.

Lemma keeps_stream_rst_by_local p : keeps Inv F (cno_stream_rst_by_local env p).
Proof. unfold cno_stream_rst_by_local. keeps_auto. Qed.
#[local] Hint Resolve keeps_stream_rst_by_local : keeps.

Lemma keeps_frame_write_one f : F f -> keeps Inv F (cno_frame_write_one env f).
Proof.
  intros Hf. unfold cno_frame_write_one.
  apply keeps_bind; [apply keeps_fire; exact Hf | intro].
  keeps_auto.
Qed.

Lemma keeps_frame_write_parts fuel limit carry frame : forall part,
  type part <> CNO_FRAME_GOAWAY ->
  keeps Inv F (cno_frame_write_parts env fuel limit carry frame part).
Proof.
  induction fuel as [|fuel IH]; intros part Hty; cbn [cno_frame_write_parts].
  - destruct (zlen (payload part) >? limit); [apply keeps_stuck|].
    apply keeps_frame_write_one, F_other. exact Hty.
  - destruct (zlen (payload part) >? limit).
    + apply keeps_bind; [apply keeps_frame_write_one, F_other; exact Hty | intro].
      apply IH. cbn [type frame_set_payload frame_set_flags].
      destruct (negb (type part =? CNO_FRAME_DATA)); [discriminate | exact Hty].
    + apply keeps_frame_write_one, F_other. exact Hty.
Qed.

Lemma keeps_frame_write f : F f -> keeps Inv F (cno_frame_write env f).
Proof.
  intros Hf. unfold cno_frame_write. apply keeps_bind; [apply keeps_get | intro c].
  cbv zeta. destruct (zlen (payload f) <=? _); [apply keeps_frame_write_one, Hf|].
  destruct (has_flag (flags f) CNO_FLAG_PADDED); [apply keeps_error|].
  destruct (negb (type f =? CNO_FRAME_DATA) && negb (type f =? CNO_FRAME_HEADERS)
            && negb (type f =? CNO_FRAME_PUSH_PROMISE)) eqn:E; [apply keeps_error|].
  apply keeps_frame_write_parts. cbn [type frame_set_flags].
  intros H. rewrite H in E. discriminate E.
Qed.

Lemma keeps_goaway code : keeps Inv F (cno_frame_write_goaway env code).
Proof.
  intros c H. unfold cno_frame_write_goaway. rewrite bind_get.
  destruct (goaway_sent c =? 0) eqn:E; cbn [negb when].
  - rewrite bind_ret, bind_get. apply keeps_frame_write; [apply F_goaway|]; exact H.
  - rewrite bind_modify, bind_get.
    apply Z.eqb_neq in E. pose proof (Inv_goaway_sent c H E) as H'.
    apply keeps_frame_write; [apply F_goaway|]; exact H'.
Qed.
#[local] Hint Resolve keeps_goaway : keeps.

Lemma keeps_stream_new id local : keeps Inv F (cno_stream_new env id local).
Proof.
  intros c H. unfold cno_stream_new. rewrite bind_get.
  destruct (negb (Bool.eqb (cno_stream_is_local c id) local)); [apply keeps_error, H|].
  destruct (cno_connection_is_http2 c && (id <=? side_get (last_stream c) local)) eqn:E;
    [apply keeps_error, H|].
  destruct (negb (cno_connection_is_http2 c) && negb (id =? 1)); [apply keeps_error, H|].
  destruct (_ >=? _); [destruct local; apply keeps_error, H|].
  destruct (negb (malloc_ok env)); [apply keeps_error, H|].
  cbv zeta. rewrite bind_modify.
  match goal with |- context [bind ?m ?k (set_last_stream ?l c)] =>
    assert (K : keeps Inv F (bind m k)) by keeps_auto;
    apply (K (set_last_stream l c))
  end.
  apply Inv_last_stream; [exact H|].
  intros Hh2. rewrite Hh2 in E. cbn in E. apply Z.leb_gt in E. exact E.
Qed.
#[local] Hint Resolve keeps_stream_new : keeps.

Lemma keeps_frame_write_settings previous current :
  keeps Inv F (cno_frame_write_settings env previous current).
Proof.
  unfold cno_frame_write_settings. apply keeps_frame_write. keeps_frame_side.
Qed.
#[local] Hint Resolve keeps_frame_write_settings : keeps.

Lemma keeps_frame_write_rst_stream p code : keeps Inv F (cno_frame_write_rst_stream env p code).
Proof.
  unfold cno_frame_write_rst_stream.
  apply keeps_bind; [apply keeps_deref | intro s].
  apply keeps_bind; [apply keeps_frame_write; keeps_frame_side | intro].
  keeps_auto.
Qed.
#[local] Hint Resolve keeps_frame_write_rst_stream : keeps.

Lemma keeps_frame_write_error {A} code : keeps Inv F (@cno_frame_write_error env A code).
Proof. unfold cno_frame_write_error. keeps_auto. Qed.
#[local] Hint Resolve @keeps_frame_write_error : keeps.

Lemma keeps_concat_continued data : keeps Inv F (cno_buffer_dyn_concat_continued env data).
Proof. unfold cno_buffer_dyn_concat_continued. keeps_auto. Qed.
#[local] Hint Resolve keeps_concat_continued : keeps.

Lemma keeps_handle_end_stream p : keeps Inv F (cno_frame_handle_end_stream env p).
Proof. unfold cno_frame_handle_end_stream. keeps_auto. Qed.
#[local] Hint Resolve keeps_handle_end_stream : keeps.

Lemma keeps_handle_message p frame msg : keeps Inv F (cno_frame_handle_message env p frame msg).
Proof. unfold cno_frame_handle_message. keeps_auto. Qed.
#[local] Hint Resolve keeps_handle_message : keeps.

Lemma keeps_handle_end_headers p frame : keeps Inv F (cno_frame_handle_end_headers env p frame).
Proof. unfold cno_frame_handle_end_headers. keeps_auto. Qed.
#[local] Hint Resolve keeps_handle_end_headers : keeps.

Lemma keeps_handle_padding frame : keeps Inv F (cno_frame_handle_padding env frame).
Proof. unfold cno_frame_handle_padding. keeps_auto. Qed.
#[local] Hint Resolve keeps_handle_padding : keeps.

Lemma keeps_handle_priority_prefix stream_p frame :
  keeps Inv F (cno_frame_handle_priority_prefix env stream_p frame).
Proof. unfold cno_frame_handle_priority_prefix. keeps_auto. Qed.
#[local] Hint Resolve keeps_handle_priority_prefix : keeps.

Lemma keeps_handle_invalid_stream frame : keeps Inv F (cno_frame_handle_invalid_stream env frame).
Proof. unfold cno_frame_handle_invalid_stream. keeps_auto. Qed.
#[local] Hint Resolve keeps_handle_invalid_stream : keeps.

Lemma keeps_handle_headers stream_p frame : keeps Inv F (cno_frame_handle_headers env stream_p frame).
Proof. unfold cno_frame_handle_headers. keeps_auto. Qed.

Lemma keeps_handle_push_promise stream_p frame :
  keeps Inv F (cno_frame_handle_push_promise env stream_p frame).
Proof. unfold cno_frame_handle_push_promise. keeps_auto. Qed.

Lemma keeps_handle_continuation stream_p frame :
  keeps Inv F (cno_frame_handle_continuation env stream_p frame).
Proof. unfold cno_frame_handle_continuation. keeps_auto. Qed.

Lemma keeps_handle_data stream_p frame : keeps Inv F (cno_frame_handle_data env stream_p frame).
Proof.
  unfold cno_frame_handle_data. cbv zeta.
  apply keeps_bind; [apply keeps_handle_padding | intro frame'].
  apply keeps_bind;
    [apply keeps_when, keeps_frame_write; keeps_frame_side | intro].
  destruct stream_p as [p|]; [|apply keeps_handle_invalid_stream].
  apply keeps_bind; [apply keeps_deref | intro s].
  destruct (negb (has_flag (accept s) CNO_ACCEPT_DATA)); [keeps_auto|].
  apply keeps_bind; [keeps_auto | intro].
  destruct (has_flag (flags frame') CNO_FLAG_END_STREAM); [keeps_auto|].
  apply keeps_bind; [apply keeps_get | intro c].
  destruct (_ || _); [apply keeps_ret|].
  apply keeps_bind; [apply keeps_deref | intro s'].
  apply keeps_frame_write. keeps_frame_side.
Qed.

Lemma keeps_handle_ping stream_p frame : keeps Inv F (cno_frame_handle_ping env stream_p frame).
Proof.
  unfold cno_frame_handle_ping.
  destruct (negb (stream frame =? 0)); [keeps_auto|].
  destruct (negb (zlen (payload frame) =? 8)); [keeps_auto|].
  destruct (has_flag (flags frame) CNO_FLAG_ACK); [keeps_auto|].
  apply keeps_frame_write. keeps_frame_side.
Qed.

Lemma keeps_handle_goaway stream_p frame : keeps Inv F (cno_frame_handle_goaway env stream_p frame).
Proof. unfold cno_frame_handle_goaway. keeps_auto. Qed.

Lemma keeps_handle_rst_stream stream_p frame :
  keeps Inv F (cno_frame_handle_rst_stream env stream_p frame).
Proof. unfold cno_frame_handle_rst_stream. keeps_auto. Qed.

Lemma keeps_handle_priority stream_p frame :
  keeps Inv F (cno_frame_handle_priority env stream_p frame).
Proof. unfold cno_frame_handle_priority. keeps_auto. Qed.

Lemma keeps_handle_settings stream_p frame :
  keeps Inv F (cno_frame_handle_settings env stream_p frame).
Proof.
  unfold cno_frame_handle_settings.
  destruct (negb (stream frame =? 0)); [keeps_auto|].
  destruct (has_flag (flags frame) CNO_FLAG_ACK); [keeps_auto|].
  destruct (negb (zlen (payload frame) mod 6 =? 0)); [keeps_auto|].
  apply keeps_bind; [keeps_auto | intro].
  apply keeps_bind; [apply keeps_get | intro c]. cbv zeta.
  destruct (enable_push _ >? 1); [keeps_auto|].
  destruct (initial_window_size _ >? 2147483647); [keeps_auto|].
  destruct (_ || _); [keeps_auto|].
  apply keeps_bind; [keeps_auto | intro].
  apply keeps_bind; [keeps_auto | intro].
  apply keeps_bind; [apply keeps_frame_write; keeps_frame_side | intro].
  keeps_auto.
Qed.

Lemma keeps_handle_window_update stream_p frame :
  keeps Inv F (cno_frame_handle_window_update env stream_p frame).
Proof. unfold cno_frame_handle_window_update. keeps_auto. Qed.

Lemma keeps_frame_handle frame : keeps Inv F (cno_frame_handle env frame).
Proof.
  unfold cno_frame_handle. apply keeps_bind; [apply keeps_get | intro c].
  destruct (_ && _); [keeps_auto|].
  destruct (type frame >=? CNO_FRAME_UNKNOWN); [apply keeps_ret|].
  cbv zeta. unfold CNO_FRAME_HANDLERS.
  destruct (Z.to_nat (type frame)) as [|[|[|[|[|[|[|[|[|[|n]]]]]]]]]]; cbn [nth_error].
  - apply keeps_handle_data.
  - apply keeps_handle_headers.
  - apply keeps_handle_priority.
  - apply keeps_handle_rst_stream.
  - apply keeps_handle_settings.
  - apply keeps_handle_push_promise.
  - apply keeps_handle_ping.
  - apply keeps_handle_goaway.
  - apply keeps_handle_window_update.
  - apply keeps_handle_continuation.
  - destruct n; apply keeps_ret.
Qed.

Lemma keeps_set_config new_settings : keeps Inv F (cno_connection_set_config env new_settings).
Proof. unfold cno_connection_set_config. keeps_auto. Qed.

Lemma keeps_write_reset stream code : keeps Inv F (cno_write_reset env stream code).
Proof. unfold cno_write_reset. keeps_auto. Qed.

Lemma keeps_connection_stop : keeps Inv F (cno_connection_stop env).
Proof. apply keeps_write_reset. Qed.

Lemma keeps_discard_remaining_payload p : keeps Inv F (cno_discard_remaining_payload env p).
Proof. unfold cno_discard_remaining_payload. keeps_auto. Qed.
#[local] Hint Resolve keeps_discard_remaining_payload : keeps.

Lemma keeps_write_data_return p length final :
  keeps Inv F (cno_write_data_return env p length final).
Proof. unfold cno_write_data_return. keeps_auto. Qed.
#[local] Hint Resolve keeps_write_data_return : keeps.

Lemma keeps_write_data stream data final : keeps Inv F (cno_write_data env stream data final).
Proof.
  unfold cno_write_data. cbv zeta. apply keeps_bind; [apply keeps_get | intro c].
  destruct (state_eqb (state c) CNO_CONNECTION_UNDEFINED); [keeps_auto|].
  destruct (cno_stream_find c stream) as [streamobj|]; [|keeps_auto].
  destruct (negb (has_flag (accept streamobj) CNO_ACCEPT_WRITE_DATA)); [keeps_auto|].
  destruct (state_eqb (state c) CNO_CONNECTION_UNKNOWN_PROTOCOL); [keeps_auto|].
  destruct (negb (cno_connection_is_http2 c)); [keeps_auto|].
  destruct (_ || _); [keeps_auto|].
  destruct (if zlen data >? u32 (conn_window_send c) then _ else _) as [length final'].
  destruct (if length >? u32 (window_send streamobj) then _ else _) as [length' final''].
  destruct (_ && _); [keeps_auto|].
  apply keeps_bind; [apply keeps_frame_write; keeps_frame_side | intro].
  keeps_auto.
Qed.

(** The rest of the write side. *)
Ltac keeps_write :=
  cbv zeta;
  repeat first
    [ lazymatch goal with
      | |- keeps Inv F (cno_frame_write _ _) => apply keeps_frame_write; keeps_frame_side
      end
    | keeps_step ].

Lemma keeps_write_ping data : keeps Inv F (cno_write_ping env data).
Proof. unfold cno_write_ping. keeps_write. Qed.

Lemma keeps_write_frame frame : F frame -> keeps Inv F (cno_write_frame env frame).
Proof.
  intros Hf. unfold cno_write_frame. apply keeps_bind; [apply keeps_get | intro c].
  destruct (negb _); [apply keeps_error | apply keeps_frame_write, Hf].
Qed.

Lemma keeps_increase_flow_window stream bytes :
  keeps Inv F (cno_increase_flow_window env stream bytes).
Proof. unfold cno_increase_flow_window. keeps_write. Qed.

Lemma keeps_connection_lost_bucket fuel b : keeps Inv F (cno_connection_lost_bucket env fuel b).
Proof.
  induction fuel as [|fuel IH]; cbn [cno_connection_lost_bucket]; keeps_auto.
Qed.

Lemma keeps_connection_lost_buckets fuel bs :
  keeps Inv F (cno_connection_lost_buckets env fuel bs).
Proof.
  induction bs as [|b bs IH]; cbn [cno_connection_lost_buckets]; [apply keeps_ret|].
  apply keeps_bind; [apply keeps_connection_lost_bucket | intro; exact IH].
Qed.

Lemma keeps_connection_reset_bucket fuel b : keeps Inv F (cno_connection_reset_bucket fuel b).
Proof.
  induction fuel as [|fuel IH]; cbn [cno_connection_reset_bucket]; keeps_auto.
Qed.

Lemma keeps_connection_reset_buckets fuel bs :
  keeps Inv F (cno_connection_reset_buckets fuel bs).
Proof.
  induction bs as [|b bs IH]; cbn [cno_connection_reset_buckets]; [apply keeps_ret|].
  apply keeps_bind; [apply keeps_connection_reset_bucket | intro; exact IH].
Qed.

Lemma keeps_connection_reset cno_hpack_clear fuel :
  keeps Inv F (cno_connection_reset cno_hpack_clear fuel).
Proof.
  unfold cno_connection_reset.
  do 4 (apply keeps_bind; [keeps_auto | intro]).
  apply keeps_connection_reset_buckets.
Qed.

Lemma keeps_connection_lost fuel :
  (forall c, Inv c -> Inv (set_state CNO_CONNECTION_UNDEFINED c)) ->
  keeps Inv F (cno_connection_lost env fuel).
Proof.
  intros Hu. unfold cno_connection_lost. apply keeps_bind; [apply keeps_get | intro c].
  destruct (negb (cno_connection_is_http2 c)); [keeps_auto|].
  apply keeps_bind; [apply keeps_modify, Hu | intro].
  apply keeps_connection_lost_buckets.
Qed.

Variable cno_hpack_encode :
  cno_hpack_t -> list cno_header_t -> cno_hpack_t * (bytes + cno_error_kind).

Lemma keeps_hpack_encode hs : keeps Inv F (hpack_encode cno_hpack_encode hs).
Proof. unfold hpack_encode. keeps_auto. Qed.
#[local] Hint Resolve keeps_hpack_encode : keeps.

Lemma keeps_write_push stream msg : keeps Inv F (cno_write_push env cno_hpack_encode stream msg).
Proof. unfold cno_write_push. keeps_write. Qed.

Lemma keeps_write_message_http2 stream msg final :
  keeps Inv F (cno_write_message_http2 env cno_hpack_encode stream msg final).
Proof. unfold cno_write_message_http2. keeps_write. Qed.

(** [cno_write_message] on a connection in HTTP/2 mode. *)
Lemma keeps_write_message stream msg final :
  (forall c, Inv c -> cno_connection_is_http2 c = true) ->
  keeps Inv F (cno_write_message env cno_hpack_encode stream msg final).
Proof.
  intros Hh2 c H. unfold cno_write_message. rewrite bind_get.
  rewrite (Hh2 c H). cbn [negb andb].
  match goal with |- context [?m c] =>
    match m with
    | (if _ then _ else _) => assert (K : keeps Inv F m); [|exact (K c H)]
    end
  end.
  destruct (state_eqb (state c) CNO_CONNECTION_UNDEFINED); [keeps_auto|].
  cbv zeta. destruct (_ && final); [keeps_auto|].
  apply keeps_bind; [keeps_auto|intro p].
  apply keeps_bind;
    [apply keeps_bind; [apply keeps_write_message_http2 | intro; apply keeps_ret] | intro inf].
  keeps_auto.
Qed.

(** The driver, on a connection that speaks HTTP/2 frames. *)
Hypothesis Inv_framing : forall c, Inv c -> h2_framing (state c) = true.
Hypothesis Inv_set_state : forall c st,
  h2_framing st = true -> Inv c -> Inv (set_state st c).

Lemma keeps_proceed_ready : keeps Inv F (cno_connection_proceed_ready env).
Proof.
  unfold cno_connection_proceed_ready, cno_buffer_dyn_shift_buffer.
  apply keeps_bind; [apply keeps_get | intro c]. cbv zeta.
  destruct (zlen (buffer c) <? 9); [keeps_auto|].
  destruct (_ >? _); [keeps_auto|].
  destruct (zlen (buffer c) <? _); [keeps_auto|].
  destruct (_ && _); [keeps_auto|].
  apply keeps_bind; [apply keeps_modify; intros; apply Inv_set_state; auto | intro].
  apply keeps_bind; [keeps_auto | intro].
  apply keeps_bind; [apply keeps_get | intro c'].
  apply keeps_bind; [|intro; apply keeps_ret].
  apply keeps_when. apply keeps_bind; [keeps_auto | intro]. apply keeps_frame_handle.
Qed.

Lemma keeps_connection_upgrade : keeps Inv F (cno_connection_upgrade env).
Proof. unfold cno_connection_upgrade. keeps_auto. Qed.

Lemma keeps_proceed fuel : keeps Inv F (cno_connection_proceed env fuel).
Proof.
  induction fuel as [|fuel IH]; cbn [cno_connection_proceed]; [apply keeps_stuck|].
  intros c Hc. rewrite bind_get.
  assert (K : keeps Inv F (again <- match state c with
        | CNO_CONNECTION_UNDEFINED => ret false
        | CNO_CONNECTION_INIT =>
            modify (set_state CNO_CONNECTION_PREFACE) ;;
            cno_connection_upgrade env ;;
            ret true
        | CNO_CONNECTION_PREFACE =>
            if negb (client c) then
              if zlen (buffer c) <? zlen CNO_PREFACE then ret false
              else if negb (bytes_eqb (ztake (zlen CNO_PREFACE) (buffer c)) CNO_PREFACE)
              then CNO_ERROR TRANSPORT
              else
                cno_buffer_dyn_shift_buffer (zlen CNO_PREFACE) ;;
                modify (set_state CNO_CONNECTION_READY_NO_SETTINGS) ;;
                ret true
            else
              modify (set_state CNO_CONNECTION_READY_NO_SETTINGS) ;;
              ret true
        | CNO_CONNECTION_READY_NO_SETTINGS
        | CNO_CONNECTION_READY => cno_connection_proceed_ready env
        | CNO_CONNECTION_HTTP1_READY => cno_connection_proceed_http1_ready env
        | _ => cno_connection_proceed_http1 env
        end ;;
      if again then cno_connection_proceed env fuel else ret tt)).
  { apply keeps_bind; [|intros [|]; [exact IH | apply keeps_ret]].
    pose proof (Inv_framing c Hc) as Hst.
    destruct (state c); try discriminate Hst.
    - apply keeps_bind; [apply keeps_modify; intros; apply Inv_set_state; auto | intro].
      apply keeps_bind; [apply keeps_connection_upgrade | intro]. apply keeps_ret.
    - unfold cno_buffer_dyn_shift_buffer.
      destruct (negb (client c)).
      + destruct (_ <? _); [apply keeps_ret|].
        destruct (negb _); [apply keeps_error|].
        apply keeps_bind; [keeps_auto | intro].
        apply keeps_bind; [apply keeps_modify; intros; apply Inv_set_state; auto | intro].
        apply keeps_ret.
      + apply keeps_bind; [apply keeps_modify; intros; apply Inv_set_state; auto | intro].
        apply keeps_ret.
    - apply keeps_proceed_ready.
    - apply keeps_proceed_ready. }
  exact (K c Hc).
Qed.

Lemma keeps_data_received fuel data : keeps Inv F (cno_connection_data_received env fuel data).
Proof.
  unfold cno_connection_data_received, cno_buffer_dyn_concat_buffer.
  apply keeps_bind; [apply keeps_get | intro c].
  destruct (state_eqb _ _); [apply keeps_error|].
  apply keeps_bind; [keeps_auto | intro]. apply keeps_proceed.
Qed.

End Invariant.

(** *** GOAWAY never names a stream *)

Section NeverMarked.

Variable env : cno_env.

Let marked_frame : forall c c',
  goaway_sent c' = goaway_sent c -> last_stream c' = last_stream c ->
  state c' = state c -> never_marked c -> never_marked c'.
Proof. unfold never_marked. congruence. Qed.

Let marked_other : forall f, type f <> CNO_FRAME_GOAWAY -> goaway_last_stream_zero f.
Proof. unfold goaway_last_stream_zero. tauto. Qed.

Let marked_goaway_sent : forall c,
  never_marked c -> goaway_sent c <> 0 ->
  never_marked (set_goaway_sent (side_get (last_stream c) CNO_REMOTE) c).
Proof. unfold never_marked. tauto. Qed.

Let marked_last_stream : forall c id local,
  never_marked c ->
  (cno_connection_is_http2 c = true -> side_get (last_stream c) local < id) ->
  never_marked (set_last_stream (side_set (last_stream c) local id) c).
Proof. unfold never_marked. auto. Qed.

Let marked_goaway : forall c code,
  never_marked c ->
  goaway_last_stream_zero (mk_frame CNO_FRAME_GOAWAY 0 0 (I32 (goaway_sent c) ++ I32 code)).
Proof. unfold never_marked, goaway_last_stream_zero. intros c code -> _. reflexivity. Qed.

Lemma goaway_safe_write_goaway code : goaway_safe (cno_frame_write_goaway env code).
Proof. apply keeps_goaway; auto. Qed.

Lemma goaway_safe_frame_handle frame : goaway_safe (cno_frame_handle env frame).
Proof. apply keeps_frame_handle; auto. Qed.

Lemma goaway_safe_write_reset stream code : goaway_safe (cno_write_reset env stream code).
Proof. apply keeps_write_reset; auto. Qed.

Lemma goaway_safe_write_data stream data final :
  goaway_safe (cno_write_data env stream data final).
Proof. apply keeps_write_data; auto. Qed.

Lemma goaway_safe_set_config new_settings :
  goaway_safe (cno_connection_set_config env new_settings).
Proof. apply keeps_set_config; auto. Qed.

(** The driver, started in one of the HTTP/2 framing states. *)
Lemma goaway_safe_data_received fuel data c :
  never_marked c -> h2_framing (state c) = true ->
  never_marked (conn_of (cno_connection_data_received env fuel data c))
  /\ Forall (event_ok goaway_last_stream_zero)
            (trace_of (cno_connection_data_received env fuel data c)).
Proof.
  intros H Hst.
  assert (K : keeps (fun c => never_marked c /\ h2_framing (state c) = true)
                    goaway_last_stream_zero
                    (cno_connection_data_received env fuel data)).
  { apply keeps_data_received.
    - unfold never_marked. intros c0 c' E1 E2 E3 [? ?]. rewrite E1, E3. auto.
    - exact marked_other.
    - unfold never_marked. tauto.
    - unfold never_marked. intros c0 id local [? ?] _. auto.
    - intros c0 code [? ?]. auto.
    - tauto.
    - unfold never_marked. intros c0 st Hs [? ?]. auto. }
  destruct (K c (conj H Hst)) as [[H1 _] H2]. auto.
Qed.

End NeverMarked.

(** *** [last_stream] only grows *)

Section LastStream.

Variable env : cno_env.
Variable n : Z.
Variable k : bool.

Let from_frame : forall c c',
  goaway_sent c' = goaway_sent c -> last_stream c' = last_stream c ->
  state c' = state c -> last_stream_from n k c -> last_stream_from n k c'.
Proof.
  unfold last_stream_from, cno_connection_is_http2. intros c c' _ -> ->. auto.
Qed.

Let from_goaway_sent : forall c,
  last_stream_from n k c -> goaway_sent c <> 0 ->
  last_stream_from n k (set_goaway_sent (side_get (last_stream c) CNO_REMOTE) c).
Proof. unfold last_stream_from. auto. Qed.

Let from_last_stream : forall c id local,
  last_stream_from n k c ->
  (cno_connection_is_http2 c = true -> side_get (last_stream c) local < id) ->
  last_stream_from n k (set_last_stream (side_set (last_stream c) local id) c).
Proof.
  unfold last_stream_from. intros c id local [Hh2 Hn] Hid. split; [exact Hh2|].
  cbn [last_stream set_last_stream]. specialize (Hid Hh2).
  destruct local, k; cbn in *; lia.
Qed.

Lemma last_stream_from_frame_handle frame :
  keeps (last_stream_from n k) (fun _ => True) (cno_frame_handle env frame).
Proof. apply keeps_frame_handle; auto. Qed.

Lemma last_stream_from_write_reset stream code :
  keeps (last_stream_from n k) (fun _ => True) (cno_write_reset env stream code).
Proof. apply keeps_write_reset; auto. Qed.

Lemma last_stream_from_write_data stream data final :
  keeps (last_stream_from n k) (fun _ => True) (cno_write_data env stream data final).
Proof. apply keeps_write_data; auto. Qed.

Lemma last_stream_from_set_config new_settings :
  keeps (last_stream_from n k) (fun _ => True) (cno_connection_set_config env new_settings).
Proof. apply keeps_set_config; auto. Qed.

Lemma last_stream_from_data_received fuel data c :
  h2_framing (state c) = true -> n <= side_get (last_stream c) k ->
  n <= side_get (last_stream (conn_of (cno_connection_data_received env fuel data c))) k.
Proof.
  intros Hst Hn.
  assert (Hh2 : forall st, h2_framing st = true ->
                match st with
                | CNO_CONNECTION_INIT | CNO_CONNECTION_PREFACE | CNO_CONNECTION_READY
                | CNO_CONNECTION_READY_NO_SETTINGS
                | CNO_CONNECTION_HTTP1_READING_UPGRADE => true
                | _ => false
                end = true) by (intros []; auto).
  assert (K : keeps (fun c => last_stream_from n k c /\ h2_framing (state c) = true)
                    (fun _ => True)
                    (cno_connection_data_received env fuel data)).
  { apply keeps_data_received.
    - intros c0 c' E1 E2 E3 [? ?]. split; [eapply from_frame; eauto|]. rewrite E3. auto.
    - auto.
    - intros c0 [? ?] ?. split; auto.
    - intros c0 id local [? ?] ?. split; auto.
    - auto.
    - tauto.
    - intros c0 st Hs [[? ?] ?]. split; [split|]; auto.
      unfold cno_connection_is_http2. cbn. auto. }
  assert (H0 : last_stream_from n k c /\ h2_framing (state c) = true).
  { split; [split|]; auto. unfold cno_connection_is_http2. auto. }
  destruct (K c H0) as [[[_ H1] _] _]. exact H1.
Qed.

Lemma last_stream_from_write_ping data :
  keeps (last_stream_from n k) (fun _ => True) (cno_write_ping env data).
Proof. apply keeps_write_ping; auto. Qed.

Lemma last_stream_from_write_frame frame :
  keeps (last_stream_from n k) (fun _ => True) (cno_write_frame env frame).
Proof. apply keeps_write_frame; auto. Qed.

Lemma last_stream_from_increase_flow_window stream bytes :
  keeps (last_stream_from n k) (fun _ => True) (cno_increase_flow_window env stream bytes).
Proof. apply keeps_increase_flow_window; auto. Qed.

Lemma last_stream_from_write_push encode stream msg :
  keeps (last_stream_from n k) (fun _ => True) (cno_write_push env encode stream msg).
Proof. apply keeps_write_push; auto. Qed.

Lemma last_stream_from_write_message encode stream msg final :
  keeps (last_stream_from n k) (fun _ => True) (cno_write_message env encode stream msg final).
Proof. apply keeps_write_message; auto. intros c [H _]. exact H. Qed.

(** [cno_connection_made] for HTTP/2 on a connection that has not been
    made. *)
Lemma last_stream_from_made fuel c :
  state c = CNO_CONNECTION_UNDEFINED -> n <= side_get (last_stream c) k ->
  n <= side_get (last_stream (conn_of (cno_connection_made env fuel CNO_HTTP2 c))) k.
Proof.
  intros Hst Hn. unfold cno_connection_made. rewrite bind_get, Hst.
  cbn [state_eqb negb]. rewrite bind_modify.
  assert (K : keeps (fun c => last_stream_from n k c /\ h2_framing (state c) = true)
                    (fun _ => True) (cno_connection_proceed env fuel)).
  { apply keeps_proceed.
    - intros c0 c' E1 E2 E3 [? ?]. split; [eapply from_frame; eauto|]. rewrite E3. auto.
    - auto.
    - intros c0 [? ?] ?. split; auto.
    - intros c0 id local [? ?] ?. split; auto.
    - auto.
    - tauto.
    - intros c0 st Hs [[? ?] ?]. split; [split|]; auto.
      unfold cno_connection_is_http2. destruct st; try discriminate Hs; reflexivity. }
  destruct (K (set_state CNO_CONNECTION_INIT c)) as [[[_ H1] _] _]; [|exact H1].
  split; [split|]; [reflexivity | exact Hn | reflexivity].
Qed.

(** Closing down: no stream is created. *)
Lemma last_stream_kept_lost fuel c :
  n <= side_get (last_stream c) k ->
  n <= side_get (last_stream (conn_of (cno_connection_lost env fuel c))) k.
Proof.
  intros Hn.
  assert (K : keeps (fun c => n <= side_get (last_stream c) k) (fun _ => True)
                    (cno_connection_lost env fuel)).
  { apply keeps_connection_lost; [|auto].
    intros c0 c' _ E _. rewrite E. auto. }
  apply (K c Hn).
Qed.

Lemma last_stream_kept_reset clear fuel c :
  n <= side_get (last_stream c) k ->
  n <= side_get (last_stream (conn_of (cno_connection_reset clear fuel c))) k.
Proof.
  intros Hn.
  assert (K : keeps (fun c => n <= side_get (last_stream c) k) (fun _ => True)
                    (cno_connection_reset clear fuel)).
  { apply keeps_connection_reset. intros c0 c' _ E _. rewrite E. auto. }
  apply (K c Hn).
Qed.

End LastStream.

(** ** Splitting a frame *)

Lemma sent_frames_wire f t : sent_frames (wire f ++ t) = f :: sent_frames t.
Proof.
  unfold wire, sent_frames. cbn. destruct (zlen (payload f) =? 0); reflexivity.
Qed.

Lemma sent_frames_parts ps : sent_frames (flat_map wire ps) = ps.
Proof.
  induction ps as [|f ps IH]; [reflexivity|].
  cbn [flat_map]. rewrite sent_frames_wire, IH. reflexivity.
Qed.

Lemma zlen_zdrop {A} n (l : list A) : 0 <= n <= zlen l -> zlen (zdrop n l) = zlen l - n.
Proof. unfold zlen, zdrop. intros H. rewrite length_skipn. lia. Qed.

Lemma zlen_ztake {A} n (l : list A) : 0 <= n <= zlen l -> zlen (ztake n l) = n.
Proof. unfold zlen, ztake. intros H. rewrite firstn_length_le; lia. Qed.

Lemma ztake_zdrop {A} n (l : list A) : ztake n l ++ zdrop n l = l.
Proof. apply firstn_skipn. Qed.

Lemma clear_flag_land x m f : Z.land (clear_flag x m) f = Z.land (Z.land x f) (Z.lnot m).
Proof.
  unfold clear_flag. rewrite <- !Z.land_assoc. f_equal. apply Z.land_comm.
Qed.

Lemma clear_flag_zero x m f : Z.land x f = 0 -> Z.land (clear_flag x m) f = 0.
Proof. intros H. rewrite clear_flag_land, H. reflexivity. Qed.

Lemma clear_flag_other x m f :
  Z.land (Z.lnot m) f = f -> Z.land (clear_flag x m) f = Z.land x f.
Proof. unfold clear_flag. intros H. rewrite <- Z.land_assoc, H. reflexivity. Qed.

Lemma has_flag_false x f : has_flag x f = false <-> Z.land x f = 0.
Proof.
  unfold has_flag. rewrite negb_false_iff. apply Z.eqb_eq.
Qed.

Lemma has_flag_land x y f : Z.land x f = Z.land y f -> has_flag x f = has_flag y f.
Proof. unfold has_flag. intros ->. reflexivity. Qed.

Section FrameParts.

Variables (limit carry : Z) (frame : cno_frame_t).
Hypothesis limit_pos : 0 < limit.

Let fp (fuel : nat) (part : cno_frame_t) := frame_parts fuel limit carry frame part.

Lemma next_part_fields part :
  stream (next_part limit part) = stream part
  /\ payload (next_part limit part) = zdrop limit (payload part)
  /\ flags (next_part limit part)
     = clear_flag (flags part) (Z.lor CNO_FLAG_PRIORITY CNO_FLAG_END_STREAM)
  /\ type (next_part limit part)
     = if type part =? CNO_FRAME_DATA then type part else CNO_FRAME_CONTINUATION.
Proof.
  unfold next_part. cbn [type frame_set_payload frame_set_flags].
  destruct (type part =? CNO_FRAME_DATA); cbn; auto.
Qed.

Lemma next_part_fuel fuel part :
  (zlen (payload part) >? limit) = true ->
  (Z.to_nat (zlen (payload part)) <= S fuel)%nat ->
  (Z.to_nat (zlen (payload (next_part limit part))) <= fuel)%nat.
Proof using limit_pos.
  intros E Hf. destruct (next_part_fields part) as (_ & -> & _).
  rewrite Z.gtb_ltb in E. apply Z.ltb_lt in E.
  rewrite zlen_zdrop by lia. lia.
Qed.

Lemma frame_parts_payload fuel : forall part,
  (Z.to_nat (zlen (payload part)) <= fuel)%nat ->
  List.concat (map payload (fp fuel part)) = payload part
  /\ fp fuel part <> []
  /\ Forall (fun p => stream p = stream part /\ zlen (payload p) <= limit) (fp fuel part).
Proof using limit_pos.
  unfold fp. induction fuel as [|fuel IH]; intros part Hf; cbn [frame_parts].
  - destruct (zlen (payload part) >? limit) eqn:E.
    + rewrite Z.gtb_ltb in E. apply Z.ltb_lt in E. lia.
    + rewrite Z.gtb_ltb in E. apply Z.ltb_ge in E.
      cbn. rewrite app_nil_r. repeat split; [discriminate|]. repeat constructor. exact E.
  - destruct (zlen (payload part) >? limit) eqn:E.
    + destruct (IH _ (next_part_fuel fuel part E Hf)) as (H1 & H2 & H3).
      destruct (next_part_fields part) as (Es & Ep & _).
      rewrite Z.gtb_ltb in E. apply Z.ltb_lt in E.
      cbn [map List.concat payload frame_set_payload]. rewrite H1, Ep, ztake_zdrop.
      repeat split; [discriminate|]. constructor.
      * cbn. split; [reflexivity|]. rewrite zlen_ztake; lia.
      * rewrite Es in H3. exact H3.
    + rewrite Z.gtb_ltb in E. apply Z.ltb_ge in E.
      cbn. rewrite app_nil_r. repeat split; [discriminate|]. repeat constructor. exact E.
Qed.

(** A flag that neither the part nor the carried flag has is in no part. *)
Lemma frame_parts_without m fuel : forall part,
  Z.land carry m = 0 ->
  Z.land (flags part) m = 0 ->
  Forall (fun p => has_flag (flags p) m = false) (fp fuel part).
Proof.
  unfold fp. intros part Hc. revert part.
  assert (Hlast : forall part, Z.land (flags part) m = 0 ->
            has_flag (Z.lor (flags part) (Z.land (flags frame) carry)) m = false).
  { intros part H. apply has_flag_false.
    rewrite Z.land_lor_distr_l, H, <- Z.land_assoc, Hc, Z.land_0_r. reflexivity. }
  induction fuel as [|fuel IH]; intros part H; cbn [frame_parts];
    destruct (zlen (payload part) >? limit); try constructor; try constructor.
  - cbn. apply Hlast, H.
  - cbn. apply has_flag_false, H.
  - apply IH. destruct (next_part_fields part) as (_ & _ & -> & _).
    apply clear_flag_zero, H.
  - cbn. apply Hlast, H.
Qed.

(** The carried flag is on the last part only, and there as on the
    original frame. *)
Lemma frame_parts_carry fuel : forall part,
  (Z.to_nat (zlen (payload part)) <= fuel)%nat ->
  Z.land (flags part) carry = 0 ->
  Forall (fun p => has_flag (flags p) carry = false) (removelast (fp fuel part))
  /\ has_flag (flags (last (fp fuel part) frame)) carry = has_flag (flags frame) carry.
Proof using limit_pos.
  unfold fp.
  assert (Hlast : forall part, Z.land (flags part) carry = 0 ->
            has_flag (Z.lor (flags part) (Z.land (flags frame) carry)) carry
            = has_flag (flags frame) carry).
  { intros part H. apply has_flag_land.
    rewrite Z.land_lor_distr_l, H, <- Z.land_assoc, Z.land_diag. reflexivity. }
  induction fuel as [|fuel IH]; intros part Hf H; cbn [frame_parts].
  - destruct (zlen (payload part) >? limit) eqn:E.
    + rewrite Z.gtb_ltb in E. apply Z.ltb_lt in E. lia.
    + cbn. split; [constructor | apply Hlast, H].
  - destruct (zlen (payload part) >? limit) eqn:E.
    + pose proof (next_part_fuel fuel part E Hf) as Hf'.
      destruct (frame_parts_payload fuel (next_part limit part) Hf') as (_ & Hne & _).
      unfold fp in Hne.
      destruct (IH (next_part limit part) Hf') as [H1 H2].
      { destruct (next_part_fields part) as (_ & _ & -> & _). apply clear_flag_zero, H. }
      destruct (frame_parts fuel limit carry frame (next_part limit part)) as [|q qs] eqn:Eq;
        [contradiction|].
      split.
      * cbn [removelast]. constructor; [apply has_flag_false; exact H | exact H1].
      * exact H2.
    + cbn. split; [constructor | apply Hlast, H].
Qed.

(** Once the type is DATA or CONTINUATION, it is the type of every part. *)
Lemma frame_parts_type fuel : forall part,
  type part = CNO_FRAME_DATA \/ type part = CNO_FRAME_CONTINUATION ->
  Forall (fun p => type p = type part) (fp fuel part).
Proof.
  unfold fp. induction fuel as [|fuel IH]; intros part H; cbn [frame_parts];
    destruct (zlen (payload part) >? limit); try constructor; try constructor;
    try reflexivity.
  destruct (next_part_fields part) as (_ & _ & _ & Et).
  assert (E : type (next_part limit part) = type part).
  { rewrite Et. destruct H as [H|H]; rewrite H; reflexivity. }
  rewrite <- E. apply IH. rewrite E. exact H.
Qed.

End FrameParts.

(** ** Request header blocks *)

Open Scope string_scope.
Open Scope list_scope.

Lemma has_upper_spec n : has_upper n = true <-> contains_uppercase n.
Proof.
  unfold contains_uppercase. induction n as [|a n IH]; cbn.
  - split; [discriminate | intros (a & [] & _)].
  - rewrite orb_true_iff, IH. unfold is_upper. split.
    + intros [H|(b & Hb & Hr)].
      * exists a. split; [left; reflexivity|].
        apply andb_true_iff in H. destruct H as [H1 H2].
        apply Z.leb_le in H1, H2. lia.
      * exists b. auto.
    + intros (b & [<-|Hb] & Hr).
      * left. apply andb_true_iff. split; apply Z.leb_le; lia.
      * right. exists b. auto.
Qed.

Lemma list_set_length {A} (l : list A) : forall i v,
  List.length (list_set l i v) = List.length l.
Proof. induction l as [|x l IH]; intros [|i] v; cbn; auto. Qed.

Lemma firstn_list_set {A} (l : list A) : forall n i v,
  (n <= i)%nat -> firstn n (list_set l i v) = firstn n l.
Proof.
  induction l as [|x l IH]; intros [|n] [|i] v H; cbn; try reflexivity; try lia.
  f_equal. apply IH. lia.
Qed.

Lemma skipn_list_set {A} (l : list A) : forall n i v,
  (i < n)%nat -> skipn n (list_set l i v) = skipn n l.
Proof.
  induction l as [|x l IH]; intros [|n] [|i] v H; cbn; try reflexivity; try lia.
  apply IH. lia.
Qed.

Lemma skipn_le_eq {A} (l l' : list A) n m :
  (n <= m)%nat -> skipn n l = skipn n l' -> skipn m l = skipn m l'.
Proof.
  intros H E. replace m with ((m - n) + n)%nat by lia.
  rewrite <- !skipn_skipn. rewrite E. reflexivity.
Qed.

Lemma firstn_succ_nth {A} (d : A) (l l' : list A) n :
  firstn (S n) l = firstn (S n) l' -> (n < List.length l')%nat ->
  firstn n l = firstn n l' /\ nth n l d = nth n l' d.
Proof.
  revert l l'. induction n as [|n IH]; intros [|x l] [|y l'] H Hl; cbn in *;
    try discriminate; try lia.
  - injection H as ->. auto.
  - injection H as -> H. destruct (IH l l' H ltac:(lia)) as [E1 E2].
    rewrite E1. auto.
Qed.

Lemma firstn_snoc {A} (d : A) (l : list A) n :
  (n < List.length l)%nat -> firstn (S n) l = firstn n l ++ [nth n l d].
Proof.
  revert l. induction n as [|n IH]; intros [|x l] H; cbn in *; try lia.
  - reflexivity.
  - f_equal. apply IH. lia.
Qed.

Lemma first_non_pseudo_le hs : (first_non_pseudo hs <= List.length hs)%nat.
Proof.
  induction hs as [|h hs IH]; cbn; [lia|].
  destruct (cno_buffer_startswith (name h) ":"); lia.
Qed.

Lemma first_non_pseudo_prefix hs :
  Forall (fun h => is_pseudo h = true) (firstn (first_non_pseudo hs) hs).
Proof.
  induction hs as [|h hs IH]; cbn; [constructor|].
  destruct (cno_buffer_startswith (name h) ":") eqn:E; cbn; constructor; auto.
Qed.

Lemma first_non_pseudo_app l1 r rest :
  is_pseudo r = false -> (first_non_pseudo (l1 ++ r :: rest) <= List.length l1)%nat.
Proof.
  intros Hr. induction l1 as [|h l1 IH]; cbn.
  - unfold is_pseudo, cno_buffer_startswith in *. rewrite Hr. lia.
  - destruct (cno_buffer_startswith (name h) ":"); lia.
Qed.

Lemma In_skipn_le {A} (x : A) (l : list A) n m :
  (n <= m)%nat -> In x (skipn m l) -> In x (skipn n l).
Proof.
  intros H Hx. replace m with ((m - n) + n)%nat in Hx by lia.
  rewrite <- skipn_skipn in Hx.
  rewrite <- (firstn_skipn (m - n) (skipn n l)). apply in_or_app. right. exact Hx.
Qed.

Lemma named_app n l1 l2 : named n (l1 ++ l2) = named n l1 ++ named n l2.
Proof. apply filter_app. Qed.

Lemma named_snoc_other n pre h :
  String.eqb (name h) n = false -> named n (pre ++ [h]) = named n pre.
Proof. intros H. rewrite named_app. cbn. rewrite H. apply app_nil_r. Qed.

Lemma named_snoc_same n pre h :
  String.eqb (name h) n = true -> named n (pre ++ [h]) = named n pre ++ [h].
Proof. intros H. rewrite named_app. cbn. rewrite H. reflexivity. Qed.

Lemma field_found_other n before after pre h :
  String.eqb (name h) n = false ->
  field_found n before after pre -> field_found n before after (pre ++ [h]).
Proof. unfold field_found. intros H. rewrite named_snoc_other by exact H. auto. Qed.

Lemma field_found_set n after pre h :
  String.eqb (name h) n = true ->
  field_found n (Some (value h)) after pre -> field_found n None after (pre ++ [h]).
Proof.
  unfold field_found. intros H [K ->]. rewrite named_snoc_same, K by exact H.
  right. exists h. auto.
Qed.

Lemma scheme_found_other before after pre h :
  String.eqb (name h) ":scheme" = false ->
  scheme_found before after pre -> scheme_found before after (pre ++ [h]).
Proof.
  unfold scheme_found, count_name. intros H. rewrite named_snoc_other by exact H. auto.
Qed.

Lemma scheme_found_set after pre h :
  String.eqb (name h) ":scheme" = true ->
  scheme_found true after pre -> scheme_found false after (pre ++ [h]).
Proof.
  unfold scheme_found, count_name. intros H [K ->].
  rewrite named_snoc_same, K by exact H. reflexivity.
Qed.

Lemma pseudo_loop_request hs : forall it st st',
  (it <= ps_into st)%nat ->
  (it <= List.length hs)%nat ->
  firstn it (ps_array st) = firstn it hs ->
  pseudo_loop it false false st = Some st' ->
  Forall (fun h => request_pseudo (name h) = true) (firstn it hs)
  /\ field_found ":path" (ps_path st) (ps_path st') (firstn it hs)
  /\ field_found ":method" (ps_method st) (ps_method st') (firstn it hs)
  /\ scheme_found (ps_has_scheme st) (ps_has_scheme st') (firstn it hs)
  /\ skipn (ps_into st) (ps_array st') = skipn (ps_into st) (ps_array st).
Proof.
  induction it as [|it IH]; intros st st' Hinto Hlen Harr Hloop.
  - cbn in Hloop. injection Hloop as <-. cbn.
    repeat split; try constructor.
    + unfold field_found. destruct (ps_path st); auto.
    + unfold field_found. destruct (ps_method st); auto.
    + unfold scheme_found. destruct (ps_has_scheme st); auto.
  - cbn [pseudo_loop] in Hloop.
    destruct (firstn_succ_nth CNO_HEADER_EMPTY _ _ _ Harr ltac:(lia)) as [Harr' Hnth].
    rewrite Hnth in Hloop.
    rewrite (firstn_snoc CNO_HEADER_EMPTY hs it) by lia.
    set (h := nth it hs CNO_HEADER_EMPTY) in *.
    unfold cno_buffer_eq in Hloop.
    assert (Hsave : forall b,
              firstn it (ps_array (save_header it st b)) = firstn it hs
              /\ (it <= ps_into (save_header it st b))%nat
              /\ skipn (ps_into st) (ps_array (save_header it st b))
                 = skipn (ps_into st) (ps_array st)
              /\ ps_into (save_header it st b) = pred (ps_into st)
              /\ ps_path (save_header it st b) = ps_path st
              /\ ps_method (save_header it st b) = ps_method st
              /\ ps_has_scheme (save_header it st b) = b).
    { intros b. unfold save_header. cbn.
      destruct (Nat.eqb it (pred (ps_into st))) eqn:E.
      - repeat split; auto; lia.
      - apply Nat.eqb_neq in E. repeat split; auto; try lia.
        + rewrite !firstn_list_set by lia. exact Harr'.
        + rewrite !skipn_list_set by lia. reflexivity. }
    assert (Hknown : forall n, name h = n -> request_pseudo n = true ->
              Forall (fun h => request_pseudo (name h) = true) (firstn it hs) ->
              Forall (fun h => request_pseudo (name h) = true) (firstn it hs ++ [h])).
    { intros n Hn Hr K. apply Forall_app. split; [exact K|].
      repeat constructor. rewrite Hn. exact Hr. }
    destruct (String.eqb (name h) ":path") eqn:Epath.
    { pose proof Epath as Hname. apply String.eqb_eq in Hname.
      destruct (ps_path st) eqn:Ep; [discriminate Hloop|]. cbn [buffer_is_null negb] in Hloop.
      apply IH in Hloop; [|cbn; lia|lia|exact Harr'].
      destruct Hloop as (K1 & K2 & K3 & K4 & K5).
      cbn [ps_path ps_method ps_has_scheme ps_into ps_array] in *.
      split; [apply (Hknown _ Hname eq_refl K1)|].
      split; [apply field_found_set; assumption|].
      split; [apply field_found_other; [rewrite Hname; reflexivity | exact K3]|].
      split; [apply scheme_found_other; [rewrite Hname; reflexivity | exact K4]|].
      exact K5. }
    destruct (String.eqb (name h) ":method") eqn:Emeth.
    { pose proof Emeth as Hname. apply String.eqb_eq in Hname.
      destruct (ps_method st) eqn:Em; [discriminate Hloop|]. cbn [buffer_is_null negb] in Hloop.
      apply IH in Hloop; [|cbn; lia|lia|exact Harr'].
      destruct Hloop as (K1 & K2 & K3 & K4 & K5).
      cbn [ps_path ps_method ps_has_scheme ps_into ps_array] in *.
      split; [apply (Hknown _ Hname eq_refl K1)|].
      split; [apply field_found_other; [exact Epath | exact K2]|].
      split; [apply field_found_set; assumption|].
      split; [apply scheme_found_other; [rewrite Hname; reflexivity | exact K4]|].
      exact K5. }
    destruct (String.eqb (name h) ":authority") eqn:Eauth.
    { pose proof Eauth as Hname. apply String.eqb_eq in Hname.
      destruct (Hsave (ps_has_scheme st)) as (S1 & S2 & S3 & S4 & S5 & S6 & S7).
      apply IH in Hloop; [|exact S2|lia|exact S1].
      destruct Hloop as (K1 & K2 & K3 & K4 & K5).
      rewrite S5 in K2. rewrite S6 in K3. rewrite S7 in K4. rewrite S4 in K5.
      split; [apply (Hknown _ Hname eq_refl K1)|].
      split; [apply field_found_other; [exact Epath | exact K2]|].
      split; [apply field_found_other; [exact Emeth | exact K3]|].
      split; [apply scheme_found_other; [rewrite Hname; reflexivity | exact K4]|].
      rewrite <- S3. apply (skipn_le_eq _ _ (pred (ps_into st))); [lia | exact K5]. }
    destruct (String.eqb (name h) ":scheme") eqn:Esch; [|discriminate Hloop].
    pose proof Esch as Hname. apply String.eqb_eq in Hname.
    destruct (ps_has_scheme st) eqn:Ehs; [discriminate Hloop|].
    destruct (Hsave true) as (S1 & S2 & S3 & S4 & S5 & S6 & S7).
    apply IH in Hloop; [|exact S2|lia|exact S1].
    destruct Hloop as (K1 & K2 & K3 & K4 & K5).
    rewrite S5 in K2. rewrite S6 in K3. rewrite S7 in K4. rewrite S4 in K5.
    split; [apply (Hknown _ Hname eq_refl K1)|].
    split; [apply field_found_other; [exact Epath | exact K2]|].
    split; [apply field_found_other; [exact Emeth | exact K3]|].
    split; [apply scheme_found_set; assumption|].
    rewrite <- S3. apply (skipn_le_eq _ _ (pred (ps_into st))); [lia | exact K5].
Qed.

Lemma named_regular n suf :
  String.prefix ":" n = true ->
  Forall (fun h => is_pseudo h = false) suf -> named n suf = [].
Proof.
  intros Hn H. induction H as [|h suf Hh _ IH]; [reflexivity|].
  cbn. destruct (String.eqb (name h) n) eqn:E; [|exact IH].
  apply String.eqb_eq in E. unfold is_pseudo in Hh. rewrite E, Hn in Hh. discriminate.
Qed.

Lemma regular_ok_spec suf :
  regular_ok suf = true ->
  Forall (fun h => is_pseudo h = false) suf
  /\ Forall (fun h => has_upper (name h) = false) suf.
Proof.
  unfold regular_ok. rewrite forallb_forall. intros H.
  split; apply Forall_forall; intros h Hh; specialize (H h Hh);
    apply andb_true_iff in H; destruct H as [H1 H2];
    apply negb_true_iff in H1, H2; assumption.
Qed.

Lemma request_pseudo_lower n : request_pseudo n = true -> has_upper n = false.
Proof.
  unfold request_pseudo. rewrite !orb_true_iff.
  intros [[[H|H]|H]|H]; apply String.eqb_eq in H; subst n; reflexivity.
Qed.

(** A request header block that gets past every [goto invalid_message] is
    not invalid. *)
Lemma request_block_accepted hs st' :
  pseudo_loop (first_non_pseudo hs) false false
    (mk_pseudo hs (first_non_pseudo hs) 0 CNO_BUFFER_EMPTY CNO_BUFFER_EMPTY false) = Some st' ->
  regular_ok (skipn (first_non_pseudo hs) (ps_array st')) = true ->
  buffer_is_null (ps_path st') || (buffer_size (ps_path st') =? 0)%Z
  || buffer_is_null (ps_method st') || (buffer_size (ps_method st') =? 0)%Z
  || negb (ps_has_scheme st') = false ->
  ~ request_block_invalid hs.
Proof.
  intros Hloop Hreg Hfin.
  apply pseudo_loop_request with (hs := hs) in Hloop;
    [|cbn; lia|apply first_non_pseudo_le|reflexivity].
  destruct Hloop as (K1 & K2 & K3 & K4 & K5).
  cbn [ps_path ps_method ps_has_scheme ps_into ps_array] in *.
  rewrite K5 in Hreg. apply regular_ok_spec in Hreg. destruct Hreg as [R1 R2].
  set (k := first_non_pseudo hs) in *.
  assert (Hsplit : hs = firstn k hs ++ skipn k hs) by (symmetry; apply firstn_skipn).
  assert (Hnamed : forall n, String.prefix ":" n = true ->
                             named n hs = named n (firstn k hs)).
  { intros n Hn. rewrite Hsplit at 1. rewrite named_app, (named_regular n _ Hn R1).
    apply app_nil_r. }
  apply orb_false_iff in Hfin. destruct Hfin as [Hfin Hs].
  apply orb_false_iff in Hfin. destruct Hfin as [Hfin Hm2].
  apply orb_false_iff in Hfin. destruct Hfin as [Hfin Hm1].
  apply orb_false_iff in Hfin. destruct Hfin as [Hp1 Hp2].
  apply negb_false_iff in Hs. rewrite Hs in K4.
  unfold field_found, scheme_found, CNO_BUFFER_EMPTY in *.
  destruct (ps_path st') as [pv|]; [|discriminate Hp1].
  destruct (ps_method st') as [mv|]; [|discriminate Hm1].
  destruct K2 as [[_ K2]|(hp & K2 & Ev)]; [discriminate K2|]. injection Ev as ->.
  destruct K3 as [[_ K3]|(hm & K3 & Ev)]; [discriminate K3|].
  intros [H|[H|[H|[H|[H|H]]]]].
  - apply H. unfold count_name. rewrite Hnamed, K3 by reflexivity. reflexivity.
  - apply H. exists hp. rewrite Hnamed by reflexivity. split; [exact K2|].
    intros E. rewrite E in Hp2. discriminate Hp2.
  - apply H. unfold count_name in *. rewrite Hnamed by reflexivity. exact K4.
  - destruct H as (h & Hin & Hup). apply has_upper_spec in Hup.
    rewrite Hsplit in Hin. apply in_app_or in Hin. destruct Hin as [Hin|Hin].
    + rewrite Forall_forall in K1. specialize (K1 h Hin).
      apply request_pseudo_lower in K1. congruence.
    + rewrite Forall_forall in R2. specialize (R2 h Hin). congruence.
  - destruct H as (l1 & r & l2 & q & l3 & E & Hr & Hq).
    assert (Hin : In q (skipn k hs)).
    { apply In_skipn_le with (m := List.length l1).
      - subst k. rewrite E. apply first_non_pseudo_app, Hr.
      - rewrite E, skipn_app, Nat.sub_diag, skipn_all. cbn.
        right. apply in_or_app. right. left. reflexivity. }
    rewrite Forall_forall in R1. specialize (R1 q Hin). congruence.
  - destruct H as (h & Hin & Hps & Hun).
    rewrite Hsplit in Hin. apply in_app_or in Hin. destruct Hin as [Hin|Hin].
    + rewrite Forall_forall in K1. specialize (K1 h Hin). congruence.
    + rewrite Forall_forall in R1. specialize (R1 h Hin). congruence.
Qed.

Close Scope string_scope.

Section Correctness.

Variable env : cno_env.

(** Every callback returns [CNO_OK]. *)
Hypothesis callbacks_ok : forall e, callback env e = None.

Lemma fire_ok e c : CNO_FIRE env e c = (c, [e], Ok tt).
Proof using callbacks_ok. unfold CNO_FIRE. rewrite callbacks_ok. reflexivity. Qed.

Lemma frame_write_one_ok f c : cno_frame_write_one env f c = (c, wire f, Ok tt).
Proof using callbacks_ok.
  unfold cno_frame_write_one, wire, bind.
  rewrite fire_ok; cbv beta iota. rewrite fire_ok; cbv beta iota.
  destruct (zlen (payload f) =? 0).
  - reflexivity.
  - rewrite fire_ok. reflexivity.
Qed.

Lemma frame_write_fits f c :
  peer_accepts c (zlen (payload f)) ->
  cno_frame_write env f c = (c, wire f, Ok tt).
Proof using callbacks_ok.
  unfold peer_accepts, cno_frame_write. intros H. rewrite bind_get.
  apply Z.leb_le in H. rewrite H. apply frame_write_one_ok.
Qed.

Lemma zlen_I32 x : zlen (I32 x) = 4.
Proof. reflexivity. Qed.

Lemma frame_write_goaway_ok code c :
  peer_accepts c 8 ->
  cno_frame_write_goaway env code c =
  (goaway_mark c, wire (goaway_frame (goaway_sent (goaway_mark c)) code), Ok tt).
Proof using callbacks_ok.
  intros H. unfold cno_frame_write_goaway, goaway_mark. rewrite bind_get.
  destruct (goaway_sent c =? 0) eqn:E; cbn [negb when].
  - rewrite bind_ret, bind_get. apply frame_write_fits. exact H.
  - rewrite bind_modify, bind_get. apply frame_write_fits. exact H.
Qed.

Lemma frame_write_error_ok {A} code c :
  peer_accepts c 8 ->
  @cno_frame_write_error env A code c =
  (goaway_mark c, wire (goaway_frame (goaway_sent (goaway_mark c)) code), Err TRANSPORT).
Proof using callbacks_ok.
  intros H. unfold cno_frame_write_error, bind.
  rewrite (frame_write_goaway_ok _ _ H). unfold CNO_ERROR.
  rewrite app_nil_r. reflexivity.
Qed.


(** ** Stream creation *)

Lemma side_get_set {A} (p : sided A) a b v :
  side_get (side_set p a v) b = if Bool.eqb a b then v else side_get p b.
Proof. destruct a, b; reflexivity. Qed.

Lemma find_bucket_head c id s chain :
  stream_id s = id ->
  cno_stream_find (set_bucket (bucket_of id) (s :: chain) c) id = Some s.
Proof.
  intros H. unfold cno_stream_find, set_bucket. cbn.
  rewrite Z.eqb_refl. cbn. rewrite H, Z.eqb_refl. reflexivity.
Qed.

(** The outcome of [cno_stream_new] once every check has passed. *)
Lemma cno_stream_new_passed c id local :
  cno_stream_is_local c id = local ->
  (if cno_connection_is_http2 c then side_get (last_stream c) local < id else id = 1) ->
  side_get (stream_count c) local
    < max_concurrent_streams (side_get (settings c) (negb local)) ->
  malloc_ok env = true ->
  let s := mk_stream id 0
             (i32 (initial_window_size (side_get (settings c) CNO_LOCAL)))
             (i32 (initial_window_size (side_get (settings c) CNO_REMOTE))) in
  let c1 := set_last_stream (side_set (last_stream c) local id) c in
  let c2 := set_bucket (bucket_of id) (s :: streams c (bucket_of id)) c1 in
  let c3 := stream_count_add local 1 c2 in
  cno_stream_new env id local c =
  match callback env (on_stream_start id) with
  | None => (c3, [on_stream_start id], Ok id)
  | Some k =>
      (stream_count_add local (-1) (set_bucket (bucket_of id) (streams c (bucket_of id)) c3),
       [on_stream_start id], Err k)
  end.
Proof.
  intros Hpar Hid Hcnt Hm. cbv zeta. unfold cno_stream_new. rewrite bind_get.
  rewrite Hpar, Bool.eqb_reflx. cbn [negb].
  assert (E2 : cno_connection_is_http2 c && (id <=? side_get (last_stream c) local) = false).
  { destruct (cno_connection_is_http2 c); cbn; [apply Z.leb_gt; exact Hid | reflexivity]. }
  assert (E3 : negb (cno_connection_is_http2 c) && negb (id =? 1) = false).
  { destruct (cno_connection_is_http2 c); cbn; [reflexivity|]. subst id. reflexivity. }
  assert (E4 : (side_get (stream_count c) local
                >=? max_concurrent_streams (side_get (settings c) (negb local))) = false).
  { rewrite Z.geb_leb. apply Z.leb_gt. exact Hcnt. }
  rewrite <- Hpar in *. rewrite E2, E3, E4, Hm. cbn [negb].
  rewrite !bind_modify. unfold bind, attempt, CNO_FIRE.
  destruct (callback env (on_stream_start id)); reflexivity.
Qed.

Lemma cno_stream_new_last_stream c id local k :
  cno_connection_is_http2 c = true ->
  side_get (last_stream c) k
    <= side_get (last_stream (conn_of (cno_stream_new env id local c))) k.
Proof.
  intros Hh2.
  destruct (Bool.eqb (cno_stream_is_local c id) local) eqn:E1;
    [|unfold cno_stream_new; rewrite bind_get, E1; cbn; lia].
  apply Bool.eqb_prop in E1.
  destruct (id <=? side_get (last_stream c) local) eqn:E2;
    [unfold cno_stream_new; rewrite bind_get, E1, Bool.eqb_reflx, Hh2;
     rewrite <- E1 in *; rewrite E2; cbn; lia|].
  destruct (side_get (stream_count c) local
            >=? max_concurrent_streams (side_get (settings c) (negb local))) eqn:E4;
    [unfold cno_stream_new; rewrite bind_get, E1, Bool.eqb_reflx, Hh2;
     rewrite <- E1 in *; rewrite E2, E4; cbn; destruct (cno_stream_is_local c id); cbn; lia|].
  destruct (malloc_ok env) eqn:Hm;
    [|unfold cno_stream_new; rewrite bind_get, E1, Bool.eqb_reflx, Hh2;
      rewrite <- E1 in *; rewrite E2, E4, Hm; cbn; lia].
  apply Z.leb_gt in E2. rewrite Z.geb_leb in E4. apply Z.leb_gt in E4.
  rewrite cno_stream_new_passed; auto; [|rewrite Hh2; exact E2].
  destruct (callback env (on_stream_start id)); cbn;
    rewrite side_get_set; destruct (Bool.eqb local k) eqn:Ek; try lia;
    apply Bool.eqb_prop in Ek; subst k; lia.
Qed.

(** ** Streams through pointers *)

Lemma deref_ok c p s : cno_stream_find c p = Some s -> deref p c = (c, [], Ok s).
Proof. unfold deref. intros ->. reflexivity. Qed.

Lemma stream_update_ok c p f s :
  cno_stream_find c p = Some s ->
  stream_update p f c = (stream_store p f c, [], Ok tt).
Proof.
  intros H. unfold stream_update, bind. rewrite (deref_ok _ _ _ H). reflexivity.
Qed.

Lemma cno_stream_free_ok c p s :
  cno_stream_find c p = Some s ->
  cno_stream_free p c = (stream_unlink p c, [], Ok tt).
Proof.
  intros H. unfold cno_stream_free, bind. rewrite (deref_ok _ _ _ H).
  cbn. rewrite (find_stream_id _ _ _ H). reflexivity.
Qed.

Lemma cno_stream_rst_ok c p s :
  cno_stream_find c p = Some s ->
  cno_stream_rst env p c = (stream_unlink p c, [on_stream_end p], Ok tt).
Proof using callbacks_ok.
  intros H. unfold cno_stream_rst, bind. rewrite (deref_ok _ _ _ H).
  rewrite (cno_stream_free_ok _ _ _ H). rewrite fire_ok.
  rewrite (find_stream_id _ _ _ H). reflexivity.
Qed.

Lemma find_remember_reset c id p : 
  cno_stream_find (remember_reset id c) p = cno_stream_find c p.
Proof. reflexivity. Qed.

Lemma cno_stream_rst_by_local_ok c p s :
  cno_stream_find c p = Some s ->
  cno_stream_rst_by_local env p c
  = (stream_unlink p (remember_reset p c), [on_stream_end p], Ok tt).
Proof using callbacks_ok.
  intros H. unfold cno_stream_rst_by_local, bind. rewrite (deref_ok _ _ _ H).
  cbn [modify]. cbv beta iota.
  rewrite (find_stream_id _ _ _ H).
  erewrite cno_stream_rst_ok by exact H.
  reflexivity.
Qed.

Lemma frame_write_rst_stream_ok c p s code :
  cno_stream_find c p = Some s ->
  peer_accepts c 4 ->
  cno_frame_write_rst_stream env p code c
  = (rst_stream_state p s c, rst_stream_trace p s code, Ok tt).
Proof using callbacks_ok.
  intros H Hp. unfold cno_frame_write_rst_stream, rst_stream_state, rst_stream_trace, bind.
  rewrite (deref_ok _ _ _ H). cbv beta iota.
  rewrite (find_stream_id _ _ _ H).
  rewrite frame_write_fits by exact Hp. cbv beta iota.
  fold (rst_stream_frame p code).
  destruct (negb (has_flag (accept s) CNO_ACCEPT_HEADERS)).
  - rewrite (cno_stream_rst_by_local_ok _ _ _ H). rewrite app_nil_l. reflexivity.
  - rewrite (stream_update_ok _ _ _ _ H). cbv beta iota.
    erewrite stream_update_ok
      by (apply find_stream_store; [exact H | apply (find_stream_id _ _ _ H)]).
    rewrite !app_nil_r. reflexivity.
Qed.

Lemma rst_stream_state_windows c p s :
  send_windows_kept c (rst_stream_state p s c).
Proof.
  unfold rst_stream_state. destruct (negb (has_flag (accept s) CNO_ACCEPT_HEADERS)).
  - eapply send_windows_kept_trans; [|apply send_windows_kept_unlink].
    split; [reflexivity|]. intros b s' Hs. exists s'. auto.
  - eapply send_windows_kept_trans; apply send_windows_kept_store;
      intros; split; reflexivity.
Qed.

(** ** WINDOW_UPDATE *)

Lemma goaway_mark_windows c : send_windows_kept c (goaway_mark c).
Proof.
  unfold goaway_mark. destruct (goaway_sent c =? 0); [apply send_windows_kept_refl|].
  split; [reflexivity|]. intros b s' H. exists s'. auto.
Qed.


(** ** DATA *)

Lemma frame_handle_padding_ok c frame :
  padding_well_formed frame ->
  cno_frame_handle_padding env frame c = (c, [], Ok (strip_padding frame)).
Proof.
  unfold padding_well_formed, cno_frame_handle_padding, strip_padding. intros H.
  destruct (has_flag (flags frame) CNO_FLAG_PADDED); [|reflexivity].
  specialize (H eq_refl).
  assert (E1 : (zlen (payload frame) =? 0) = false).
  { apply Z.eqb_neq. unfold read1, byte_at, zlen in *.
    destruct (payload frame); cbn in *; lia. }
  assert (E2 : (read1 (payload frame) + 1 >? zlen (payload frame)) = false)
    by (rewrite Z.gtb_ltb; apply Z.ltb_ge; lia).
  rewrite E1, E2. reflexivity.
Qed.

Lemma strip_padding_fields frame :
  type (strip_padding frame) = type frame
  /\ flags (strip_padding frame) = flags frame
  /\ stream (strip_padding frame) = stream frame.
Proof.
  unfold strip_padding. destruct (has_flag (flags frame) CNO_FLAG_PADDED); auto.
Qed.


(** ** Configuration *)

Lemma setting_entry_literal i v :
  1 <= i <= 6 -> setting_entry (i, v) = setting_entry_bytes (i, v).
Proof.
  intros Hi. unfold setting_entry, setting_entry_bytes, I16, I32, u8. cbn [fst snd app].
  rewrite !Z.shiftr_div_pow2 by lia.
  change (2 ^ 24) with 16777216. change (2 ^ 16) with 65536. change (2 ^ 8) with 256.
  rewrite (Z.div_small i 256), (Z.mod_small i 256) by lia. reflexivity.
Qed.

Lemma flat_map_agree_in {A B} (f g : A -> list B) l :
  (forall x, In x l -> f x = g x) -> flat_map f l = flat_map g l.
Proof.
  induction l as [|x l IH]; intros H; cbn; [reflexivity|].
  rewrite (H x (or_introl eq_refl)), IH; [reflexivity|].
  intros y Hy. apply H. right. exact Hy.
Qed.

(** C8.  [cno_connection_set_config] fails with ASSERTION and leaves the
    connection alone unless [enable_push] is 0 or 1 and [max_frame_size] is
    within 16384..16777215.  Otherwise, on a connection that is in HTTP/2
    mode and past INIT (the state in which the initial SETTINGS frame is
    still owed), one SETTINGS frame is sent whose entries are exactly the
    identifiers whose new value differs from the current local one, each
    once and with the new value, and the new settings are then stored as the
    local ones; on any other connection nothing is sent and the settings are
    stored.  The payload is given byte by byte ([setting_entry_bytes]: 0,
    the identifier, and the four bytes of the value), the local settings are
    read back from the connection after the call and the remote ones are
    untouched.  The store comes after the frame: with callbacks of any
    kind, if [on_frame_send] refuses the frame the call fails with that
    error and the connection is as it was. *)
Theorem cno_connection_set_config_delta (c : cno_connection_t) (new_settings : cno_settings_t) :
  (~ (enable_push new_settings = 0 \/ enable_push new_settings = 1)
   \/ ~ (16384 <= max_frame_size new_settings <= 16777215) ->
   cno_connection_set_config env new_settings c = (c, [], Err ASSERTION))
  /\
  ((enable_push new_settings = 0 \/ enable_push new_settings = 1) ->
   16384 <= max_frame_size new_settings <= 16777215 ->
   (cno_connection_is_http2 c = true ->
    state c <> CNO_CONNECTION_INIT ->
    peer_accepts c 36 ->
    exists entries,
      cno_connection_set_config env new_settings c
      = (config_stored new_settings c,
         wire (mk_frame CNO_FRAME_SETTINGS 0 0 (flat_map setting_entry entries)),
         Ok tt)
      /\ (forall i v, In (i, v) entries <->
            1 <= i <= 6
            /\ setting_value new_settings i = v
            /\ setting_value (side_get (settings c) CNO_LOCAL) i <> v)
      /\ NoDup (map fst entries)
      /\ trace_of (cno_connection_set_config env new_settings c)
         = [on_frame_send
              (mk_frame CNO_FRAME_SETTINGS 0 0 (flat_map setting_entry_bytes entries));
            on_write (frame_header
              (mk_frame CNO_FRAME_SETTINGS 0 0 (flat_map setting_entry_bytes entries)))]
           ++ match entries with
              | [] => []
              | _ :: _ => [on_write (flat_map setting_entry_bytes entries)]
              end
      /\ side_get (settings (conn_of (cno_connection_set_config env new_settings c)))
                  CNO_LOCAL = new_settings
      /\ side_get (settings (conn_of (cno_connection_set_config env new_settings c)))
                  CNO_REMOTE = side_get (settings c) CNO_REMOTE
      /\ (forall env' k,
            callback env' (on_frame_send
              (mk_frame CNO_FRAME_SETTINGS 0 0 (flat_map setting_entry_bytes entries)))
            = Some k ->
            cno_connection_set_config env' new_settings c
            = (c,
               [on_frame_send
                  (mk_frame CNO_FRAME_SETTINGS 0 0 (flat_map setting_entry_bytes entries))],
               Err k)))
   /\
   (cno_connection_is_http2 c = false \/ state c = CNO_CONNECTION_INIT ->
    cno_connection_set_config env new_settings c
    = (config_stored new_settings c, [], Ok tt)
    /\ side_get (settings (conn_of (cno_connection_set_config env new_settings c)))
                CNO_LOCAL = new_settings)).
Proof using callbacks_ok.
  split.
  - intros H. unfold cno_connection_set_config.
    destruct (negb (enable_push new_settings =? 0) && negb (enable_push new_settings =? 1))
      eqn:E1; [reflexivity|].
    destruct ((max_frame_size new_settings <? 16384)
              || (max_frame_size new_settings >? 16777215)) eqn:E2; [reflexivity|].
    exfalso. apply andb_false_iff in E1. apply orb_false_iff in E2.
    destruct E2 as [E2 E3]. apply Z.ltb_ge in E2. rewrite Z.gtb_ltb in E3.
    apply Z.ltb_ge in E3.
    destruct H as [H|H]; [|lia]. apply H.
    destruct E1 as [E1|E1]; apply negb_false_iff, Z.eqb_eq in E1; auto.
  - intros Hpush Hmfs.
    assert (E1 : negb (enable_push new_settings =? 0)
                 && negb (enable_push new_settings =? 1) = false).
    { destruct Hpush as [-> | ->]; reflexivity. }
    assert (E2 : (max_frame_size new_settings <? 16384)
                 || (max_frame_size new_settings >? 16777215) = false).
    { apply orb_false_iff. rewrite Z.gtb_ltb. split; apply Z.ltb_ge; lia. }
    split.
    + intros Hh2 Hinit Hp.
      destruct (settings_diff_entries
                  (settings_array (side_get (settings c) CNO_LOCAL))
                  (settings_array new_settings) 1 eq_refl)
        as (es & Hes & Hin & Hnd); [change (1 + 6 <= 7); lia|].
      assert (E3 : negb (state_eqb (state c) CNO_CONNECTION_INIT) = true)
        by (destruct (state c); try reflexivity; congruence).
      assert (Hlen : zlen (settings_diff 1 (settings_array (side_get (settings c) CNO_LOCAL))
                                         (settings_array new_settings)) <= 36).
      { cbn. repeat match goal with |- context [negb (?a =? ?b)] =>
                      destruct (a =? b); cbn end; unfold zlen; cbn; lia. }
      assert (Hbytes : flat_map setting_entry es = flat_map setting_entry_bytes es).
      { apply flat_map_agree_in. intros [i v] Hiv. apply setting_entry_literal.
        apply Hin in Hiv. replace (1 + zlen (settings_array (side_get (settings c) CNO_LOCAL)))
          with 7 in Hiv by reflexivity. lia. }
      assert (Hrun : cno_connection_set_config env new_settings c
                     = (config_stored new_settings c,
                        wire (mk_frame CNO_FRAME_SETTINGS 0 0 (flat_map setting_entry es)),
                        Ok tt)).
      { unfold cno_connection_set_config. rewrite E1, E2, bind_get, Hh2, E3.
        cbn [andb when]. unfold cno_frame_write_settings, bind.
        rewrite frame_write_fits.
        - rewrite Hes. unfold modify, config_stored. cbn. rewrite !app_nil_r. reflexivity.
        - cbn [payload]. unfold peer_accepts in *. lia. }
      exists es. split; [exact Hrun|]. split; [|split; [exact Hnd|]].
      * intros i v. rewrite Hin. unfold setting_value.
        replace (1 + zlen (settings_array (side_get (settings c) CNO_LOCAL))) with 7
          by reflexivity.
        intuition lia.
      * rewrite Hrun. unfold trace_of, conn_of. cbn [fst snd]. rewrite Hbytes.
        split; [|split; [reflexivity|split; [reflexivity|]]].
        -- unfold wire. cbn [payload app]. destruct es as [|[i v] es']; reflexivity.
        -- intros env' k Hk. unfold cno_connection_set_config.
           rewrite E1, E2, bind_get, Hh2, E3. cbn [andb when].
           unfold cno_frame_write_settings, bind at 1 2.
           unfold cno_frame_write. rewrite bind_get.
           rewrite Hes, Hbytes in *. cbn [payload].
           assert (El : (zlen (flat_map setting_entry_bytes es)
                         <=? max_frame_size (side_get (settings c) CNO_REMOTE)) = true)
             by (apply Z.leb_le; unfold peer_accepts in Hp; lia).
           rewrite El. unfold cno_frame_write_one, bind at 1, CNO_FIRE at 1.
           rewrite Hk. reflexivity.
    + intros Hno.
      assert (Hrun : cno_connection_set_config env new_settings c
                     = (config_stored new_settings c, [], Ok tt)).
      { unfold cno_connection_set_config. rewrite E1, E2, bind_get.
        assert (E3 : negb (state_eqb (state c) CNO_CONNECTION_INIT)
                     && cno_connection_is_http2 c = false).
        { destruct Hno as [H|H]; [rewrite H; apply andb_false_r|].
          rewrite H. reflexivity. }
        rewrite E3. reflexivity. }
      rewrite Hrun. split; reflexivity.
Qed.

(** ** Stream ids *)

Lemma cno_stream_new_failed c id local :
  cno_connection_is_http2 c = true ->
  (exists k, cno_stream_new env id local c = (c, [], Err k))
  \/ (cno_stream_is_local c id = local
      /\ side_get (last_stream c) local < id
      /\ side_get (stream_count c) local
         < max_concurrent_streams (side_get (settings c) (negb local))
      /\ malloc_ok env = true).
Proof.
  intros Hh2. unfold cno_stream_new. rewrite bind_get, Hh2. cbn [negb andb].
  destruct (Bool.eqb (cno_stream_is_local c id) local) eqn:E1; cbn [negb];
    [|left; eexists; reflexivity].
  destruct (id <=? side_get (last_stream c) local) eqn:E2; [left; eexists; reflexivity|].
  destruct (_ >=? _) eqn:E4; [left; destruct local; eexists; reflexivity|].
  destruct (malloc_ok env) eqn:Hm; cbn [negb]; [|left; eexists; reflexivity].
  right. apply Bool.eqb_prop in E1. apply Z.leb_gt in E2.
  rewrite Z.geb_leb in E4. apply Z.leb_gt in E4. auto.
Qed.

(** The case HTTP1_READY of the driver on a server whose buffer holds the
    client preface of HTTP/2 and nothing else. *)
Lemma proceed_http1_ready_preface c0 s :
  state c0 = CNO_CONNECTION_HTTP1_READY ->
  client c0 = false ->
  has_flag (conn_flags c0) CNO_CONN_FLAG_DISALLOW_H2_PRIOR_KNOWLEDGE = false ->
  buffer c0 = CNO_PREFACE ->
  cno_stream_find c0 1 = Some s ->
  has_flag (accept s) CNO_ACCEPT_HEADERS = true ->
  callback env (on_stream_end 1) = None ->
  cno_connection_proceed_http1_ready env c0
  = (stream_unlink 1
       (set_last_stream
          (side_set (side_set (last_stream c0) CNO_REMOTE 0) CNO_LOCAL 0)
          (set_state CNO_CONNECTION_INIT c0)),
     [on_stream_end 1], Ok true).
Proof.
  intros Hst Hcl Hfl Hbuf Hfind Hacc Hcb.
  assert (Hc0 : set_buffer (zdrop (leading_crlf (buffer c0)) (buffer c0)) c0 = c0).
  { rewrite Hbuf. change (zdrop (leading_crlf CNO_PREFACE) CNO_PREFACE) with CNO_PREFACE.
    rewrite <- Hbuf. destruct c0; reflexivity. }
  unfold cno_connection_proceed_http1_ready, cno_buffer_dyn_shift_buffer.
  rewrite bind_get, bind_modify, Hc0, bind_get, Hbuf.
  change (zlen CNO_PREFACE =? 0) with false. cbv iota.
  rewrite Hcl, Hfind. cbv iota.
  assert (Hp : bind (ret (stream_id s))
                 (fun p => bind (deref p)
                   (fun s0 => if negb (has_flag (accept s0) CNO_ACCEPT_HEADERS)
                              then CNO_ERROR WOULD_BLOCK else ret p)) c0
               = (c0, [], Ok 1)).
  { rewrite bind_ret. unfold bind.
    rewrite (find_stream_id _ _ _ Hfind), (deref_ok _ _ _ Hfind), Hacc. reflexivity. }
  rewrite (bind_Ok _ _ _ _ _ _ Hp).
  rewrite bind_get, Hcl, Hfl, Hbuf. cbn [negb andb].
  change (strncmp_eq CNO_PREFACE (CNO_PREFACE ++ [0]) (List.length CNO_PREFACE)) with true.
  change (zlen CNO_PREFACE <? zlen CNO_PREFACE) with false. cbv iota.
  rewrite !bind_modify.
  set (c1 := set_last_stream _ _).
  assert (Hfind1 : cno_stream_find c1 1 = Some s) by exact Hfind.
  unfold bind, cno_stream_rst. unfold bind.
  rewrite (deref_ok _ _ _ Hfind1), (cno_stream_free_ok _ _ _ Hfind1).
  unfold CNO_FIRE. rewrite (find_stream_id _ _ _ Hfind1), Hcb. reflexivity.
Qed.


(** ** GOAWAY *)


(** ** Frames larger than the peer's limit *)

Lemma frame_write_parts_run limit carry frame fuel : forall part c,
  0 < limit ->
  (Z.to_nat (zlen (payload part)) <= fuel)%nat ->
  cno_frame_write_parts env fuel limit carry frame part c
  = (c, flat_map wire (frame_parts fuel limit carry frame part), Ok tt).
Proof using callbacks_ok.
  induction fuel as [|fuel IH]; intros part c Hl Hf;
    cbn [cno_frame_write_parts frame_parts].
  - destruct (zlen (payload part) >? limit) eqn:E.
    + rewrite Z.gtb_ltb in E. apply Z.ltb_lt in E. lia.
    + rewrite frame_write_one_ok. cbn [flat_map]. rewrite app_nil_r. reflexivity.
  - destruct (zlen (payload part) >? limit) eqn:E.
    + unfold bind. rewrite frame_write_one_ok.
      change (cno_frame_write_parts env fuel limit carry frame _ c)
        with (cno_frame_write_parts env fuel limit carry frame (next_part limit part) c).
      rewrite IH by (auto using next_part_fuel). reflexivity.
    + rewrite frame_write_one_ok. cbn [flat_map]. rewrite app_nil_r. reflexivity.
Qed.

Lemma frame_write_split c frame :
  0 < max_frame_size (side_get (settings c) CNO_REMOTE) < zlen (payload frame) ->
  has_flag (flags frame) CNO_FLAG_PADDED = false ->
  type frame = CNO_FRAME_DATA \/ type frame = CNO_FRAME_HEADERS
  \/ type frame = CNO_FRAME_PUSH_PROMISE ->
  cno_frame_write env frame c
  = (c,
     flat_map wire
       (frame_parts (Z.to_nat (zlen (payload frame)))
                    (max_frame_size (side_get (settings c) CNO_REMOTE))
                    (carry_on_last_of frame) frame (first_part_of frame)),
     Ok tt).
Proof using callbacks_ok.
  intros Hl Hpad Hty. unfold cno_frame_write. rewrite bind_get. cbv zeta.
  assert (E1 : (zlen (payload frame)
                <=? max_frame_size (side_get (settings c) CNO_REMOTE)) = false)
    by (apply Z.leb_gt; lia).
  assert (E2 : negb (type frame =? CNO_FRAME_DATA) && negb (type frame =? CNO_FRAME_HEADERS)
               && negb (type frame =? CNO_FRAME_PUSH_PROMISE) = false)
    by (destruct Hty as [-> | [-> | ->]]; reflexivity).
  rewrite E1, Hpad, E2.
  apply frame_write_parts_run; [lia | cbn; lia].
Qed.

Lemma frame_write_parts_never_returns limit carry frame fuel : forall part c,
  limit <= 0 ->
  limit < zlen (payload part) ->
  let out := cno_frame_write_parts env fuel limit carry frame part c in
  result_of out = Stuck LOOPS_FOREVER
  /\ conn_of out = c
  /\ List.length (sent_frames (trace_of out)) = fuel
  /\ Forall (fun p => payload p = []) (sent_frames (trace_of out)).
Proof using callbacks_ok.
  induction fuel as [|fuel IH]; intros part c Hl Hgt; cbv zeta;
    cbn [cno_frame_write_parts];
    assert (E : (zlen (payload part) >? limit) = true)
      by (rewrite Z.gtb_ltb; apply Z.ltb_lt; exact Hgt);
    rewrite E.
  - repeat split. constructor.
  - unfold bind. rewrite frame_write_one_ok.
    change (cno_frame_write_parts env fuel limit carry frame _ c)
      with (cno_frame_write_parts env fuel limit carry frame (next_part limit part) c).
    assert (Hsame : payload (next_part limit part) = payload part).
    { destruct (next_part_fields limit part) as (_ & -> & _).
      unfold zdrop. replace (Z.to_nat limit) with 0%nat by lia. reflexivity. }
    specialize (IH (next_part limit part) c Hl ltac:(rewrite Hsame; exact Hgt)).
    cbv zeta in IH.
    destruct (cno_frame_write_parts env fuel limit carry frame (next_part limit part) c)
      as [[c2 t2] r2].
    unfold result_of, conn_of, trace_of in *. cbn [fst snd] in *.
    destruct IH as (-> & -> & Hn & Hall).
    rewrite sent_frames_wire. cbn [List.length].
    repeat split; [congruence|].
    constructor; [|exact Hall].
    cbn [payload frame_set_payload]. unfold ztake.
    replace (Z.to_nat limit) with 0%nat by lia. reflexivity.
Qed.

(** C4, as the code has it.  A frame whose payload exceeds the peer's
    [max_frame_size] is refused with ASSERTION, nothing being sent, when it
    has the PADDED flag or its type is not DATA, HEADERS or PUSH_PROMISE.
    Without the flag and with one of these types: when the limit is zero
    the call never returns (the loop writes frames with an empty payload
    without end, whatever number of turns it is given); when the limit is
    positive the frame is written as parts of at most that size on the same
    stream whose payloads concatenate to the original payload.  The parts of
    a DATA frame are DATA frames; END_STREAM is on none but the last, and
    there if the original had it; the PRIORITY bit is on none but the first,
    which keeps the original's.  The first part of a HEADERS or
    PUSH_PROMISE frame has the original type and the others are CONTINUATION
    frames; END_HEADERS is on none but the last, and there if the original
    had it; END_STREAM and PRIORITY are on none but the first, which keeps
    the original's END_STREAM. *)
Theorem cno_frame_write_splits (c : cno_connection_t) (frame : cno_frame_t) :
  let limit := max_frame_size (side_get (settings c) CNO_REMOTE) in
  limit < zlen (payload frame) ->
  let out := cno_frame_write env frame c in
  let parts := sent_frames (trace_of out) in
  (has_flag (flags frame) CNO_FLAG_PADDED = true
   \/ (type frame <> CNO_FRAME_DATA /\ type frame <> CNO_FRAME_HEADERS
       /\ type frame <> CNO_FRAME_PUSH_PROMISE) ->
   out = (c, [], Err ASSERTION))
  /\
  (has_flag (flags frame) CNO_FLAG_PADDED = false ->
   type frame = CNO_FRAME_DATA \/ type frame = CNO_FRAME_HEADERS
   \/ type frame = CNO_FRAME_PUSH_PROMISE ->
   (limit <= 0 ->
    result_of out = Stuck LOOPS_FOREVER
    /\ Forall (fun p => payload p = []) parts
    /\ forall fuel,
         let run := cno_frame_write_parts env fuel limit (carry_on_last_of frame)
                                          frame (first_part_of frame) c in
         result_of run = Stuck LOOPS_FOREVER
         /\ List.length (sent_frames (trace_of run)) = fuel)
   /\
   (0 < limit ->
    out = (c, flat_map wire parts, Ok tt)
    /\ List.concat (map payload parts) = payload frame
    /\ Forall (fun p => stream p = stream frame /\ zlen (payload p) <= limit) parts
    /\ Forall (fun p => has_flag (flags p) CNO_FLAG_PRIORITY = false) (tl parts)
    /\ (type frame = CNO_FRAME_DATA ->
        Forall (fun p => type p = CNO_FRAME_DATA) parts
        /\ Forall (fun p => has_flag (flags p) CNO_FLAG_END_STREAM = false)
                  (removelast parts)
        /\ has_flag (flags (last parts frame)) CNO_FLAG_END_STREAM
           = has_flag (flags frame) CNO_FLAG_END_STREAM
        /\ has_flag (flags (hd frame parts)) CNO_FLAG_PRIORITY
           = has_flag (flags frame) CNO_FLAG_PRIORITY)
    /\ (type frame = CNO_FRAME_HEADERS \/ type frame = CNO_FRAME_PUSH_PROMISE ->
        type (hd frame parts) = type frame
        /\ Forall (fun p => type p = CNO_FRAME_CONTINUATION) (tl parts)
        /\ Forall (fun p => has_flag (flags p) CNO_FLAG_END_HEADERS = false)
                  (removelast parts)
        /\ has_flag (flags (last parts frame)) CNO_FLAG_END_HEADERS
           = has_flag (flags frame) CNO_FLAG_END_HEADERS
        /\ Forall (fun p => has_flag (flags p) CNO_FLAG_END_STREAM = false) (tl parts)
        /\ has_flag (flags (hd frame parts)) CNO_FLAG_END_STREAM
           = has_flag (flags frame) CNO_FLAG_END_STREAM))).
Proof using callbacks_ok.
  intros limit Hgt out parts.
  assert (E1 : (zlen (payload frame) <=? limit) = false) by (apply Z.leb_gt; exact Hgt).
  split; [|intros Hpad Hty; split].
  - intros Hbad. subst out. unfold cno_frame_write. rewrite bind_get. cbv zeta.
    fold limit. rewrite E1.
    destruct Hbad as [Hp | (H1 & H2 & H3)]; [rewrite Hp; reflexivity|].
    destruct (has_flag (flags frame) CNO_FLAG_PADDED); [reflexivity|].
    apply Z.eqb_neq in H1, H2, H3. rewrite H1, H2, H3. reflexivity.
  - intros Hzero.
    assert (E2 : negb (type frame =? CNO_FRAME_DATA)
                 && negb (type frame =? CNO_FRAME_HEADERS)
                 && negb (type frame =? CNO_FRAME_PUSH_PROMISE) = false)
      by (destruct Hty as [-> | [-> | ->]]; reflexivity).
    assert (Hout : out = cno_frame_write_parts env (Z.to_nat (zlen (payload frame))) limit
                           (carry_on_last_of frame) frame (first_part_of frame) c).
    { subst out. unfold cno_frame_write. rewrite bind_get. cbv zeta.
      fold limit. rewrite E1, Hpad, E2. reflexivity. }
    assert (Hrun : forall fuel,
              let run := cno_frame_write_parts env fuel limit (carry_on_last_of frame)
                                               frame (first_part_of frame) c in
              result_of run = Stuck LOOPS_FOREVER
              /\ conn_of run = c
              /\ List.length (sent_frames (trace_of run)) = fuel
              /\ Forall (fun p => payload p = []) (sent_frames (trace_of run))).
    { intros fuel. apply frame_write_parts_never_returns; [exact Hzero|].
      cbn [payload first_part_of frame_set_flags]. exact Hgt. }
    subst parts. rewrite Hout.
    destruct (Hrun (Z.to_nat (zlen (payload frame)))) as (Hr & _ & _ & Hall).
    split; [exact Hr|]. split; [exact Hall|].
    intros fuel. destruct (Hrun fuel) as (Hr' & _ & Hn & _). split; [exact Hr' | exact Hn].
  - intros Hpos.
    assert (Hl : 0 < limit < zlen (payload frame)) by lia.
    {
      assert (Hout : out = (c, flat_map wire
                (frame_parts (Z.to_nat (zlen (payload frame))) limit
                             (carry_on_last_of frame) frame (first_part_of frame)), Ok tt))
        by (apply frame_write_split; assumption).
      assert (Hparts : parts = frame_parts (Z.to_nat (zlen (payload frame))) limit
                                 (carry_on_last_of frame) frame (first_part_of frame)).
      { subst parts. rewrite Hout. apply sent_frames_parts. }
      clearbody parts out. subst parts.
      assert (Hl0 : 0 < limit) by lia.
      assert (Hfuel : (Z.to_nat (zlen (payload (first_part_of frame)))
                       <= Z.to_nat (zlen (payload frame)))%nat) by (cbn; lia).
      destruct (frame_parts_payload limit (carry_on_last_of frame) frame Hl0 _ _ Hfuel)
        as (Hcat & _ & Hall).
      assert (Hcarry0 : Z.land (flags (first_part_of frame)) (carry_on_last_of frame) = 0).
      { cbn. rewrite clear_flag_land, <- Z.land_assoc.
        rewrite Z.land_comm with (a := carry_on_last_of frame).
        rewrite Z.land_assoc, <- Z.land_assoc with (a := flags frame).
        replace (Z.land (Z.lnot (carry_on_last_of frame)) (carry_on_last_of frame)) with 0
          by (unfold carry_on_last_of; destruct (type frame =? CNO_FRAME_DATA); reflexivity).
        apply Z.land_0_r. }
      destruct (frame_parts_carry limit (carry_on_last_of frame) frame Hl0 _ _ Hfuel Hcarry0)
        as (Hrl & Hlast).
      (* the first part and the rest *)
      destruct (Z.to_nat (zlen (payload frame))) as [|fuel] eqn:Efuel; [lia|].
      assert (E : (zlen (payload (first_part_of frame)) >? limit) = true)
        by (cbn; rewrite Z.gtb_ltb; apply Z.ltb_lt; lia).
      cbn [frame_parts] in *. rewrite E in *.
      destruct (next_part_fields limit (first_part_of frame)) as (_ & _ & Efl & Ety).
      assert (Hprio : Forall (fun p => has_flag (flags p) CNO_FLAG_PRIORITY = false)
                (frame_parts fuel limit (carry_on_last_of frame) frame
                             (next_part limit (first_part_of frame)))).
      { apply frame_parts_without.
        - unfold carry_on_last_of. destruct (type frame =? CNO_FRAME_DATA); reflexivity.
        - rewrite Efl, clear_flag_land, <- Z.land_assoc. apply Z.land_0_r. }
      split; [exact Hout|]. split; [exact Hcat|]. split; [exact Hall|].
      split; [exact Hprio|]. split.
      - intros Hdata.
        assert (Ec : carry_on_last_of frame = CNO_FLAG_END_STREAM)
          by (unfold carry_on_last_of; rewrite Hdata; reflexivity).
        assert (Ety' : type (next_part limit (first_part_of frame)) = CNO_FRAME_DATA).
        { rewrite Ety. cbn [type first_part_of frame_set_flags]. rewrite Hdata. reflexivity. }
        rewrite Ec in *.
        split; [|split; [exact Hrl | split; [exact Hlast|]]].
        + constructor; [exact Hdata|].
          eapply Forall_impl; [|apply frame_parts_type; left; exact Ety'].
          cbn beta. intros p ->. exact Ety'.
        + cbn [hd flags frame_set_payload first_part_of frame_set_flags]. rewrite ?Ec.
          apply has_flag_land, clear_flag_other. reflexivity.
      - intros Hh.
        assert (Hnd : (type frame =? CNO_FRAME_DATA) = false)
          by (destruct Hh as [-> | ->]; reflexivity).
        assert (Ec : carry_on_last_of frame = CNO_FLAG_END_HEADERS)
          by (unfold carry_on_last_of; rewrite Hnd; reflexivity).
        assert (Ety' : type (next_part limit (first_part_of frame)) = CNO_FRAME_CONTINUATION).
        { rewrite Ety. cbn [type first_part_of frame_set_flags]. rewrite Hnd. reflexivity. }
        rewrite Ec in *.
        split; [reflexivity|]. split; [|split; [exact Hrl | split; [exact Hlast | split]]].
        + eapply Forall_impl; [|apply frame_parts_type; right; exact Ety'].
          cbn beta. intros p ->. exact Ety'.
        + apply frame_parts_without; [reflexivity|].
          rewrite Efl, clear_flag_land, <- Z.land_assoc. apply Z.land_0_r.
        + cbn [hd flags frame_set_payload first_part_of frame_set_flags]. rewrite ?Ec.
          apply has_flag_land, clear_flag_other. reflexivity.
    }
Qed.

(** ** Writing data *)

Lemma frame_write_ok c frame :
  0 < max_frame_size (side_get (settings c) CNO_REMOTE) ->
  has_flag (flags frame) CNO_FLAG_PADDED = false ->
  type frame = CNO_FRAME_DATA \/ type frame = CNO_FRAME_HEADERS
  \/ type frame = CNO_FRAME_PUSH_PROMISE ->
  exists parts,
    cno_frame_write env frame c = (c, flat_map wire parts, Ok tt)
    /\ List.concat (map payload parts) = payload frame.
Proof using callbacks_ok.
  intros Hl Hpad Hty.
  destruct (Z_le_gt_dec (zlen (payload frame))
                        (max_frame_size (side_get (settings c) CNO_REMOTE))) as [Hle|Hgt].
  - exists [frame]. split; [|cbn; apply app_nil_r].
    rewrite frame_write_fits by exact Hle. cbn [flat_map]. rewrite app_nil_r. reflexivity.
  - eexists. split; [apply frame_write_split; auto; lia|].
    apply (frame_parts_payload (max_frame_size (side_get (settings c) CNO_REMOTE))
             (carry_on_last_of frame) frame Hl _ (first_part_of frame)).
    cbn. lia.
Qed.

Lemma discard_remaining_payload_ok c p s :
  cno_stream_find c p = Some s ->
  peer_accepts c 4 ->
  conn_of (cno_discard_remaining_payload env p c) = discarded p c
  /\ result_of (cno_discard_remaining_payload env p c) = Ok tt.
Proof using callbacks_ok.
  intros Hf Hp. unfold cno_discard_remaining_payload, discarded, bind.
  rewrite (stream_update_ok _ _ _ _ Hf). cbv beta iota zeta.
  pose proof (find_stream_store c p
    (fun s => stream_set_accept (clear_flag (accept s) CNO_ACCEPT_OUTBOUND) s) s Hf
    (find_stream_id _ _ _ Hf)) as Hf1.
  rewrite (deref_ok _ _ _ Hf1). rewrite Hf1. cbv beta iota.
  destruct (accept _ =? 0).
  - rewrite (cno_stream_rst_by_local_ok _ _ _ Hf1). split; reflexivity.
  - unfold get. cbv beta iota.
    change (client (stream_store p _ c)) with (client c).
    change (cno_connection_is_http2 (stream_store p _ c)) with (cno_connection_is_http2 c).
    destruct (negb (client c) && cno_connection_is_http2 c).
    + rewrite (frame_write_rst_stream_ok _ _ _ _ Hf1) by exact Hp. split; reflexivity.
    + split; reflexivity.
Qed.

Lemma discarded_conn_window p c : conn_window_send (discarded p c) = conn_window_send c.
Proof.
  unfold discarded. cbv zeta.
  destruct (cno_stream_find _ p) as [s1|]; [|reflexivity].
  destruct (accept s1 =? 0); [reflexivity|].
  destruct (negb (client c) && cno_connection_is_http2 c); [|reflexivity].
  unfold rst_stream_state. destruct (negb _); reflexivity.
Qed.

(** C6.  [cno_write_data] in HTTP/2 mode on a stream that accepts
    WRITE_DATA.  With [n] the length clamped to both send windows (0 when a
    window is negative) and [final'] the caller's [final] unless the clamp
    shortened the write: when a window is negative, or nothing is left to
    send ([n = 0] without [final']), nothing is fired, nothing changes and
    the result is 0.  Otherwise the first [n] bytes go out as DATA, with
    END_STREAM exactly when [final'], both send windows go down by [n], the
    stream's outbound side is closed when [final'], and the result is [n].
    The result is 0 whenever a window is exhausted.  The windows are read
    back: [conn_window_send] of the connection, and [window_send] of the
    stream found in the table once the windows have been charged (which is
    the table at the end of the call unless [final'] closes the stream). *)
Theorem cno_write_data_flow_control
        (c : cno_connection_t) (stream : Z) (s : cno_stream_t) (data : bytes) (final : bool) :
  cno_connection_is_http2 c = true ->
  cno_stream_find c stream = Some s ->
  has_flag (accept s) CNO_ACCEPT_WRITE_DATA = true ->
  int32_range (conn_window_send c) ->
  int32_range (window_send s) ->
  peer_accepts c 4 ->
  let n := Z.max 0 (Z.min (zlen data) (Z.min (conn_window_send c) (window_send s))) in
  let final' := final && (n =? zlen data) in
  let frame := mk_frame CNO_FRAME_DATA (if final' then CNO_FLAG_END_STREAM else 0)
                        stream (ztake n data) in
  let out := cno_write_data env stream data final c in
  (conn_window_send c < 0 \/ window_send s < 0 \/ (n = 0 /\ final' = false) ->
   out = (c, [], Ok 0))
  /\
  (0 <= conn_window_send c -> 0 <= window_send s -> 0 < n \/ final' = true ->
   exists parts tail,
     cno_frame_write env frame c = (c, flat_map wire parts, Ok tt)
     /\ List.concat (map payload parts) = ztake n data
     /\ trace_of out = flat_map wire parts ++ tail
     /\ result_of out = Ok n
     /\ conn_window_send (conn_of out) = conn_window_send c - n
     /\ cno_stream_find (data_written stream n c) stream
        = Some (stream_set_window_send (window_send s - n) s)
     /\ conn_of out = (if final' then discarded stream (data_written stream n c)
                       else data_written stream n c)
     /\ (final' = false -> tail = [])
     /\ (exists s', cno_stream_find (data_written stream n c) stream = Some s'
                    /\ window_send s' = window_send s - n
                    /\ stream_id s' = stream_id s /\ accept s' = accept s)
     /\ conn_window_send (data_written stream n c) = conn_window_send c - n
     /\ (final' = false ->
         exists s', cno_stream_find (conn_of out) stream = Some s'
                    /\ window_send s' = window_send s - n))
  /\
  (conn_window_send c <= 0 \/ window_send s <= 0 -> result_of out = Ok 0).
Proof using callbacks_ok.
  intros Hh2 Hf Hacc Hcw Hsw Hp n final' frame out.
  assert (Est1 : state_eqb (state c) CNO_CONNECTION_UNDEFINED = false)
    by (unfold cno_connection_is_http2 in Hh2; destruct (state c); try discriminate; reflexivity).
  assert (Est2 : state_eqb (state c) CNO_CONNECTION_UNKNOWN_PROTOCOL = false)
    by (unfold cno_connection_is_http2 in Hh2; destruct (state c); try discriminate; reflexivity).
  assert (Hbody : out =
    (if (conn_window_send c <? 0) || (window_send s <? 0) then ret 0
     else
       let '(length, final) :=
         if zlen data >? u32 (conn_window_send c)
         then (u32 (conn_window_send c), false) else (zlen data, final) in
       let '(length, final) :=
         if length >? u32 (window_send s)
         then (u32 (window_send s), false) else (length, final) in
       if (length =? 0) && negb final then ret 0
       else
         cno_frame_write env
           (mk_frame CNO_FRAME_DATA (if final then CNO_FLAG_END_STREAM else 0)
                     stream (ztake length data)) ;;
         modify (fun c => set_conn_window_send (i32 (conn_window_send c - length)) c) ;;
         stream_update stream
           (fun s => stream_set_window_send (i32 (window_send s - length)) s) ;;
         cno_write_data_return env stream length final) c).
  { subst out. unfold cno_write_data. rewrite bind_get. cbv zeta.
    rewrite Est1, Hf, Hacc, Est2, Hh2, (find_stream_id _ _ _ Hf). reflexivity. }
  assert (Hneg : conn_window_send c < 0 \/ window_send s < 0 -> out = (c, [], Ok 0)).
  { intros H. rewrite Hbody.
    assert (E : (conn_window_send c <? 0) || (window_send s <? 0) = true).
    { apply orb_true_iff. destruct H; [left|right]; apply Z.ltb_lt; assumption. }
    rewrite E. reflexivity. }
  assert (Hpos : 0 <= conn_window_send c -> 0 <= window_send s ->
    out = (if (n =? 0) && negb final' then ret 0
           else
             cno_frame_write env frame ;;
             modify (fun c => set_conn_window_send (i32 (conn_window_send c - n)) c) ;;
             stream_update stream
               (fun s => stream_set_window_send (i32 (window_send s - n)) s) ;;
             cno_write_data_return env stream n final') c).
  { intros H1 H2. rewrite Hbody.
    assert (E : (conn_window_send c <? 0) || (window_send s <? 0) = false).
    { apply orb_false_iff. split; apply Z.ltb_ge; assumption. }
    rewrite E.
    assert (U1 : u32 (conn_window_send c) = conn_window_send c)
      by (unfold u32; apply Z.mod_small; unfold int32_range in *; lia).
    assert (U2 : u32 (window_send s) = window_send s)
      by (unfold u32; apply Z.mod_small; unfold int32_range in *; lia).
    rewrite U1, U2. pose proof (zlen_nonneg data) as Hd.
    subst frame final' n.
    destruct (zlen data >? conn_window_send c) eqn:Ea;
      rewrite Z.gtb_ltb in Ea; [apply Z.ltb_lt in Ea | apply Z.ltb_ge in Ea].
    - destruct (conn_window_send c >? window_send s) eqn:Eb;
        rewrite Z.gtb_ltb in Eb; [apply Z.ltb_lt in Eb | apply Z.ltb_ge in Eb].
      + replace (Z.max 0 (Z.min (zlen data) (Z.min (conn_window_send c) (window_send s))))
          with (window_send s) by lia.
        replace (window_send s =? zlen data) with false by (symmetry; apply Z.eqb_neq; lia).
        rewrite andb_false_r. reflexivity.
      + replace (Z.max 0 (Z.min (zlen data) (Z.min (conn_window_send c) (window_send s))))
          with (conn_window_send c) by lia.
        replace (conn_window_send c =? zlen data) with false
          by (symmetry; apply Z.eqb_neq; lia).
        rewrite andb_false_r. reflexivity.
    - destruct (zlen data >? window_send s) eqn:Eb;
        rewrite Z.gtb_ltb in Eb; [apply Z.ltb_lt in Eb | apply Z.ltb_ge in Eb].
      + replace (Z.max 0 (Z.min (zlen data) (Z.min (conn_window_send c) (window_send s))))
          with (window_send s) by lia.
        replace (window_send s =? zlen data) with false by (symmetry; apply Z.eqb_neq; lia).
        rewrite andb_false_r. reflexivity.
      + replace (Z.max 0 (Z.min (zlen data) (Z.min (conn_window_send c) (window_send s))))
          with (zlen data) by lia.
        rewrite Z.eqb_refl, andb_true_r. reflexivity. }
  assert (Hn : 0 <= n) by (subst n; lia).
  assert (Hnone : 0 <= conn_window_send c -> 0 <= window_send s ->
                  n = 0 /\ final' = false -> out = (c, [], Ok 0)).
  { intros H1 H2 [E1 E2]. rewrite (Hpos H1 H2), E1, E2. reflexivity. }
  assert (Hsome : 0 <= conn_window_send c -> 0 <= window_send s -> 0 < n \/ final' = true ->
   exists parts tail,
     cno_frame_write env frame c = (c, flat_map wire parts, Ok tt)
     /\ List.concat (map payload parts) = ztake n data
     /\ trace_of out = flat_map wire parts ++ tail
     /\ result_of out = Ok n
     /\ conn_window_send (conn_of out) = conn_window_send c - n
     /\ cno_stream_find (data_written stream n c) stream
        = Some (stream_set_window_send (window_send s - n) s)
     /\ conn_of out = (if final' then discarded stream (data_written stream n c)
                       else data_written stream n c)
     /\ (final' = false -> tail = [])
     /\ (exists s', cno_stream_find (data_written stream n c) stream = Some s'
                    /\ window_send s' = window_send s - n
                    /\ stream_id s' = stream_id s /\ accept s' = accept s)
     /\ conn_window_send (data_written stream n c) = conn_window_send c - n
     /\ (final' = false ->
         exists s', cno_stream_find (conn_of out) stream = Some s'
                    /\ window_send s' = window_send s - n)).
  { intros H1 H2 Hgo.
    assert (Hnw : n <= conn_window_send c /\ n <= window_send s) by (subst n; lia).
    assert (I1 : i32 (conn_window_send c - n) = conn_window_send c - n)
      by (apply i32_id; unfold int32_range in *; lia).
    assert (I2 : i32 (window_send s - n) = window_send s - n)
      by (apply i32_id; unfold int32_range in *; lia).
    assert (I3 : i32 n = n) by (apply i32_id; unfold int32_range in *; lia).
    destruct (frame_write_ok c frame) as (parts & Hw & Hcat).
    { unfold peer_accepts in Hp. lia. }
    { subst frame. cbn [flags]. destruct final'; reflexivity. }
    { left. reflexivity. }
    assert (Hf1 : cno_stream_find (set_conn_window_send (i32 (conn_window_send c - n)) c) stream
                  = Some s) by exact Hf.
    assert (Hf2 : cno_stream_find (data_written stream n c) stream
                  = Some (stream_set_window_send (window_send s - n) s)).
    { unfold data_written. rewrite (find_stream_store _ _ _ _ Hf1).
      - rewrite I2. reflexivity.
      - apply (find_stream_id _ _ _ Hf). }
    assert (E : (n =? 0) && negb final' = false).
    { destruct Hgo as [Hgo|Hgo]; [|rewrite Hgo; apply andb_false_r].
      replace (n =? 0) with false by (symmetry; apply Z.eqb_neq; lia). reflexivity. }
    assert (Hout : out =
      (if final' then discarded stream (data_written stream n c)
       else data_written stream n c,
       flat_map wire parts
       ++ (if final'
           then trace_of (cno_discard_remaining_payload env stream (data_written stream n c))
           else []),
       Ok n)).
    { rewrite (Hpos H1 H2), E. unfold bind at 1. rewrite Hw.
      rewrite bind_modify. unfold bind at 1.
      rewrite (stream_update_ok _ _ _ _ Hf1). fold (data_written stream n c).
      unfold cno_write_data_return.
      destruct final'; cbn [when].
      - destruct (discard_remaining_payload_ok (data_written stream n c) stream _ Hf2 Hp)
          as [Hd1 Hd2].
        unfold bind.
        rewrite (triple_eta
                   (cno_discard_remaining_payload env stream (data_written stream n c))).
        rewrite Hd1, Hd2. cbn [ret trace_of conn_of result_of fst snd app].
        rewrite app_nil_r, I3. reflexivity.
      - rewrite bind_ret. cbn [ret trace_of conn_of result_of fst snd app].
        rewrite I3. reflexivity. }
    exists parts.
    exists (if final'
            then trace_of (cno_discard_remaining_payload env stream (data_written stream n c))
            else []).
    rewrite Hout. cbn [trace_of conn_of result_of fst snd].
    split; [exact Hw|]. split; [exact Hcat|]. split; [reflexivity|].
    split; [reflexivity|]. split.
    { destruct final'; [rewrite discarded_conn_window|]; cbn; exact I1. }
    split; [exact Hf2|]. split; [reflexivity|]. split.
    { intros ->. reflexivity. }
    split.
    { eexists. split; [exact Hf2|]. cbn. auto. }
    split.
    { cbn. exact I1. }
    intros ->. eexists. split; [exact Hf2 | reflexivity]. }
  split; [|split].
  - intros [H|[H|H]]; [apply Hneg; auto | apply Hneg; auto |].
    destruct (Z_lt_ge_dec (conn_window_send c) 0) as [H1|H1]; [apply Hneg; auto|].
    destruct (Z_lt_ge_dec (window_send s) 0) as [H2|H2]; [apply Hneg; auto|].
    apply Hnone; auto; lia.
  - exact Hsome.
  - intros H.
    destruct (Z_lt_ge_dec (conn_window_send c) 0) as [H1|H1];
      [rewrite Hneg by auto; reflexivity|].
    destruct (Z_lt_ge_dec (window_send s) 0) as [H2|H2];
      [rewrite Hneg by auto; reflexivity|].
    assert (E0 : n = 0) by (subst n; pose proof (zlen_nonneg data); lia).
    destruct final' eqn:Efin.
    + destruct (Hsome ltac:(lia) ltac:(lia) (or_intror eq_refl))
        as (parts & tail & _ & _ & _ & Hr & _).
      rewrite Hr, E0. reflexivity.
    + rewrite Hnone by (auto; lia). reflexivity.
Qed.

(** ** Invalid requests *)


(** ** SETTINGS *)

Lemma frame_handle_settings_validation c stream_p frame :
  stream frame = 0 ->
  has_flag (flags frame) CNO_FLAG_ACK = false ->
  zlen (payload frame) mod 6 = 0 ->
  settings_out_of_bounds (settings_received frame c) ->
  cno_frame_handle_settings env stream_p frame c
  = @cno_frame_write_error env unit (settings_error_code (settings_received frame c))
      (set_settings (side_set (settings c) CNO_REMOTE (settings_received frame c)) c).
Proof.
  intros Hs Hack Hmod Hbad. unfold cno_frame_handle_settings.
  rewrite Hs, Hack, Hmod. cbn [Z.eqb negb]. rewrite bind_modify, bind_get.
  fold (settings_received frame c). unfold settings_error_code.
  cbn [settings set_settings side_get side_set CNO_REMOTE at_remote].
  destruct (enable_push (settings_received frame c) >? 1) eqn:E1; [reflexivity|].
  destruct (initial_window_size (settings_received frame c) >? 2147483647) eqn:E2;
    [reflexivity|].
  destruct ((max_frame_size (settings_received frame c) <? 16384)
            || (max_frame_size (settings_received frame c) >? 16777215)) eqn:E3;
    [reflexivity|].
  exfalso. rewrite Z.gtb_ltb in E1, E2. apply Z.ltb_ge in E1, E2.
  apply orb_false_iff in E3. destruct E3 as [E3 E4].
  rewrite Z.gtb_ltb in E4. apply Z.ltb_ge in E3, E4.
  unfold settings_out_of_bounds in Hbad. lia.
Qed.

(** The part of C10 that the code honours: an out-of-bounds value is met
    with GOAWAY and TRANSPORT while the values of the frame stay in the remote
    settings, as long as the [max_frame_size] just stored admits the eight
    bytes of a GOAWAY payload. *)
Lemma frame_handle_settings_not_restored c stream_p frame :
  stream frame = 0 ->
  has_flag (flags frame) CNO_FLAG_ACK = false ->
  zlen (payload frame) mod 6 = 0 ->
  settings_out_of_bounds (settings_received frame c) ->
  8 <= max_frame_size (settings_received frame c) ->
  exists last,
    trace_of (cno_frame_handle_settings env stream_p frame c)
    = wire (goaway_frame last (settings_error_code (settings_received frame c)))
    /\ result_of (cno_frame_handle_settings env stream_p frame c) = Err TRANSPORT
    /\ side_get (settings (conn_of (cno_frame_handle_settings env stream_p frame c)))
                CNO_REMOTE
       = settings_received frame c.
Proof using callbacks_ok.
  intros Hs Hack Hmod Hbad Hfit.
  rewrite frame_handle_settings_validation by assumption.
  rewrite frame_write_error_ok by exact Hfit.
  eexists. split; [reflexivity|]. split; [reflexivity|].
  unfold conn_of, goaway_mark. cbn [fst]. destruct (goaway_sent _ =? 0); reflexivity.
Qed.

(** C10, where the code fails it.  When the SETTINGS frame leaves a
    [max_frame_size] below 8 in the remote settings, the GOAWAY that the
    validation asks for is itself measured against that value: nothing is
    sent, the result is ASSERTION rather than TRANSPORT, and the values of the
    frame stay in the remote settings. *)
Theorem cno_frame_handle_settings_tiny_frame_size
        (c : cno_connection_t) (stream_p : option Z) (frame : cno_frame_t) :
  stream frame = 0 ->
  has_flag (flags frame) CNO_FLAG_ACK = false ->
  zlen (payload frame) mod 6 = 0 ->
  max_frame_size (settings_received frame c) < 8 ->
  trace_of (cno_frame_handle_settings env stream_p frame c) = []
  /\ result_of (cno_frame_handle_settings env stream_p frame c) = Err ASSERTION
  /\ side_get (settings (conn_of (cno_frame_handle_settings env stream_p frame c)))
              CNO_REMOTE
     = settings_received frame c.
Proof.
  intros Hs Hack Hmod Hsmall.
  rewrite frame_handle_settings_validation
    by (auto; unfold settings_out_of_bounds; lia).
  set (c1 := set_settings _ c).
  assert (Hw : forall c2 f,
            side_get (settings c2) CNO_REMOTE = settings_received frame c ->
            type f = CNO_FRAME_GOAWAY -> flags f = 0 -> zlen (payload f) = 8 ->
            cno_frame_write env f c2 = (c2, [], Err ASSERTION)).
  { intros c2 f Hc2 Hty Hfl Hlen. unfold cno_frame_write. rewrite bind_get. cbv zeta.
    rewrite Hc2, Hlen, Hty, Hfl.
    replace (8 <=? max_frame_size (settings_received frame c)) with false
      by (symmetry; apply Z.leb_gt; lia).
    reflexivity. }
  assert (Hg : forall code,
            cno_frame_write_goaway env code c1 = (goaway_mark c1, [], Err ASSERTION)).
  { intros code. unfold cno_frame_write_goaway, goaway_mark. rewrite bind_get.
    destruct (goaway_sent c1 =? 0); cbn [negb when].
    - rewrite bind_ret, bind_get. apply Hw; reflexivity.
    - rewrite bind_modify, bind_get. apply Hw; reflexivity. }
  assert (He : forall code,
            @cno_frame_write_error env unit code c1 = (goaway_mark c1, [], Err ASSERTION)).
  { intros code. unfold cno_frame_write_error, bind. rewrite Hg. reflexivity. }
  rewrite He.
  repeat split. unfold conn_of, goaway_mark. cbn [fst].
  destruct (goaway_sent c1 =? 0); reflexivity.
Qed.

End Correctness.

(** * Further properties *)

(** ** Bytes on the wire *)

Lemma u8_range x : 0 <= u8 x < 256.
Proof. unfold u8. apply Z.mod_pos_bound. lia. Qed.

Lemma u8_testbit x m :
  Z.testbit (u8 x) m = (0 <=? m) && (m <? 8) && Z.testbit x m.
Proof.
  unfold u8. change 256 with (2 ^ 8).
  destruct (0 <=? m) eqn:E0; cbn [andb].
  - apply Z.leb_le in E0. destruct (m <? 8) eqn:E; cbn [andb].
    + apply Z.ltb_lt in E. apply Z.mod_pow2_bits_low. lia.
    + apply Z.ltb_ge in E. apply Z.mod_pow2_bits_high. lia.
  - apply Z.leb_gt in E0. apply Z.testbit_neg_r. lia.
Qed.

Lemma byte_testbit_high b n : 0 <= b < 256 -> 8 <= n -> Z.testbit b n = false.
Proof.
  intros Hb Hn. destruct (Z.eq_dec b 0) as [->|Hne]; [apply Z.bits_0|].
  apply Z.bits_above_log2; [lia|].
  assert (Z.log2 b < 8); [|lia]. apply Z.log2_lt_pow2; lia.
Qed.

(** The bit [n] of a byte of [PACK] placed [k] bits up. *)
Lemma placed_testbit y k n :
  0 <= k -> 0 <= n ->
  Z.testbit (Z.shiftl (u8 y) k) n = (k <=? n) && (n <? k + 8) && Z.testbit y (n - k).
Proof.
  intros Hk Hn. rewrite Z.shiftl_spec by lia. rewrite u8_testbit.
  destruct (k <=? n) eqn:E1.
  - apply Z.leb_le in E1.
    replace (0 <=? n - k) with true by (symmetry; apply Z.leb_le; lia).
    replace (n - k <? 8) with (n <? k + 8); [reflexivity|].
    destruct (n <? k + 8) eqn:E; [apply Z.ltb_lt in E; symmetry; apply Z.ltb_lt
                                 |apply Z.ltb_ge in E; symmetry; apply Z.ltb_ge]; lia.
  - apply Z.leb_gt in E1.
    replace (0 <=? n - k) with false by (symmetry; apply Z.leb_gt; lia). reflexivity.
Qed.

Ltac by_range :=
  repeat match goal with
  | |- context [?a <=? ?b] =>
      let E := fresh "E" in
      destruct (a <=? b) eqn:E; [apply Z.leb_le in E | apply Z.leb_gt in E]
  | |- context [?a <? ?b] =>
      let E := fresh "E" in
      destruct (a <? b) eqn:E; [apply Z.ltb_lt in E | apply Z.ltb_ge in E]
  end; cbn [andb orb]; try lia.

Ltac same_bit :=
  repeat rewrite orb_false_r; try reflexivity;
  try (rewrite Z.shiftr_spec by lia); try (f_equal; lia).

Lemma read4_I32 x rest : read4 (I32 x ++ rest) = u32 x.
Proof.
  unfold read4, I32, byte_at, u32. cbn [app nth].
  change 4294967296 with (2 ^ 32).
  apply Z.bits_inj'. intros n Hn.
  rewrite !Z.testbit_mod_pow2 by lia.
  rewrite !Z.lor_spec, !placed_testbit, u8_testbit by lia.
  by_range; same_bit.
Qed.

Lemma read2_I16 x rest : read2 (I16 x ++ rest) = u16 x.
Proof.
  unfold read2, I16, byte_at, u16. cbn [app nth].
  change 65536 with (2 ^ 16).
  apply Z.bits_inj'. intros n Hn.
  rewrite !Z.testbit_mod_pow2 by lia.
  rewrite !Z.lor_spec, !placed_testbit, u8_testbit by lia.
  by_range; same_bit.
Qed.

Lemma read1_I8 x rest : read1 (I8 x ++ rest) = u8 x.
Proof. reflexivity. Qed.

Lemma read3_I24 x b rest :
  0 <= b < 256 -> read3 (I24 x ++ b :: rest) = x mod 2 ^ 24.
Proof.
  intros Hb. unfold read3, read4, I24, byte_at, u32. cbn [app nth].
  change 4294967296 with (2 ^ 32).
  apply Z.bits_inj'. intros n Hn.
  rewrite Z.shiftr_spec by lia.
  rewrite !Z.testbit_mod_pow2 by lia.
  rewrite !Z.lor_spec, !placed_testbit by lia.
  rewrite (byte_testbit_high b (n + 8)) by lia.
  by_range; same_bit.
Qed.

(** X1.  What [PACK] writes, [read1]..[read4] read back: a number comes
    back reduced to the width of its field, whatever follows it (for
    [read3], which reads four bytes, the byte that follows does not
    matter). *)
Theorem read_PACK_round_trip (x : Z) (rest : bytes) :
  read1 (I8 x ++ rest) = x mod 2 ^ 8
  /\ read2 (I16 x ++ rest) = x mod 2 ^ 16
  /\ (forall b, 0 <= b < 256 -> read3 (I24 x ++ b :: rest) = x mod 2 ^ 24)
  /\ read4 (I32 x ++ rest) = x mod 2 ^ 32.
Proof.
  split; [reflexivity|]. split; [apply read2_I16|].
  split; [intros b Hb; apply read3_I24; exact Hb | apply read4_I32].
Qed.

(** ** A frame written is the frame read *)

Lemma frame_header_fields f rest :
  frame_fits_header f ->
  let base := frame_header f ++ payload f ++ rest in
  read3 base = zlen (payload f)
  /\ read1 (skipn 3 base) = type f
  /\ read1 (skipn 4 base) = flags f
  /\ Z.land (read4 (skipn 5 base)) 2147483647 = stream f
  /\ skipn 9 base = payload f ++ rest.
Proof.
  intros (Hty & Hfl & Hst & Hlen). cbv zeta. unfold frame_header.
  rewrite <- !app_assoc.
  split; [|split; [|split; [|split]]].
  - change (I8 (type f) ++ I8 (flags f) ++ I32 (stream f) ++ payload f ++ rest)
      with (u8 (type f) :: (I8 (flags f) ++ I32 (stream f) ++ payload f ++ rest)).
    rewrite read3_I24 by apply u8_range.
    apply Z.mod_small. pose proof (zlen_nonneg (payload f)). lia.
  - cbn [I24 I8 app skipn]. unfold read1, byte_at. cbn [nth].
    apply Z.mod_small. exact Hty.
  - cbn [I24 I8 app skipn]. unfold read1, byte_at. cbn [nth].
    apply Z.mod_small. exact Hfl.
  - change (skipn 5 (I24 (zlen (payload f)) ++ I8 (type f) ++ I8 (flags f)
                     ++ I32 (stream f) ++ payload f ++ rest))
      with (I32 (stream f) ++ payload f ++ rest).
    rewrite read4_I32. unfold u32. rewrite (Z.mod_small (stream f)) by lia.
    change 2147483647 with (Z.ones 31). rewrite Z.land_ones by lia.
    apply Z.mod_small. exact Hst.
  - reflexivity.
Qed.

Lemma zlen_app {A} (l1 l2 : list A) : zlen (l1 ++ l2) = zlen l1 + zlen l2.
Proof. unfold zlen. rewrite length_app. lia. Qed.

Lemma zlen_frame_header f : zlen (frame_header f) = 9.
Proof. reflexivity. Qed.

Lemma ztake_app_exact {A} (l1 l2 : list A) : ztake (zlen l1) (l1 ++ l2) = l1.
Proof.
  unfold ztake, zlen. rewrite Nat2Z.id. rewrite firstn_app, Nat.sub_diag, firstn_all.
  cbn. apply app_nil_r.
Qed.

Lemma zdrop_app_exact {A} (l1 l2 : list A) : zdrop (zlen l1) (l1 ++ l2) = l2.
Proof.
  unfold zdrop, zlen. rewrite Nat2Z.id. rewrite skipn_app, Nat.sub_diag, skipn_all.
  reflexivity.
Qed.

Section Wire.

Variable env : cno_env.

(** X2.  The driver reads back what [cno_frame_write] puts on the wire:
    when the buffer starts with the header and the payload of a frame whose
    fields fit the header and whose payload is within the local frame size
    limit, the connection becomes READY, exactly these bytes are consumed and
    this frame is the one handed to [on_frame] and to [cno_frame_handle]. *)
Theorem cno_connection_proceed_ready_reads_frame
        (c : cno_connection_t) (f : cno_frame_t) (rest : bytes) :
  buffer c = frame_header f ++ payload f ++ rest ->
  frame_fits_header f ->
  zlen (payload f) <= max_frame_size (side_get (settings c) CNO_LOCAL) ->
  (state c = CNO_CONNECTION_READY_NO_SETTINGS -> type f = CNO_FRAME_SETTINGS) ->
  cno_connection_proceed_ready env c
  = (when ((goaway_sent c =? 0) || (stream f <=? goaway_sent c))
          (CNO_FIRE env (on_frame f) ;; cno_frame_handle env f) ;;
     ret true)
      (set_buffer rest (set_state CNO_CONNECTION_READY c)).
Proof.
  intros Hbuf Hfit Hmax Hfirst.
  destruct (frame_header_fields f rest Hfit) as (H3 & Hty & Hfl & Hst & H9).
  cbv zeta in H3, Hty, Hfl, Hst, H9.
  unfold cno_connection_proceed_ready. rewrite bind_get. rewrite Hbuf.
  rewrite !zlen_app, zlen_frame_header.
  pose proof (zlen_nonneg (payload f)). pose proof (zlen_nonneg rest).
  replace (9 + (zlen (payload f) + zlen rest) <? 9) with false
    by (symmetry; apply Z.ltb_ge; lia).
  cbv zeta. rewrite H3, Hty, Hfl, Hst, H9.
  replace (zlen (payload f) >? max_frame_size (side_get (settings c) CNO_LOCAL))
    with false by (symmetry; rewrite Z.gtb_ltb; apply Z.ltb_ge; lia).
  replace (9 + (zlen (payload f) + zlen rest) <? 9 + zlen (payload f)) with false
    by (symmetry; apply Z.ltb_ge; lia).
  rewrite ztake_app_exact.
  replace (mk_frame (type f) (flags f) (stream f) (payload f)) with f
    by (destruct f; reflexivity).
  assert (E : state_eqb (state c) CNO_CONNECTION_READY_NO_SETTINGS
              && negb (type f =? CNO_FRAME_SETTINGS) = false).
  { destruct (state c); try reflexivity. rewrite Hfirst by reflexivity. reflexivity. }
  rewrite E. rewrite bind_modify. unfold cno_buffer_dyn_shift_buffer.
  rewrite bind_modify. rewrite bind_get.
  cbn [buffer set_state set_buffer goaway_sent]. rewrite Hbuf.
  replace (9 + zlen (payload f)) with (zlen (frame_header f ++ payload f))
    by (rewrite zlen_app, zlen_frame_header; reflexivity).
  rewrite app_assoc, zdrop_app_exact.
  reflexivity.
Qed.

End Wire.

(** ** SETTINGS written and read *)

Lemma settings_store_entry i v rest n cfg :
  1 <= i <= 6 -> 0 <= v < 2 ^ 32 ->
  settings_store (S n) (I16 i ++ I32 v ++ rest) cfg
  = settings_store n rest (settings_array_set cfg (i - 1) v).
Proof.
  intros Hi Hv. cbn [settings_store]. rewrite read2_I16.
  change (skipn 2 (I16 i ++ I32 v ++ rest)) with (I32 v ++ rest).
  change (skipn 6 (I16 i ++ I32 v ++ rest)) with rest.
  rewrite read4_I32. unfold u16, u32.
  rewrite (Z.mod_small i) by lia. rewrite (Z.mod_small v) by lia.
  replace (negb (i =? 0)) with true by (symmetry; apply negb_true_iff, Z.eqb_neq; lia).
  replace (i <? CNO_SETTINGS_UNDEFINED) with true
    by (symmetry; apply Z.ltb_lt; unfold CNO_SETTINGS_UNDEFINED; lia).
  reflexivity.
Qed.

Lemma settings_store_diff ax : forall bx i cfg rest m,
  List.length ax = List.length bx ->
  1 <= i -> i + zlen ax <= CNO_SETTINGS_UNDEFINED ->
  Forall (fun v => 0 <= v < 2 ^ 32) bx ->
  exists n,
    (n <= List.length ax)%nat
    /\ zlen (settings_diff i ax bx) = 6 * Z.of_nat n
    /\ settings_store (n + m) (settings_diff i ax bx ++ rest) cfg
       = settings_store m rest (settings_patch i ax bx cfg).
Proof.
  induction ax as [|a ax IH]; intros [|b bx] i cfg rest m Hlen Hi Hmax Hb;
    try discriminate.
  - exists 0%nat. split; [|split]; reflexivity.
  - cbn in Hlen. injection Hlen as Hlen.
    assert (Hz : zlen (a :: ax) = 1 + zlen ax) by (unfold zlen; cbn [List.length]; lia).
    rewrite Hz in Hmax. pose proof (zlen_nonneg ax) as Hnn.
    inversion Hb as [|? ? Hb1 Hb2]; subst.
    cbn [settings_diff settings_patch].
    replace (i <? CNO_SETTINGS_UNDEFINED) with true by (symmetry; apply Z.ltb_lt; lia).
    destruct (a =? b) eqn:E; cbn [negb app].
    + destruct (IH bx (i + 1) cfg rest m Hlen ltac:(lia) ltac:(lia) Hb2)
        as (n & Hle & Hn & Hs).
      exists n. split; [cbn [List.length]; lia|]. split; assumption.
    + destruct (IH bx (i + 1) (settings_array_set cfg (i - 1) b) rest m Hlen
                   ltac:(lia) ltac:(lia) Hb2) as (n & Hle & Hn & Hs).
      exists (S n). split; [cbn [List.length]; lia|]. split.
      * rewrite zlen_app, Hn. change (zlen (I16 i ++ I32 b)) with 6. lia.
      * rewrite <- !app_assoc. cbn [Nat.add].
        rewrite settings_store_entry by (unfold CNO_SETTINGS_UNDEFINED in *; lia).
        exact Hs.
Qed.

Lemma settings_patch_all previous current :
  settings_patch 1 (settings_array previous) (settings_array current) previous = current.
Proof.
  destruct previous as [a1 a2 a3 a4 a5 a6], current as [b1 b2 b3 b4 b5 b6].
  unfold settings_array. cbn [settings_patch header_table_size enable_push
    max_concurrent_streams initial_window_size max_frame_size max_header_list_size].
  destruct (a1 =? b1) eqn:E1; [apply Z.eqb_eq in E1; subst|];
  destruct (a2 =? b2) eqn:E2; [apply Z.eqb_eq in E2; subst| |apply Z.eqb_eq in E2; subst|];
  destruct (a3 =? b3) eqn:E3; try (apply Z.eqb_eq in E3; subst);
  destruct (a4 =? b4) eqn:E4; try (apply Z.eqb_eq in E4; subst);
  destruct (a5 =? b5) eqn:E5; try (apply Z.eqb_eq in E5; subst);
  destruct (a6 =? b6) eqn:E6; try (apply Z.eqb_eq in E6; subst);
  reflexivity.
Qed.

Section Settings.

Variable env : cno_env.
Hypothesis callbacks_ok : forall e, callback env e = None.

(** X3.  The SETTINGS frame that [cno_frame_write_settings] writes for a
    change from the settings the receiver holds for this side to [current]
    (every value an unsigned 32-bit number) is one that the loop of
    [cno_frame_handle_settings] turns back into [current]: the delta written
    is the delta read. *)
Theorem cno_frame_write_settings_read_back
        (sender receiver : cno_connection_t) (current : cno_settings_t) :
  Forall (fun v => 0 <= v < 2 ^ 32) (settings_array current) ->
  peer_accepts sender 36 ->
  exists frame,
    cno_frame_write_settings env (side_get (settings receiver) CNO_REMOTE) current sender
    = (sender, wire frame, Ok tt)
    /\ type frame = CNO_FRAME_SETTINGS /\ flags frame = 0 /\ stream frame = 0
    /\ zlen (payload frame) mod 6 = 0
    /\ settings_received frame receiver = current.
Proof using callbacks_ok.
  intros Hcur Hpeer.
  set (previous := side_get (settings receiver) CNO_REMOTE).
  destruct (settings_store_diff (settings_array previous) (settings_array current) 1
              previous [] 0%nat eq_refl ltac:(lia) ltac:(cbv; discriminate) Hcur)
    as (n & Hle & Hn & Hs).
  change (List.length (settings_array previous)) with 6%nat in Hle.
  exists (mk_frame CNO_FRAME_SETTINGS 0 0
            (settings_diff 1 (settings_array previous) (settings_array current))).
  split; [|split; [reflexivity|split; [reflexivity|split; [reflexivity|split]]]].
  - unfold cno_frame_write_settings. apply frame_write_fits; [exact callbacks_ok|].
    unfold peer_accepts in *. cbn [payload]. lia.
  - cbn [payload]. rewrite Hn. rewrite Z.mul_comm. apply Z.mod_mul. lia.
  - unfold settings_received. cbn [payload]. fold previous.
    rewrite Hn. replace (6 * Z.of_nat n / 6) with (Z.of_nat n)
      by (rewrite Z.mul_comm, Z.div_mul; lia).
    rewrite Nat2Z.id. rewrite app_nil_r, Nat.add_0_r in Hs. rewrite Hs.
    cbn [settings_store]. apply settings_patch_all.
Qed.

End Settings.

Section Frames.

Variable env : cno_env.
Hypothesis callbacks_ok : forall e, callback env e = None.

(** X4.  A PING goes round: [cno_write_ping] puts one PING frame with the
    eight bytes on the wire (type 6, no flag, stream 0); the peer's
    [cno_frame_handle] answers it with a PING frame that has the ACK flag and
    the same eight bytes; and [cno_frame_handle] of the sender hands these
    bytes to [on_pong].  No connection changes on the way. *)
Theorem cno_write_ping_round_trip (a b : cno_connection_t) (data : bytes) :
  zlen data = 8 ->
  cno_connection_is_http2 a = true ->
  continued_stream a = 0 -> continued_stream b = 0 ->
  peer_accepts a 8 -> peer_accepts b 8 ->
  let ping := mk_frame CNO_FRAME_PING 0 0 data in
  let pong := mk_frame CNO_FRAME_PING CNO_FLAG_ACK 0 data in
  cno_write_ping env data a
  = (a, [on_frame_send ping; on_write [0; 0; 8; 6; 0; 0; 0; 0; 0]; on_write data], Ok tt)
  /\ cno_frame_handle env ping b
     = (b, [on_frame_send pong; on_write [0; 0; 8; 6; 1; 0; 0; 0; 0]; on_write data], Ok tt)
  /\ cno_frame_handle env pong a = (a, [on_pong data], Ok tt).
Proof using callbacks_ok.
  intros Hlen Hh2 Hca Hcb Hpa Hpb ping pong. subst ping pong.
  assert (Hw : forall c f, payload f = data -> peer_accepts c 8 ->
             cno_frame_write env f c
             = (c, [on_frame_send f; on_write (frame_header f); on_write data], Ok tt)).
  { intros c f Hf Hp. rewrite (frame_write_fits env callbacks_ok) by (rewrite Hf, Hlen; exact Hp).
    unfold wire. rewrite Hf, Hlen. reflexivity. }
  assert (Hh : forall fl, frame_header (mk_frame CNO_FRAME_PING fl 0 data)
                          = [0; 0; 8; 6; u8 fl; 0; 0; 0; 0]).
  { intros fl. unfold frame_header. cbn [payload type flags stream]. rewrite Hlen. reflexivity. }
  split; [|split].
  - unfold cno_write_ping. rewrite bind_get, Hh2. cbn [negb].
    rewrite (Hw a (mk_frame CNO_FRAME_PING 0 0 data) eq_refl Hpa). rewrite Hh. reflexivity.
  - unfold cno_frame_handle. rewrite bind_get, Hcb. cbn.
    unfold CNO_FRAME_HANDLERS. change (Pos.to_nat 6) with 6%nat. cbn [nth_error].
    unfold cno_frame_handle_ping. cbn [stream payload flags]. rewrite Hlen.
    change (has_flag 0 CNO_FLAG_ACK) with false. cbn [Z.eqb Pos.eqb negb].
    rewrite (Hw b (mk_frame CNO_FRAME_PING CNO_FLAG_ACK 0 data) eq_refl Hpb). rewrite Hh. reflexivity.
  - unfold cno_frame_handle. rewrite bind_get, Hca. cbn.
    unfold CNO_FRAME_HANDLERS. change (Pos.to_nat 6) with 6%nat. cbn [nth_error].
    unfold cno_frame_handle_ping. cbn [stream payload flags]. rewrite Hlen.
    change (has_flag CNO_FLAG_ACK CNO_FLAG_ACK) with true. cbn [Z.eqb Pos.eqb negb].
    apply (fire_ok env callbacks_ok).
Qed.


(** X6.  [cno_frame_handle_goaway] never returns [CNO_OK], whatever the
    frame, the connection and the callbacks: a received GOAWAY always ends
    the call with an error.  For a GOAWAY on stream 0 with at least eight
    bytes nothing is sent and nothing changes, and the error is DISCONNECT
    when the peer's error code (bytes 4 to 7) is NO_ERROR and TRANSPORT
    otherwise. *)
Theorem cno_frame_handle_goaway_never_ok :
  forall (env' : cno_env) (stream_p : option Z) (frame : cno_frame_t) (c : cno_connection_t),
    result_of (cno_frame_handle_goaway env' stream_p frame c) <> Ok tt
    /\ (stream frame = 0 -> 8 <= zlen (payload frame) ->
        cno_frame_handle_goaway env' stream_p frame c
        = (c, [],
           Err (if read4 (skipn 4 (payload frame)) =? 0 then DISCONNECT else TRANSPORT))).
Proof.
  intros env' stream_p frame c. split.
  - unfold cno_frame_handle_goaway.
    assert (Herr : forall code,
              result_of (@cno_frame_write_error env' unit code c) <> Ok tt).
    { intros code. unfold cno_frame_write_error, bind.
      destruct (cno_frame_write_goaway env' code c) as [[c1 t1] [[]|k|s]]; cbn; discriminate. }
    destruct (negb (stream frame =? 0)); [apply Herr|].
    destruct (zlen (payload frame) <? 8); [apply Herr|].
    cbv zeta. destruct (negb _); cbn; discriminate.
  - intros Hs Hl. unfold cno_frame_handle_goaway. rewrite Hs. cbn [Z.eqb negb].
    replace (zlen (payload frame) <? 8) with false by (symmetry; apply Z.ltb_ge; lia).
    cbv zeta. unfold zdrop. change (Z.to_nat 4) with 4%nat.
    change CNO_RST_NO_ERROR with 0.
    destruct (read4 (skipn 4 (payload frame)) =? 0); reflexivity.
Qed.

End Frames.

(** ** The stream table *)

Lemma bucket_of_range id : 0 <= bucket_of id < CNO_STREAM_BUCKETS.
Proof. unfold bucket_of. apply Z.mod_pos_bound. reflexivity. Qed.

Lemma stream_buckets_In b : In b stream_buckets <-> 0 <= b < CNO_STREAM_BUCKETS.
Proof.
  unfold stream_buckets. rewrite in_map_iff. split.
  - intros (n & <- & Hn). apply in_seq in Hn. unfold CNO_STREAM_BUCKETS in *. lia.
  - intros Hb. exists (Z.to_nat b). split; [lia|]. apply in_seq.
    unfold CNO_STREAM_BUCKETS in *. lia.
Qed.

Lemma stream_buckets_NoDup : NoDup stream_buckets.
Proof.
  unfold stream_buckets. generalize (seq_NoDup (Z.to_nat CNO_STREAM_BUCKETS) 0).
  generalize (seq 0 (Z.to_nat CNO_STREAM_BUCKETS)). intros l H.
  induction H as [|x l Hn Hd IH]; cbn; constructor; [|exact IH].
  rewrite in_map_iff. intros (y & E & Hy). apply Nat2Z.inj in E. subst y. contradiction.
Qed.

Lemma find_In_ids c p :
  (exists s, cno_stream_find c p = Some s) <-> In p (bucket_ids c (bucket_of p)).
Proof.
  unfold cno_stream_find, bucket_ids. split.
  - intros (s & H). apply find_some in H. destruct H as [Hin E].
    apply Z.eqb_eq in E. subst p. apply in_map, Hin.
  - intros H. apply in_map_iff in H. destruct H as (s & E & Hin).
    destruct (find (fun s0 => stream_id s0 =? p) (streams c (bucket_of p))) eqn:F;
      [eexists; reflexivity|].
    exfalso. pose proof (find_none _ _ F s Hin) as N. cbn in N.
    apply Z.eqb_neq in N. contradiction.
Qed.

Lemma chain_update_ids p f l :
  (forall s, stream_id (f s) = stream_id s) ->
  map stream_id (chain_update p f l) = map stream_id l.
Proof.
  intros Hf. induction l as [|x l IH]; cbn; [reflexivity|].
  destruct (stream_id x =? p); cbn; [rewrite Hf | rewrite IH]; reflexivity.
Qed.

Lemma chain_remove_ids p l : map stream_id (chain_remove p l) = ids_remove p (map stream_id l).
Proof.
  induction l as [|x l IH]; cbn; [reflexivity|].
  destruct (stream_id x =? p); cbn; [|rewrite IH]; reflexivity.
Qed.

Lemma ids_remove_In p l x : In x (ids_remove p l) -> In x l.
Proof.
  induction l as [|y l IH]; cbn; [tauto|].
  destruct (y =? p); cbn; [tauto|]. intros [H|H]; auto.
Qed.

Lemma ids_remove_NoDup p l : NoDup l -> NoDup (ids_remove p l).
Proof.
  induction l as [|y l IH]; cbn; intros H; [constructor|].
  inversion H as [|? ? Hn Hd]; subst.
  destruct (y =? p); [exact Hd|]. constructor; [|apply IH, Hd].
  intros Hin. apply Hn. eapply ids_remove_In, Hin.
Qed.

Lemma ids_remove_gone p l : NoDup l -> ~ In p (ids_remove p l).
Proof.
  induction l as [|y l IH]; cbn; intros H; [tauto|].
  inversion H as [|? ? Hn Hd]; subst.
  destruct (y =? p) eqn:E.
  - apply Z.eqb_eq in E. subst y. exact Hn.
  - apply Z.eqb_neq in E. cbn. intros [H1|H1]; [contradiction|]. apply (IH Hd H1).
Qed.

Lemma ids_remove_other p l x : x <> p -> In x l -> In x (ids_remove p l).
Proof.
  intros Hx. induction l as [|y l IH]; cbn; [tauto|].
  destruct (y =? p) eqn:E.
  - apply Z.eqb_eq in E. subst y. intros [H|H]; [congruence | exact H].
  - cbn. intros [H|H]; auto.
Qed.

Lemma ids_remove_count (P : Z -> bool) p l :
  In p l ->
  (List.length (filter P (ids_remove p l)) + (if P p then 1 else 0)
   = List.length (filter P l))%nat.
Proof.
  induction l as [|y l IH]; cbn; [tauto|].
  destruct (y =? p) eqn:E.
  - apply Z.eqb_eq in E. subst y. intros _. destruct (P p); cbn; lia.
  - apply Z.eqb_neq in E. intros [H|H]; [contradiction|].
    cbn. destruct (P y); cbn; rewrite <- (IH H); lia.
Qed.

Lemma flat_map_agree {A B} (g g' : A -> list B) l :
  (forall a, In a l -> g' a = g a) -> flat_map g' l = flat_map g l.
Proof.
  induction l as [|a l IH]; cbn; intros H; [reflexivity|].
  rewrite H by auto. rewrite IH by auto. reflexivity.
Qed.

(** Counting over the table when one bucket changes. *)
Lemma count_one_bucket (P : Z -> bool) (g g' : Z -> list Z) b0 bs :
  (forall b, b <> b0 -> g' b = g b) ->
  NoDup bs -> In b0 bs ->
  (List.length (filter P (flat_map g' bs)) + List.length (filter P (g b0))
   = List.length (filter P (flat_map g bs)) + List.length (filter P (g' b0)))%nat.
Proof.
  intros Hg. induction bs as [|b bs IH]; cbn; [tauto|].
  intros Hd Hin. inversion Hd as [|? ? Hn Hd']; subst.
  rewrite !filter_app, !length_app.
  destruct (Z.eq_dec b b0) as [->|Hne].
  - assert (E : flat_map g' bs = flat_map g bs).
    { apply flat_map_agree. intros a Ha. apply Hg. intros ->. contradiction. }
    rewrite E. lia.
  - destruct Hin as [H|H]; [contradiction|].
    rewrite (Hg b Hne). specialize (IH Hd' H). lia.
Qed.

Lemma bucket_ids_set_bucket b chain c b' :
  bucket_ids (set_bucket b chain c) b'
  = if b' =? b then map stream_id chain else bucket_ids c b'.
Proof. unfold bucket_ids, set_bucket. cbn. destruct (b' =? b); reflexivity. Qed.

Lemma table_ok_same_ids c c' :
  (forall b, bucket_ids c' b = bucket_ids c b) ->
  last_stream c' = last_stream c -> stream_count c' = stream_count c ->
  client c' = client c ->
  table_ok c -> table_ok c'.
Proof.
  intros Hids Hlast Hcount Hclient (B & U & L & N).
  assert (Hloc : forall id, cno_stream_is_local c' id = cno_stream_is_local c id)
    by (intros id; unfold cno_stream_is_local; rewrite Hclient; reflexivity).
  assert (Hside : forall local, side_ids c' local = side_ids c local).
  { intros local. unfold side_ids, table_ids.
    rewrite (flat_map_agree (bucket_ids c) (bucket_ids c')) by (intros; apply Hids).
    apply filter_ext. intros id. rewrite Hloc. reflexivity. }
  repeat split.
  - intros b id. rewrite Hids. apply B.
  - intros b. rewrite Hids. apply U.
  - intros b id. rewrite Hids, Hlast, Hloc. apply L.
  - intros local. rewrite Hcount, Hside. apply N.
Qed.

Lemma table_ok_store c p f :
  (forall s, stream_id (f s) = stream_id s) ->
  table_ok c -> table_ok (stream_store p f c).
Proof.
  intros Hf. apply table_ok_same_ids; try reflexivity.
  intros b. unfold stream_store. rewrite bucket_ids_set_bucket.
  destruct (b =? bucket_of p) eqn:E; [|reflexivity].
  apply Z.eqb_eq in E. subst b. apply chain_update_ids, Hf.
Qed.

Lemma u32_add_u32 n d : u32 (u32 n + d) = u32 (n + d).
Proof. unfold u32. apply Z.add_mod_idemp_l. lia. Qed.

Lemma side_count_add c local d k :
  side_get (stream_count (stream_count_add local d c)) k
  = if Bool.eqb local k then u32 (side_get (stream_count c) local + d)
    else side_get (stream_count c) k.
Proof. unfold stream_count_add. cbn [stream_count set_stream_count]. apply side_get_set. Qed.

(** The ids of a side when the bucket [b0] changes from [old] to [new]. *)
Lemma side_ids_one_bucket c c' b0 local :
  client c' = client c ->
  (forall b, b <> b0 -> bucket_ids c' b = bucket_ids c b) ->
  0 <= b0 < CNO_STREAM_BUCKETS ->
  let P := fun id => Bool.eqb (cno_stream_is_local c id) local in
  zlen (side_ids c' local) + zlen (filter P (bucket_ids c b0))
  = zlen (side_ids c local) + zlen (filter P (bucket_ids c' b0)).
Proof.
  intros Hclient Hids Hb0 P.
  assert (E : side_ids c' local = filter P (table_ids c')).
  { unfold side_ids. apply filter_ext. intros id. unfold P, cno_stream_is_local.
    rewrite Hclient. reflexivity. }
  rewrite E. unfold side_ids, table_ids. fold P. unfold zlen.
  pose proof (count_one_bucket P (bucket_ids c) (bucket_ids c') b0 stream_buckets Hids
                stream_buckets_NoDup (proj2 (stream_buckets_In b0) Hb0)) as H.
  lia.
Qed.

Lemma table_ok_unlink c p :
  table_ok c -> In p (bucket_ids c (bucket_of p)) -> table_ok (stream_unlink p c).
Proof.
  intros (B & U & L & N) Hin. unfold stream_unlink.
  set (c1 := stream_count_add (cno_stream_is_local c p) (-1) c).
  set (c2 := set_bucket _ _ c1).
  assert (Hids : forall b, bucket_ids c2 b
                           = if b =? bucket_of p then ids_remove p (bucket_ids c b)
                             else bucket_ids c b).
  { intros b. unfold c2. rewrite bucket_ids_set_bucket.
    destruct (b =? bucket_of p) eqn:E; [|reflexivity].
    apply Z.eqb_eq in E. subst b. apply chain_remove_ids. }
  assert (Hsub : forall b id, In id (bucket_ids c2 b) -> In id (bucket_ids c b)).
  { intros b id. rewrite Hids. destruct (b =? bucket_of p); [apply ids_remove_In | auto]. }
  repeat split.
  - intros b id H. apply B, Hsub, H.
  - intros b. rewrite Hids. destruct (b =? bucket_of p); [apply ids_remove_NoDup|]; apply U.
  - intros b id H. apply (L b id), Hsub, H.
  - intros local.
    pose proof (side_ids_one_bucket c c2 (bucket_of p) local eq_refl) as H.
    cbv zeta in H. rewrite (Hids (bucket_of p)), Z.eqb_refl in H.
    specialize (H ltac:(intros b Hb; rewrite Hids;
                        replace (b =? bucket_of p) with false
                          by (symmetry; apply Z.eqb_neq; exact Hb); reflexivity)
                  (bucket_of_range p)).
    pose proof (ids_remove_count (fun id => Bool.eqb (cno_stream_is_local c id) local)
                  p _ Hin) as Hc.
    unfold zlen in H. unfold c2.
    change (stream_count (set_bucket _ _ c1)) with (stream_count c1).
    unfold c1. rewrite side_count_add, N.
    fold c1. fold c2.
    destruct (Bool.eqb (cno_stream_is_local c p) local) eqn:E.
    + apply Bool.eqb_prop in E. rewrite E, u32_add_u32. f_equal. unfold zlen.
      clearbody c2. lia.
    + replace (zlen (side_ids c2 local)) with (zlen (side_ids c local))
        by (unfold zlen; clearbody c2; lia).
      apply N.
Qed.

Lemma table_ok_advance c id local :
  table_ok c -> side_get (last_stream c) local <= id ->
  table_ok (set_last_stream (side_set (last_stream c) local id) c).
Proof.
  intros (B & U & L & N) Hid. repeat split; auto.
  intros b id' H. specialize (L b id' H).
  cbn [last_stream set_last_stream].
  change (cno_stream_is_local (set_last_stream _ c) id') with (cno_stream_is_local c id').
  rewrite side_get_set. destruct (Bool.eqb local (cno_stream_is_local c id')) eqn:E; [|exact L].
  apply Bool.eqb_prop in E. subst local. lia.
Qed.

Lemma table_ok_link c id local s :
  table_ok c ->
  stream_id s = id -> cno_stream_is_local c id = local ->
  side_get (last_stream c) local < id ->
  table_ok (stream_count_add local 1
              (set_bucket (bucket_of id) (s :: streams c (bucket_of id))
                 (set_last_stream (side_set (last_stream c) local id) c))).
Proof.
  intros Hc Hs Hloc Hid.
  pose proof (table_ok_advance c id local Hc ltac:(lia)) as (B & U & L & N).
  destruct Hc as (_ & _ & L0 & _).
  set (c1 := set_last_stream _ c) in *.
  set (c2 := set_bucket _ _ c1).
  assert (Hids : forall b, bucket_ids c2 b
                           = if b =? bucket_of id then id :: bucket_ids c1 b
                             else bucket_ids c1 b).
  { intros b. unfold c2. rewrite bucket_ids_set_bucket.
    destruct (b =? bucket_of id) eqn:E; [|reflexivity].
    apply Z.eqb_eq in E. subst b. cbn [map]. rewrite Hs. reflexivity. }
  assert (Hnew : ~ In id (bucket_ids c (bucket_of id))).
  { intros H. specialize (L0 _ _ H). rewrite Hloc in L0. lia. }
  repeat split.
  - intros b id'. change (bucket_ids (stream_count_add local 1 c2) b) with (bucket_ids c2 b).
    rewrite Hids. destruct (b =? bucket_of id) eqn:E; [|apply B].
    apply Z.eqb_eq in E. intros [<-|H]; [symmetry; exact E | apply B, H].
  - intros b. change (bucket_ids (stream_count_add local 1 c2) b) with (bucket_ids c2 b).
    rewrite Hids. destruct (b =? bucket_of id) eqn:E; [|apply U].
    apply Z.eqb_eq in E. subst b. constructor; [exact Hnew | apply U].
  - intros b id'. change (bucket_ids (stream_count_add local 1 c2) b) with (bucket_ids c2 b).
    rewrite Hids.
    change (last_stream (stream_count_add local 1 c2)) with (last_stream c1).
    change (cno_stream_is_local (stream_count_add local 1 c2) id')
      with (cno_stream_is_local c id').
    destruct (b =? bucket_of id) eqn:E; [|apply L].
    intros [<-|H]; [|apply (L b), H].
    unfold c1. cbn [last_stream set_last_stream]. rewrite side_get_set, Hloc.
    rewrite Bool.eqb_reflx. lia.
  - intros k.
    pose proof (side_ids_one_bucket c1 (stream_count_add local 1 c2) (bucket_of id) k
                  eq_refl) as H.
    cbv zeta in H.
    change (bucket_ids (stream_count_add local 1 c2) (bucket_of id))
      with (bucket_ids c2 (bucket_of id)) in H.
    rewrite (Hids (bucket_of id)), Z.eqb_refl in H.
    specialize (H ltac:(intros b Hb;
                        change (bucket_ids (stream_count_add local 1 c2) b)
                          with (bucket_ids c2 b);
                        rewrite Hids;
                        replace (b =? bucket_of id) with false
                          by (symmetry; apply Z.eqb_neq; exact Hb); reflexivity)
                  (bucket_of_range id)).
    cbn [filter] in H.
    change (cno_stream_is_local c1 id) with (cno_stream_is_local c id) in H.
    rewrite Hloc in H.
    rewrite side_count_add.
    change (stream_count c2) with (stream_count c1).
    destruct (Bool.eqb local k) eqn:E.
    + apply Bool.eqb_prop in E. subst k. rewrite N, u32_add_u32.
      replace (zlen (side_ids (stream_count_add local 1 c2) local))
        with (zlen (side_ids c1 local) + 1); [reflexivity|].
      unfold zlen in *. cbn [List.length] in H. clearbody c2 c1. lia.
    + rewrite N.
      replace (zlen (side_ids (stream_count_add local 1 c2) k))
        with (zlen (side_ids c1 k)); [reflexivity|].
      unfold zlen in *. clearbody c2 c1. lia.
Qed.

Lemma u32_idem x : u32 (u32 x) = u32 x.
Proof. unfold u32. apply Z.mod_mod. lia. Qed.

Lemma table_ok_rollback c id local s :
  table_ok c ->
  side_get (last_stream c) local <= id ->
  table_ok (stream_count_add local (-1)
              (set_bucket (bucket_of id) (streams c (bucket_of id))
                 (stream_count_add local 1
                    (set_bucket (bucket_of id) (s :: streams c (bucket_of id))
                       (set_last_stream (side_set (last_stream c) local id) c))))).
Proof.
  intros Hc Hid.
  pose proof (table_ok_advance c id local Hc Hid) as H1.
  destruct Hc as (_ & _ & _ & N).
  eapply table_ok_same_ids; [| | | |exact H1]; try reflexivity.
  - intros b. unfold bucket_ids, stream_count_add, set_bucket.
    cbn [streams set_stream_count set_streams set_last_stream].
    destruct (b =? bucket_of id) eqn:E; [|reflexivity].
    apply Z.eqb_eq in E. subst b. reflexivity.
  - unfold stream_count_add. cbn [stream_count set_stream_count set_bucket set_streams
                                   set_last_stream].
    rewrite side_get_set, Bool.eqb_reflx, u32_add_u32.
    replace (side_get (stream_count c) local + 1 + -1) with (side_get (stream_count c) local)
      by lia.
    rewrite N, u32_idem. rewrite <- N.
    destruct (stream_count c), local; reflexivity.
Qed.

Create HintDb kept.

(** ** Invariants of the stream table

    The rules of [keeps] once more, for invariants that look at the stream
    table: what is asked of [Inv] is that it survives the three operations
    on the table ([cno_stream_new], an update of a node that leaves its id
    alone, [cno_stream_free]), an entry in the ring of reset streams, and
    every assignment to the other fields. *)

Section Preserved.

Variable env : cno_env.
Variable Inv : cno_connection_t -> Prop.

Hypothesis P_other : forall c c',
  streams c' = streams c -> last_stream c' = last_stream c ->
  stream_count c' = stream_count c -> client c' = client c -> state c' = state c ->
  recently_reset c' = recently_reset c ->
  recently_reset_next c' = recently_reset_next c ->
  Inv c -> Inv c'.
Hypothesis P_store : forall c p f,
  (forall s, stream_id (f s) = stream_id s) -> Inv c -> Inv (stream_store p f c).
Hypothesis P_unlink : forall c p s,
  cno_stream_find c p = Some s -> Inv c -> Inv (stream_unlink p c).
Hypothesis P_new : forall id local,
  keeps Inv (fun _ => True) (cno_stream_new env id local).
Hypothesis P_remember : forall c id, Inv c -> Inv (remember_reset id c).

Local Abbreviation kept m := (keeps Inv (fun _ : cno_frame_t => True) m).

Lemma kept_stream_update p f :
  (forall s, stream_id (f s) = stream_id s) -> kept (stream_update p f).
Proof.
  intros Hf c H. destruct (cno_stream_find c p) as [s|] eqn:E.
  - rewrite (stream_update_ok _ _ _ _ E). split; [apply P_store; assumption | constructor].
  - unfold stream_update, bind, deref. rewrite E. split; [exact H | constructor].
Qed.

Lemma kept_stream_free p : kept (cno_stream_free p).
Proof.
  intros c H. destruct (cno_stream_find c p) as [s|] eqn:E.
  - rewrite (cno_stream_free_ok _ _ _ E). split; [eapply P_unlink; eassumption | constructor].
  - unfold cno_stream_free, bind, deref. rewrite E. split; [exact H | constructor].
Qed.

Lemma kept_frame_write f : kept (cno_frame_write env f).
Proof. apply keeps_frame_write; auto. Qed.

Ltac kept_side :=
  let c := fresh "c" in let H := fresh "H" in
  intros c H; apply (P_other c); [reflexivity .. | exact H].

Ltac kept_step :=
  lazymatch goal with
  | |- keeps Inv _ (bind _ _) => apply keeps_bind; [ | intro ]
  | |- keeps Inv _ (ret _) => apply keeps_ret
  | |- keeps Inv _ get => apply keeps_get
  | |- keeps Inv _ (CNO_ERROR _) => apply keeps_error
  | |- keeps Inv _ (get_stuck _) => apply keeps_stuck
  | |- keeps Inv _ (finish _) => apply keeps_finish
  | |- keeps Inv _ (attempt _) => apply keeps_attempt
  | |- keeps Inv _ (when _ _) => apply keeps_when
  | |- keeps Inv _ (modify _) => apply keeps_modify; kept_side
  | |- keeps Inv _ (CNO_FIRE _ _) => apply keeps_fire; exact Logic.I
  | |- keeps Inv _ (deref _) => apply keeps_deref
  | |- keeps Inv _ (stream_update _ _) => apply kept_stream_update; intros; reflexivity
  | |- keeps Inv _ (cno_stream_free _) => apply kept_stream_free
  | |- keeps Inv _ (cno_stream_new _ _ _) => apply P_new
  | |- keeps Inv _ (cno_frame_write _ _) => apply kept_frame_write
  | |- keeps Inv _ (if ?b then _ else _) => destruct b
  | |- keeps Inv _ (match ?x with _ => _ end) => destruct x
  | |- keeps Inv _ _ => solve [auto with kept]
  end.

Ltac kept_auto := cbv zeta; repeat kept_step.

Lemma kept_stream_rst p : kept (cno_stream_rst env p).
Proof. unfold cno_stream_rst. kept_auto. Qed.
#[local] Hint Resolve kept_stream_rst : kept.

Lemma kept_stream_rst_by_local p : kept (cno_stream_rst_by_local env p).
Proof.
  intros c H.
  destruct (cno_stream_find c p) as [s|] eqn:E.
  - assert (E2 : cno_stream_rst_by_local env p c
                 = cno_stream_rst env p (remember_reset (stream_id s) c)).
    { unfold cno_stream_rst_by_local, bind. rewrite (deref_ok _ _ _ E).
      cbn [modify]. cbv beta iota. unfold remember_reset.
      destruct (cno_stream_rst env p _) as [[c2 t2] r2]. reflexivity. }
    rewrite E2. apply kept_stream_rst. apply P_remember, H.
  - unfold cno_stream_rst_by_local, bind, deref. rewrite E. split; [exact H | constructor].
Qed.
#[local] Hint Resolve kept_stream_rst_by_local : kept.

Lemma kept_goaway code : kept (cno_frame_write_goaway env code).
Proof. unfold cno_frame_write_goaway. kept_auto. Qed.
#[local] Hint Resolve kept_goaway : kept.

Lemma kept_frame_write_settings previous current :
  kept (cno_frame_write_settings env previous current).
Proof. unfold cno_frame_write_settings. kept_auto. Qed.
#[local] Hint Resolve kept_frame_write_settings : kept.

Lemma kept_frame_write_rst_stream p code : kept (cno_frame_write_rst_stream env p code).
Proof. unfold cno_frame_write_rst_stream. kept_auto. Qed.
#[local] Hint Resolve kept_frame_write_rst_stream : kept.

Lemma kept_frame_write_error {A} code : kept (@cno_frame_write_error env A code).
Proof. unfold cno_frame_write_error. kept_auto. Qed.
#[local] Hint Resolve @kept_frame_write_error : kept.

Lemma kept_concat_continued data : kept (cno_buffer_dyn_concat_continued env data).
Proof. unfold cno_buffer_dyn_concat_continued. kept_auto. Qed.
#[local] Hint Resolve kept_concat_continued : kept.

Lemma kept_handle_end_stream p : kept (cno_frame_handle_end_stream env p).
Proof. unfold cno_frame_handle_end_stream. kept_auto. Qed.
#[local] Hint Resolve kept_handle_end_stream : kept.

Lemma kept_handle_message p frame msg : kept (cno_frame_handle_message env p frame msg).
Proof. unfold cno_frame_handle_message. kept_auto. Qed.
#[local] Hint Resolve kept_handle_message : kept.

Lemma kept_handle_end_headers p frame : kept (cno_frame_handle_end_headers env p frame).
Proof. unfold cno_frame_handle_end_headers. kept_auto. Qed.
#[local] Hint Resolve kept_handle_end_headers : kept.

Lemma kept_handle_padding frame : kept (cno_frame_handle_padding env frame).
Proof. unfold cno_frame_handle_padding. kept_auto. Qed.
#[local] Hint Resolve kept_handle_padding : kept.

Lemma kept_handle_priority_prefix stream_p frame :
  kept (cno_frame_handle_priority_prefix env stream_p frame).
Proof. unfold cno_frame_handle_priority_prefix. kept_auto. Qed.
#[local] Hint Resolve kept_handle_priority_prefix : kept.

Lemma kept_handle_invalid_stream frame : kept (cno_frame_handle_invalid_stream env frame).
Proof. unfold cno_frame_handle_invalid_stream. kept_auto. Qed.
#[local] Hint Resolve kept_handle_invalid_stream : kept.

Lemma kept_handle_headers stream_p frame : kept (cno_frame_handle_headers env stream_p frame).
Proof. unfold cno_frame_handle_headers. kept_auto. Qed.

Lemma kept_handle_push_promise stream_p frame :
  kept (cno_frame_handle_push_promise env stream_p frame).
Proof. unfold cno_frame_handle_push_promise. kept_auto. Qed.

Lemma kept_handle_continuation stream_p frame :
  kept (cno_frame_handle_continuation env stream_p frame).
Proof. unfold cno_frame_handle_continuation. kept_auto. Qed.

Lemma kept_handle_data stream_p frame : kept (cno_frame_handle_data env stream_p frame).
Proof. unfold cno_frame_handle_data. kept_auto. Qed.

Lemma kept_handle_ping stream_p frame : kept (cno_frame_handle_ping env stream_p frame).
Proof. unfold cno_frame_handle_ping. kept_auto. Qed.

Lemma kept_handle_goaway stream_p frame : kept (cno_frame_handle_goaway env stream_p frame).
Proof. unfold cno_frame_handle_goaway. kept_auto. Qed.

Lemma kept_handle_rst_stream stream_p frame :
  kept (cno_frame_handle_rst_stream env stream_p frame).
Proof. unfold cno_frame_handle_rst_stream. kept_auto. Qed.

Lemma kept_handle_priority stream_p frame :
  kept (cno_frame_handle_priority env stream_p frame).
Proof. unfold cno_frame_handle_priority. kept_auto. Qed.

Lemma kept_handle_settings stream_p frame :
  kept (cno_frame_handle_settings env stream_p frame).
Proof. unfold cno_frame_handle_settings. kept_auto. Qed.

Lemma kept_handle_window_update stream_p frame :
  kept (cno_frame_handle_window_update env stream_p frame).
Proof. unfold cno_frame_handle_window_update. kept_auto. Qed.

Lemma kept_frame_handle frame : kept (cno_frame_handle env frame).
Proof.
  unfold cno_frame_handle. apply keeps_bind; [apply keeps_get | intro c].
  destruct (_ && _); [kept_auto|].
  destruct (type frame >=? CNO_FRAME_UNKNOWN); [apply keeps_ret|].
  cbv zeta. unfold CNO_FRAME_HANDLERS.
  destruct (Z.to_nat (type frame)) as [|[|[|[|[|[|[|[|[|[|n]]]]]]]]]]; cbn [nth_error].
  - apply kept_handle_data.
  - apply kept_handle_headers.
  - apply kept_handle_priority.
  - apply kept_handle_rst_stream.
  - apply kept_handle_settings.
  - apply kept_handle_push_promise.
  - apply kept_handle_ping.
  - apply kept_handle_goaway.
  - apply kept_handle_window_update.
  - apply kept_handle_continuation.
  - destruct n; apply keeps_ret.
Qed.

Lemma kept_set_config new_settings : kept (cno_connection_set_config env new_settings).
Proof. unfold cno_connection_set_config. kept_auto. Qed.

Lemma kept_write_reset stream code : kept (cno_write_reset env stream code).
Proof. unfold cno_write_reset. kept_auto. Qed.

Lemma kept_discard_remaining_payload p : kept (cno_discard_remaining_payload env p).
Proof. unfold cno_discard_remaining_payload. kept_auto. Qed.
#[local] Hint Resolve kept_discard_remaining_payload : kept.

Lemma kept_write_data_return p length final :
  kept (cno_write_data_return env p length final).
Proof. unfold cno_write_data_return. kept_auto. Qed.
#[local] Hint Resolve kept_write_data_return : kept.

Lemma kept_write_data stream data final : kept (cno_write_data env stream data final).
Proof.
  unfold cno_write_data. cbv zeta. apply keeps_bind; [apply keeps_get | intro c].
  destruct (state_eqb (state c) CNO_CONNECTION_UNDEFINED); [kept_auto|].
  destruct (cno_stream_find c stream) as [streamobj|]; [|kept_auto].
  destruct (negb (has_flag (accept streamobj) CNO_ACCEPT_WRITE_DATA)); [kept_auto|].
  destruct (state_eqb (state c) CNO_CONNECTION_UNKNOWN_PROTOCOL); [kept_auto|].
  destruct (negb (cno_connection_is_http2 c)); [kept_auto|].
  destruct (_ || _); [kept_auto|].
  destruct (if zlen data >? u32 (conn_window_send c) then _ else _) as [length final'].
  destruct (if length >? u32 (window_send streamobj) then _ else _) as [length' final''].
  kept_auto.
Qed.

Lemma kept_write_ping data : kept (cno_write_ping env data).
Proof. unfold cno_write_ping. kept_auto. Qed.

Lemma kept_write_frame frame : kept (cno_write_frame env frame).
Proof. unfold cno_write_frame. kept_auto. Qed.

Lemma kept_increase_flow_window stream bytes :
  kept (cno_increase_flow_window env stream bytes).
Proof. unfold cno_increase_flow_window. kept_auto. Qed.

Variable cno_hpack_encode :
  cno_hpack_t -> list cno_header_t -> cno_hpack_t * (bytes + cno_error_kind).

Lemma kept_hpack_encode hs : kept (hpack_encode cno_hpack_encode hs).
Proof. unfold hpack_encode. kept_auto. Qed.
#[local] Hint Resolve kept_hpack_encode : kept.

Lemma kept_write_push stream msg : kept (cno_write_push env cno_hpack_encode stream msg).
Proof. unfold cno_write_push. kept_auto. Qed.

Lemma kept_write_message_http2 stream msg final :
  kept (cno_write_message_http2 env cno_hpack_encode stream msg final).
Proof. unfold cno_write_message_http2. kept_auto. Qed.

(** The driver and [cno_write_message], on a connection that speaks
    HTTP/2 frames. *)
Hypothesis P_framing : forall c, Inv c -> h2_framing (state c) = true.
Hypothesis P_state : forall c st,
  h2_framing st = true -> Inv c -> Inv (set_state st c).

Lemma kept_write_message stream msg final :
  kept (cno_write_message env cno_hpack_encode stream msg final).
Proof.
  intros c H. unfold cno_write_message. rewrite bind_get.
  assert (Hh2 : cno_connection_is_http2 c = true).
  { pose proof (P_framing c H) as Hf. unfold cno_connection_is_http2.
    destruct (state c); try discriminate Hf; reflexivity. }
  rewrite Hh2. cbn [negb andb].
  match goal with |- context [?m c] =>
    match m with
    | (if _ then _ else _) => assert (K : kept m); [|exact (K c H)]
    end
  end.
  destruct (state_eqb (state c) CNO_CONNECTION_UNDEFINED); [kept_auto|].
  cbv zeta. destruct (_ && final); [kept_auto|].
  apply keeps_bind; [kept_auto|intro p].
  apply keeps_bind;
    [apply keeps_bind; [apply kept_write_message_http2 | intro; apply keeps_ret] | intro inf].
  kept_auto.
Qed.

Lemma kept_proceed_ready : kept (cno_connection_proceed_ready env).
Proof.
  unfold cno_connection_proceed_ready, cno_buffer_dyn_shift_buffer.
  apply keeps_bind; [apply keeps_get | intro c]. cbv zeta.
  destruct (zlen (buffer c) <? 9); [kept_auto|].
  destruct (_ >? _); [kept_auto|].
  destruct (zlen (buffer c) <? _); [kept_auto|].
  destruct (_ && _); [kept_auto|].
  apply keeps_bind; [apply keeps_modify; intros; apply P_state; auto | intro].
  apply keeps_bind; [kept_auto | intro].
  apply keeps_bind; [apply keeps_get | intro c'].
  apply keeps_bind; [|intro; apply keeps_ret].
  apply keeps_when. apply keeps_bind; [kept_auto | intro]. apply kept_frame_handle.
Qed.

Lemma kept_connection_upgrade : kept (cno_connection_upgrade env).
Proof. unfold cno_connection_upgrade. kept_auto. Qed.

Lemma kept_proceed fuel : kept (cno_connection_proceed env fuel).
Proof.
  induction fuel as [|fuel IH]; cbn [cno_connection_proceed]; [apply keeps_stuck|].
  intros c Hc. rewrite bind_get.
  match goal with |- context [?m c] =>
    match m with
    | bind _ _ => assert (K : kept m); [|exact (K c Hc)]
    end
  end.
  apply keeps_bind; [|intros [|]; [exact IH | apply keeps_ret]].
  pose proof (P_framing c Hc) as Hst.
  destruct (state c); try discriminate Hst.
  - apply keeps_bind; [apply keeps_modify; intros; apply P_state; auto | intro].
    apply keeps_bind; [apply kept_connection_upgrade | intro]. apply keeps_ret.
  - unfold cno_buffer_dyn_shift_buffer.
    destruct (negb (client c)).
    + destruct (_ <? _); [apply keeps_ret|].
      destruct (negb _); [apply keeps_error|].
      apply keeps_bind; [kept_auto | intro].
      apply keeps_bind; [apply keeps_modify; intros; apply P_state; auto | intro].
      apply keeps_ret.
    + apply keeps_bind; [apply keeps_modify; intros; apply P_state; auto | intro].
      apply keeps_ret.
  - apply kept_proceed_ready.
  - apply kept_proceed_ready.
Qed.

Lemma kept_data_received fuel data : kept (cno_connection_data_received env fuel data).
Proof.
  unfold cno_connection_data_received, cno_buffer_dyn_concat_buffer.
  apply keeps_bind; [apply keeps_get | intro c].
  destruct (state_eqb _ _); [apply keeps_error|].
  apply keeps_bind; [kept_auto | intro]. apply kept_proceed.
Qed.

End Preserved.

(** ** The engine keeps its stream table well formed *)

Lemma h2_framing_http2 c : h2_framing (state c) = true -> cno_connection_is_http2 c = true.
Proof.
  unfold cno_connection_is_http2. destruct (state c); try discriminate; reflexivity.
Qed.

Section EngineOk.

Variable env : cno_env.

Lemma engine_ok_other : forall c c',
  streams c' = streams c -> last_stream c' = last_stream c ->
  stream_count c' = stream_count c -> client c' = client c -> state c' = state c ->
  recently_reset c' = recently_reset c ->
  recently_reset_next c' = recently_reset_next c ->
  engine_ok c -> engine_ok c'.
Proof.
  intros c c' Hs Hl Hn Hc Hst Hr Hrn (T & R & S). split; [|split].
  - apply (table_ok_same_ids c); auto. intros b. unfold bucket_ids. rewrite Hs. reflexivity.
  - unfold ring_ok. rewrite Hr, Hrn. exact R.
  - rewrite Hst. exact S.
Qed.

Lemma engine_ok_store : forall c p f,
  (forall s, stream_id (f s) = stream_id s) -> engine_ok c -> engine_ok (stream_store p f c).
Proof.
  intros c p f Hf (T & R & S). split; [|split]; [apply table_ok_store; assumption | exact R | exact S].
Qed.

Lemma engine_ok_unlink : forall c p s,
  cno_stream_find c p = Some s -> engine_ok c -> engine_ok (stream_unlink p c).
Proof.
  intros c p s Hs (T & R & S). split; [|split]; [|exact R | exact S].
  apply table_ok_unlink; [exact T|]. apply find_In_ids. eexists. exact Hs.
Qed.

Lemma engine_ok_remember : forall c id, engine_ok c -> engine_ok (remember_reset id c).
Proof.
  intros c id (T & (R1 & R2) & S). split; [|split]; [|split|exact S].
  - apply (table_ok_same_ids c); auto.
  - unfold remember_reset. cbn [recently_reset set_recently_reset set_recently_reset_next].
    rewrite list_set_length. exact R1.
  - unfold remember_reset. cbn [recently_reset_next set_recently_reset_next].
    apply Z.mod_pos_bound. reflexivity.
Qed.

Lemma engine_ok_new : forall id local, keeps engine_ok (fun _ => True) (cno_stream_new env id local).
Proof.
  intros id local c (T & R & S).
  pose proof (h2_framing_http2 c S) as Hh2.
  destruct (cno_stream_new_failed env c id local Hh2)
    as [(k & E)|(Hloc & Hid & Hcnt & Hm)].
  - rewrite E. split; [exact (conj T (conj R S)) | constructor].
  - rewrite cno_stream_new_passed; auto; [|rewrite Hh2; exact Hid].
    destruct (callback env (on_stream_start id)); (split; [|repeat constructor]).
    + split; [|split]; [|exact R | exact S].
      apply table_ok_rollback; [exact T | lia].
    + split; [|split]; [|exact R | exact S].
      apply table_ok_link; auto.
Qed.

Lemma engine_ok_framing : forall c, engine_ok c -> h2_framing (state c) = true.
Proof. intros c (_ & _ & S). exact S. Qed.

Lemma engine_ok_state : forall c st, h2_framing st = true -> engine_ok c -> engine_ok (set_state st c).
Proof.
  intros c st Hst (T & R & S). split; [|split]; [|exact R | exact Hst].
  apply (table_ok_same_ids c); auto.
Qed.

Lemma engine_ok_init kind :
  table_ok (cno_connection_init env kind) /\ ring_ok (cno_connection_init env kind).
Proof.
  split; [|split; [reflexivity | cbv; split; [discriminate | reflexivity]]].
  repeat split.
  - intros b id H. destruct H.
  - intros b. constructor.
  - intros b id H. destruct H.
  - intros local. unfold side_ids, table_ids.
    replace (flat_map (bucket_ids (cno_connection_init env kind)) stream_buckets)
      with (@nil Z).
    + destruct local; reflexivity.
    + generalize stream_buckets. intros l. induction l; [reflexivity | exact IHl].
Qed.

Ltac engine_side :=
  first [ exact engine_ok_other | exact engine_ok_store | exact engine_ok_unlink | exact engine_ok_new
        | exact engine_ok_remember | exact engine_ok_framing | exact engine_ok_state ].

Variable cno_hpack_encode :
  cno_hpack_t -> list cno_header_t -> cno_hpack_t * (bytes + cno_error_kind).


End EngineOk.

Lemma chain_remove_find_none p l :
  NoDup (map stream_id l) ->
  find (fun s => stream_id s =? p) (chain_remove p l) = None.
Proof.
  induction l as [|x l IH]; intros Hnd; cbn; [reflexivity|].
  inversion Hnd as [|? ? Hnot Hnd']; subst.
  destruct (stream_id x =? p) eqn:E.
  - apply Z.eqb_eq in E. subst p.
    destruct (find (fun s => stream_id s =? stream_id x) l) as [s|] eqn:F; [|reflexivity].
    exfalso. apply Hnot. apply find_some in F. destruct F as [Hin Hid].
    apply Z.eqb_eq in Hid. rewrite <- Hid. apply in_map. exact Hin.
  - cbn. rewrite E. apply IH. exact Hnd'.
Qed.

Section UseAfterFree.

Variable env : cno_env.
Hypothesis callbacks_ok : forall e, callback env e = None.

(** X7.  Trailers that depend on themselves.  A HEADERS frame with
    END_STREAM and PRIORITY, on a stream that accepts trailers and no longer
    headers, whose priority block names the stream itself:
    [cno_frame_handle_priority_prefix] sends RST_STREAM(PROTOCOL_ERROR)
    through [cno_frame_write_rst_stream], which destroys the stream (it no
    longer accepts headers) and returns [CNO_OK] after [on_stream_end]; back
    in [cno_frame_handle_headers] the next statement reads [stream->id] of
    the stream that has just been freed. *)
Theorem cno_frame_handle_headers_self_dependent_trailers
        (c : cno_connection_t) (s : cno_stream_t) (frame : cno_frame_t) :
  continued_stream c = 0 ->
  type frame = CNO_FRAME_HEADERS ->
  cno_stream_find c (stream frame) = Some s ->
  NoDup (map stream_id (streams c (bucket_of (stream frame)))) ->
  has_flag (accept s) CNO_ACCEPT_TRAILERS = true ->
  has_flag (accept s) CNO_ACCEPT_HEADERS = false ->
  has_flag (flags frame) CNO_FLAG_PADDED = false ->
  has_flag (flags frame) CNO_FLAG_END_STREAM = true ->
  has_flag (flags frame) CNO_FLAG_PRIORITY = true ->
  5 <= zlen (payload frame) ->
  Z.land (read4 (payload frame)) 2147483647 = stream frame ->
  peer_accepts c 4 ->
  let out := cno_frame_handle env frame c in
  trace_of out
  = wire (rst_stream_frame (stream frame) CNO_RST_PROTOCOL_ERROR)
    ++ [on_stream_end (stream frame)]
  /\ cno_stream_find (conn_of out) (stream frame) = None
  /\ result_of out = Stuck FREED_STREAM.
Proof using callbacks_ok.
  intros Hcont Hty Hfind Hnd Htr Hh Hpad Hend Hprio Hlen Hself Hp out.
  set (p := stream frame) in *.
  pose proof (find_stream_id _ _ _ Hfind) as Hid.
  set (f := fun s0 => stream_set_accept (clear_flag (accept s0) CNO_ACCEPT_DATA) s0).
  set (c1 := stream_store p f c).
  assert (Hfind1 : cno_stream_find c1 p = Some (f s))
    by (apply find_stream_store; [exact Hfind | exact Hid]).
  assert (Hh1 : has_flag (accept (f s)) CNO_ACCEPT_HEADERS = false).
  { apply has_flag_false. cbn [f accept stream_set_accept].
    apply clear_flag_zero. apply has_flag_false. exact Hh. }
  set (c2 := stream_unlink p (remember_reset p c1)).
  assert (Hgone : forall c3, streams c3 = streams c2 -> cno_stream_find c3 p = None).
  { intros c3 E. unfold cno_stream_find. rewrite E.
    unfold c2, stream_unlink, set_bucket. cbn [streams set_streams].
    rewrite Z.eqb_refl.
    change (streams (stream_count_add _ _ _) (bucket_of p))
      with (streams c1 (bucket_of p)).
    apply chain_remove_find_none.
    unfold c1, stream_store, set_bucket, remember_reset.
    cbn [streams set_streams set_recently_reset_next set_recently_reset].
    rewrite Z.eqb_refl.
    rewrite chain_update_ids by reflexivity. exact Hnd. }
  assert (Hrun : out = (set_continued_flags (Z.land (flags frame) CNO_FLAG_END_STREAM) c2,
                        wire (rst_stream_frame p CNO_RST_PROTOCOL_ERROR) ++ [on_stream_end p],
                        Stuck FREED_STREAM)).
  { subst out. unfold cno_frame_handle. rewrite bind_get, Hcont. cbn [Z.eqb negb andb].
    rewrite Hty. cbn [Z.geb Z.compare Pos.compare Pos.compare_cont CNO_FRAME_HEADERS
                      CNO_FRAME_UNKNOWN].
    cbv zeta. fold p. rewrite Hfind. cbn [option_map]. rewrite Hid.
    unfold CNO_FRAME_HANDLERS. change (Z.to_nat CNO_FRAME_HEADERS) with 1%nat.
    cbn [nth_error].
    unfold cno_frame_handle_headers, cno_frame_handle_padding. rewrite Hpad.
    rewrite bind_ret, bind_ret. unfold bind at 1. rewrite (deref_ok _ _ _ Hfind).
    rewrite Htr. unfold bind at 1. unfold bind at 1.
    rewrite (stream_update_ok _ _ _ _ Hfind). fold f. fold c1.
    rewrite Hend. cbn [negb]. unfold ret at 1. cbv beta iota.
    rewrite Hprio.
    replace (zlen (payload frame) <? 5) with false by (symmetry; apply Z.ltb_ge; lia).
    unfold bind at 1. unfold bind at 1.
    unfold cno_frame_handle_priority_prefix. cbv zeta. fold p. rewrite Hself, Z.eqb_refl.
    rewrite (frame_write_rst_stream_ok env callbacks_ok c1 p (f s) _ Hfind1 Hp).
    unfold rst_stream_state, rst_stream_trace. rewrite Hh1. cbn [negb].
    fold c2. unfold ret at 1. cbv beta iota.
    rewrite bind_modify. unfold bind. unfold deref.
    match goal with |- context [cno_stream_find ?x p] => rewrite (Hgone x eq_refl) end.
    cbn [flags frame_set_payload]. rewrite ?app_nil_l, ?app_nil_r. reflexivity. }
  rewrite Hrun. unfold trace_of, conn_of, result_of. cbn [fst snd].
  split; [reflexivity|]. split; [|reflexivity].
  apply Hgone. reflexivity.
Qed.

End UseAfterFree.

Section Lost.

Variable env : cno_env.
Hypothesis callbacks_ok : forall e, callback env e = None.

Lemma lost_bucket_run b : forall l fuel c,
  streams c b = l ->
  (forall s, In s l -> bucket_of (stream_id s) = b) ->
  (List.length l <= fuel)%nat ->
  exists c',
    cno_connection_lost_bucket env fuel b c
    = (c', map on_stream_end (map stream_id l), Ok tt)
    /\ streams c' b = []
    /\ (forall b', b' <> b -> streams c' b' = streams c b')
    /\ state c' = state c /\ last_stream c' = last_stream c.
Proof using callbacks_ok.
  induction l as [|s l IH]; intros fuel c Hl Hb Hf.
  - exists c. split; [|auto].
    destruct fuel; cbn [cno_connection_lost_bucket]; rewrite bind_get, Hl; reflexivity.
  - destruct fuel as [|fuel]; [cbn in Hf; lia|].
    cbn [cno_connection_lost_bucket]. rewrite bind_get, Hl.
    assert (Hbs : bucket_of (stream_id s) = b) by (apply Hb; left; reflexivity).
    assert (Hfind : cno_stream_find c (stream_id s) = Some s).
    { unfold cno_stream_find. rewrite Hbs, Hl. cbn [find]. rewrite Z.eqb_refl. reflexivity. }
    unfold bind. rewrite (cno_stream_rst_ok env callbacks_ok _ _ _ Hfind).
    assert (Hl' : streams (stream_unlink (stream_id s) c) b = l).
    { unfold stream_unlink, set_bucket. cbn [streams set_streams]. rewrite Hbs, Z.eqb_refl.
      change (streams (stream_count_add _ _ c) b) with (streams c b).
      rewrite Hl. cbn [chain_remove]. rewrite Z.eqb_refl. reflexivity. }
    destruct (IH fuel (stream_unlink (stream_id s) c) Hl'
                 (fun s' H => Hb s' (or_intror H)) ltac:(cbn in Hf; lia))
      as (c' & Hrun & He & Ho & Hst & Hls).
    exists c'. rewrite Hrun. split; [reflexivity|]. split; [exact He|].
    split; [|split; [rewrite Hst; reflexivity | rewrite Hls; reflexivity]].
    intros b' Hne. rewrite (Ho b' Hne).
    unfold stream_unlink, set_bucket. cbn [streams set_streams]. rewrite Hbs.
    apply Z.eqb_neq in Hne. rewrite Hne. reflexivity.
Qed.

Lemma lost_buckets_run fuel : forall bs c,
  NoDup bs ->
  (forall b s, In b bs -> In s (streams c b) -> bucket_of (stream_id s) = b) ->
  (forall b, In b bs -> (List.length (streams c b) <= fuel)%nat) ->
  exists c',
    cno_connection_lost_buckets env fuel bs c
    = (c', map on_stream_end (flat_map (bucket_ids c) bs), Ok tt)
    /\ (forall b, In b bs -> streams c' b = [])
    /\ (forall b, ~ In b bs -> streams c' b = streams c b)
    /\ state c' = state c /\ last_stream c' = last_stream c.
Proof using callbacks_ok.
  induction bs as [|b bs IH]; intros c Hnd Hb Hf.
  - exists c. cbn. split; [reflexivity|]. split; [tauto|]. auto.
  - inversion Hnd as [|? ? Hnot Hnd']; subst.
    destruct (lost_bucket_run b (streams c b) fuel c eq_refl
                (fun s H => Hb b s (or_introl eq_refl) H) (Hf b (or_introl eq_refl)))
      as (c1 & Hrun1 & He1 & Ho1 & Hst1 & Hls1).
    assert (Hsame : forall b', In b' bs -> streams c1 b' = streams c b').
    { intros b' Hin. apply Ho1. intros ->. contradiction. }
    destruct (IH c1 Hnd') as (c2 & Hrun2 & He2 & Ho2 & Hst2 & Hls2).
    + intros b' s Hin Hs. rewrite (Hsame b' Hin) in Hs. apply (Hb b' s); [right|]; assumption.
    + intros b' Hin. rewrite (Hsame b' Hin). apply Hf. right. exact Hin.
    + exists c2. cbn [cno_connection_lost_buckets flat_map]. unfold bind.
      rewrite Hrun1, Hrun2. split; [|split; [|split; [|split]]].
      * rewrite map_app. unfold bucket_ids at 2.
        replace (flat_map (bucket_ids c1) bs) with (flat_map (bucket_ids c) bs);
          [reflexivity|].
        apply flat_map_agree. intros b' Hin. unfold bucket_ids. rewrite (Hsame b' Hin).
        reflexivity.
      * intros b' [<-|Hin]; [|apply He2; exact Hin].
        rewrite (Ho2 b Hnot). exact He1.
      * intros b' Hn. rewrite Ho2 by (intros H; apply Hn; right; exact H).
        apply Ho1. intros ->. apply Hn. left. reflexivity.
      * rewrite Hst2. exact Hst1.
      * rewrite Hls2. exact Hls1.
Qed.

(** X9.  [cno_connection_lost] on a connection in HTTP/2 mode whose
    streams hang in the buckets of their ids: the state becomes UNDEFINED,
    [on_stream_end] is fired once for every stream of the table, bucket by
    bucket and from the head of each chain, no stream is left, [last_stream]
    is kept and the result is [CNO_OK]. *)
Theorem cno_connection_lost_ends_every_stream (c : cno_connection_t) (fuel : nat) :
  cno_connection_is_http2 c = true ->
  (forall b s, In s (streams c b) -> bucket_of (stream_id s) = b) ->
  (forall b, (List.length (streams c b) <= fuel)%nat) ->
  let out := cno_connection_lost env fuel c in
  result_of out = Ok tt
  /\ trace_of out = map on_stream_end (table_ids c)
  /\ state (conn_of out) = CNO_CONNECTION_UNDEFINED
  /\ (forall id, cno_stream_find (conn_of out) id = None)
  /\ last_stream (conn_of out) = last_stream c.
Proof using callbacks_ok.
  intros Hh2 Hb Hf out. subst out.
  unfold cno_connection_lost. rewrite bind_get, Hh2. cbn [negb]. rewrite bind_modify.
  destruct (lost_buckets_run fuel stream_buckets (set_state CNO_CONNECTION_UNDEFINED c)
              stream_buckets_NoDup (fun b s _ H => Hb b s H) (fun b _ => Hf b))
    as (c' & Hrun & He & _ & Hst & Hls).
  rewrite Hrun. unfold result_of, trace_of, conn_of. cbn [fst snd].
  split; [reflexivity|]. split; [reflexivity|]. split; [exact Hst|]. split; [|exact Hls].
  intros id. unfold cno_stream_find. rewrite He; [reflexivity|].
  apply stream_buckets_In. apply bucket_of_range.
Qed.

(** X10.  The id that [cno_connection_next_stream] proposes is one that
    [cno_stream_new] takes for the local side: it has the parity of the
    local side and exceeds [last_stream] of that side, so the call is never
    refused with INVALID_STREAM; it fails only for want of a free slot
    (WOULD_BLOCK) or of memory, and otherwise creates the stream with that
    id.  [last_stream] of the local side is 0 or an id of the local side,
    and below [2 ^ 32 - 2]. *)
Theorem cno_connection_next_stream_is_new (c : cno_connection_t) :
  cno_connection_is_http2 c = true ->
  side_get (last_stream c) CNO_LOCAL = 0
  \/ (0 < side_get (last_stream c) CNO_LOCAL
      /\ cno_stream_is_local c (side_get (last_stream c) CNO_LOCAL) = true) ->
  side_get (last_stream c) CNO_LOCAL + 2 < 2 ^ 32 ->
  let id := cno_connection_next_stream c in
  let out := cno_stream_new env id CNO_LOCAL c in
  cno_stream_is_local c id = true
  /\ side_get (last_stream c) CNO_LOCAL < id
  /\ (result_of out = Ok id \/ result_of out = Err WOULD_BLOCK
      \/ result_of out = Err NO_MEMORY)
  /\ (side_get (stream_count c) CNO_LOCAL
      < max_concurrent_streams (side_get (settings c) CNO_REMOTE) ->
      malloc_ok env = true ->
      result_of out = Ok id
      /\ side_get (last_stream (conn_of out)) CNO_LOCAL = id
      /\ exists s, cno_stream_find (conn_of out) id = Some s /\ stream_id s = id).
Proof using callbacks_ok.
  intros Hh2 Hlast Hmax id out.
  change (2 ^ 32) with 4294967296 in Hmax.
  assert (Hid : cno_stream_is_local c id = true /\ side_get (last_stream c) CNO_LOCAL < id).
  { subst id. unfold cno_connection_next_stream. rewrite Hh2. cbn [negb]. cbv zeta.
    unfold cno_stream_is_local in *.
    destruct Hlast as [H0 | [Hpos Hpar]].
    - rewrite H0. cbn [Z.eqb]. rewrite andb_true_r.
      destruct (client c); cbn; split; reflexivity.
    - replace (side_get (last_stream c) CNO_LOCAL =? 0) with false
        by (symmetry; apply Z.eqb_neq; lia).
      rewrite andb_false_r. unfold u32.
      rewrite (Z.mod_small (_ + 2) 4294967296) by lia.
      split; [|lia]. apply Z.eqb_eq in Hpar. apply Z.eqb_eq.
      rewrite <- Hpar. rewrite <- (Z.mul_1_l 2) at 1. apply Z.mod_add. lia. }
  destruct Hid as [Hloc Hgt]. split; [exact Hloc|]. split; [exact Hgt|].
  assert (Hrun : side_get (stream_count c) CNO_LOCAL
                 < max_concurrent_streams (side_get (settings c) CNO_REMOTE) ->
                 malloc_ok env = true ->
                 result_of out = Ok id
                 /\ side_get (last_stream (conn_of out)) CNO_LOCAL = id
                 /\ exists s, cno_stream_find (conn_of out) id = Some s /\ stream_id s = id).
  { intros Hcnt Hmem. subst out.
    rewrite (cno_stream_new_passed env c id CNO_LOCAL Hloc);
      [|rewrite Hh2; exact Hgt | exact Hcnt | exact Hmem].
    rewrite callbacks_ok. unfold result_of, conn_of. cbn [fst snd].
    split; [reflexivity|]. split.
    - cbn [last_stream stream_count_add set_stream_count set_bucket set_streams
             set_last_stream]. rewrite side_get_set. reflexivity.
    - exists (mk_stream id 0
                (i32 (initial_window_size (side_get (settings c) CNO_LOCAL)))
                (i32 (initial_window_size (side_get (settings c) CNO_REMOTE)))).
      split; [|reflexivity].
      unfold cno_stream_find, stream_count_add, set_stream_count, set_bucket, set_streams.
      cbn [streams]. rewrite Z.eqb_refl. cbn [find stream_id]. rewrite Z.eqb_refl.
      reflexivity. }
  split.
  - destruct (side_get (stream_count c) CNO_LOCAL
              >=? max_concurrent_streams (side_get (settings c) CNO_REMOTE)) eqn:Ecnt.
    + right. left. subst out. unfold cno_stream_new. rewrite bind_get, Hloc.
      cbn [Bool.eqb negb CNO_LOCAL]. rewrite Hh2. cbn [andb negb].
      replace (id <=? side_get (last_stream c) CNO_LOCAL) with false
        by (symmetry; apply Z.leb_gt; exact Hgt).
      change (side_get (settings c) false) with (side_get (settings c) CNO_REMOTE).
      rewrite Ecnt. reflexivity.
    + destruct (malloc_ok env) eqn:Emem.
      * left. apply Hrun; [|reflexivity].
        rewrite Z.geb_leb in Ecnt. apply Z.leb_gt in Ecnt. exact Ecnt.
      * right. right. subst out. unfold cno_stream_new. rewrite bind_get, Hloc.
        cbn [Bool.eqb negb CNO_LOCAL]. rewrite Hh2. cbn [andb negb].
        replace (id <=? side_get (last_stream c) CNO_LOCAL) with false
          by (symmetry; apply Z.leb_gt; exact Hgt).
        change (side_get (settings c) false) with (side_get (settings c) CNO_REMOTE).
        rewrite Ecnt, Emem. reflexivity.
  - exact Hrun.
Qed.

End Lost.

Lemma ztake_snoc2 {A} (l : list A) (a b : A) n :
  zlen l + 1 = n -> ztake n (l ++ [a; b]) = l ++ [a].
Proof.
  intros H. unfold ztake, zlen in *.
  replace (Z.to_nat n) with (List.length (l ++ [a])) by (rewrite length_app; cbn; lia).
  change (l ++ [a; b]) with (l ++ ([a] ++ [b])). rewrite app_assoc.
  rewrite firstn_app, Nat.sub_diag, firstn_all. cbn. apply app_nil_r.
Qed.

Section Http1.

Variable env : cno_env.
Hypothesis callbacks_ok : forall e, callback env e = None.
Variable cno_hpack_encode :
  cno_hpack_t -> list cno_header_t -> cno_hpack_t * (bytes + cno_error_kind).

Lemma write_http1_header_cut (n v : string) c :
  zlen (fmt_s n ++ bytes_of_string ": " ++ fmt_s v) = 2049 ->
  write_http1_header env n v c
  = (c, [on_write (fmt_s n ++ bytes_of_string ": " ++ fmt_s v ++ [13; 0])], Ok tt).
Proof using callbacks_ok.
  intros Hlen. unfold write_http1_header. cbv zeta.
  set (body := fmt_s n ++ bytes_of_string ": " ++ fmt_s v) in *.
  replace (fmt_s n ++ bytes_of_string ": " ++ fmt_s v ++ [13; 10]) with (body ++ [13; 10])
    by (unfold body; rewrite <- !app_assoc; reflexivity).
  replace (fmt_s n ++ bytes_of_string ": " ++ fmt_s v ++ [13; 0]) with (body ++ [13; 0])
    by (unfold body; rewrite <- !app_assoc; reflexivity).
  assert (Hz : zlen (body ++ [13; 10]) = 2051).
  { unfold zlen in *. rewrite length_app. cbn [List.length]. lia. }
  rewrite Hz. change (2051 >? CNO_MAX_HTTP1_HEADER_SIZE + 3) with false.
  change (negb (2051 =? 0)) with true. cbv iota.
  unfold snprintf_written. rewrite Hz.
  change (2051 <? CNO_MAX_HTTP1_HEADER_SIZE + 3) with false. cbv iota.
  change (CNO_MAX_HTTP1_HEADER_SIZE + 3 - 1) with 2050.
  rewrite (ztake_snoc2 body 13 10 2050) by lia.
  rewrite <- app_assoc. apply (fire_ok env callbacks_ok).
Qed.

Lemma has_flag_lor x f : f <> 0 -> has_flag (Z.lor x f) f = true.
Proof.
  intros Hf. unfold has_flag. apply negb_true_iff, Z.eqb_neq.
  replace (Z.land (Z.lor x f) f) with f; [exact Hf|].
  apply Z.bits_inj'. intros n _. rewrite Z.land_spec, Z.lor_spec.
  destruct (Z.testbit x n), (Z.testbit f n); reflexivity.
Qed.

Lemma write_message_http1_cut c h :
  client c = false ->
  state c = CNO_CONNECTION_HTTP1_READY ->
  ordinary_header_name (name h) ->
  zlen (http1_header_line h ++ [13; 10]) = 2051 ->
  cno_write_message_http1 env (mk_message 200 None None [h]) false false c
  = (set_conn_flags (Z.lor (conn_flags c) CNO_CONN_FLAG_WRITING_CHUNKED) c,
     [on_write (bytes_of_string "HTTP/1.1 200 Something" ++ [13; 10]);
      on_write (http1_header_line h ++ [13; 0]);
      on_write (bytes_of_string "transfer-encoding: chunked" ++ [13; 10]);
      on_write (bytes_of_string "connection: keep-alive" ++ [13; 10]);
      on_write [13; 10]],
     Ok false).
Proof using callbacks_ok.
  intros Hcl Hst (N1 & N2 & N3 & N4 & N5 & N6) Hlen.
  assert (Hbody : zlen (fmt_s (name h) ++ bytes_of_string ": " ++ fmt_s (value h)) = 2049).
  { unfold http1_header_line in Hlen. unfold zlen in *.
    rewrite length_app in Hlen. cbn [List.length] in Hlen. lia. }
  unfold cno_write_message_http1. rewrite bind_get, Hcl. cbv zeta.
  cbn [code method path headers].
  change (bytes_of_string "HTTP/1.1 " ++ fmt_d 200 ++ bytes_of_string " Something" ++ [13; 10])
    with (bytes_of_string "HTTP/1.1 200 Something" ++ [13; 10]).
  change (zlen (bytes_of_string "HTTP/1.1 200 Something" ++ [13; 10])
          >? CNO_MAX_HTTP1_HEADER_SIZE) with false.
  cbv iota. unfold bind at 1. rewrite (fire_ok env callbacks_ok).
  rewrite bind_modify. cbn [orb].
  set (c1 := set_conn_flags _ c).
  cbn [write_http1_headers]. rewrite N1, N2, N3, N4, N5, N6. cbn [orb].
  unfold bind at 1. unfold bind at 1.
  rewrite (write_http1_header_cut _ _ c1 Hbody).
  unfold ret at 1. cbv beta iota.
  rewrite bind_get.
  assert (Hch : has_flag (conn_flags c1) CNO_CONN_FLAG_WRITING_CHUNKED = true)
    by (apply has_flag_lor; discriminate).
  rewrite Hch. cbn [when negb].
  unfold bind at 1. rewrite (fire_ok env callbacks_ok).
  unfold bind at 1. rewrite (fire_ok env callbacks_ok).
  unfold bind at 1. rewrite (fire_ok env callbacks_ok).
  rewrite bind_get. change (200 =? 101) with false. cbn [andb].
  unfold ret, http1_header_line. rewrite <- !app_assoc. reflexivity.
Qed.

(** X11.  A header line that is one byte too long for the buffer.  In
    HTTP/1.x mode [cno_write_message] formats every header with [snprintf]
    into a buffer of 2051 bytes and refuses the header only when the length
    that [snprintf] returns exceeds 2051.  When the line, with its CR LF, has
    exactly 2051 bytes, [snprintf] has stored its first 2050 bytes and a
    terminator, and these 2051 bytes go to [on_write]: the line ends with
    CR NUL instead of CR LF, and the call succeeds. *)
Theorem cno_write_message_http1_header_line_cut
        (c : cno_connection_t) (stream : Z) (s : cno_stream_t) (h : cno_header_t) :
  client c = false ->
  state c = CNO_CONNECTION_HTTP1_READY ->
  cno_stream_find c stream = Some s ->
  has_flag (accept s) CNO_ACCEPT_WRITE_HEADERS = true ->
  ordinary_header_name (name h) ->
  zlen (http1_header_line h ++ [13; 10]) = 2051 ->
  let out := cno_write_message env cno_hpack_encode stream (mk_message 200 None None [h])
                               false c in
  result_of out = Ok tt
  /\ trace_of out
     = [on_write (bytes_of_string "HTTP/1.1 200 Something" ++ [13; 10]);
        on_write (http1_header_line h ++ [13; 0]);
        on_write (bytes_of_string "transfer-encoding: chunked" ++ [13; 10]);
        on_write (bytes_of_string "connection: keep-alive" ++ [13; 10]);
        on_write [13; 10]]
  /\ zlen (http1_header_line h ++ [13; 0]) = 2051.
Proof using callbacks_ok.
  intros Hcl Hst Hfind Hacc Hord Hlen out.
  assert (Hh2 : cno_connection_is_http2 c = false)
    by (unfold cno_connection_is_http2; rewrite Hst; reflexivity).
  pose proof (find_stream_id _ _ _ Hfind) as Hid.
  assert (Hrun : exists c', out = (c',
     [on_write (bytes_of_string "HTTP/1.1 200 Something" ++ [13; 10]);
      on_write (http1_header_line h ++ [13; 0]);
      on_write (bytes_of_string "transfer-encoding: chunked" ++ [13; 10]);
      on_write (bytes_of_string "connection: keep-alive" ++ [13; 10]);
      on_write [13; 10]], Ok tt)).
  { subst out. unfold cno_write_message. rewrite bind_get, Hst. cbn [state_eqb].
    cbn [code]. change ((100 <=? 200) && (200 <? 200)) with false.
    cbn [andb]. rewrite Hcl, Hfind, Hacc. cbn [negb]. rewrite bind_ret, Hh2. cbn [negb].
    rewrite (bind_Ok _ _ _ _ _ _ (write_message_http1_cut c h Hcl Hst Hord Hlen)).
    cbn [negb when].
    set (c1 := set_conn_flags _ c).
    assert (Hfind1 : cno_stream_find c1 stream = Some s) by exact Hfind.
    rewrite Hid. unfold bind.
    rewrite (stream_update_ok _ _ _ _ Hfind1).
    erewrite stream_update_ok by (apply find_stream_store; [exact Hfind1 | exact Hid]).
    unfold conn_of, trace_of, result_of. cbn [fst snd]. rewrite !app_nil_r.
    eexists. reflexivity. }
  destruct Hrun as (c' & ->). unfold result_of, trace_of. cbn [fst snd].
  split; [reflexivity|]. split; [reflexivity|].
  unfold zlen in *. rewrite length_app in *. cbn [List.length] in *. lia.
Qed.

End Http1.

Lemma list_set_In {A} (l : list A) : forall i v,
  (i < List.length l)%nat -> In v (list_set l i v).
Proof.
  induction l as [|x l IH]; intros [|i] v H; cbn in *; try lia.
  - left. reflexivity.
  - right. apply IH. lia.
Qed.

Lemma existsb_In_eqb (l : list Z) x : In x l -> existsb (fun r => r =? x) l = true.
Proof.
  intros H. apply existsb_exists. exists x. split; [exact H | apply Z.eqb_refl].
Qed.

Section Remembered.

Variable env : cno_env.
Hypothesis callbacks_ok : forall e, callback env e = None.

(** X12.  A stream that the local side resets is remembered.
    [cno_write_reset] on a stream whose headers have been handled sends
    RST_STREAM, destroys the stream, fires [on_stream_end] and enters the id
    in the ring of recently reset streams; a RST_STREAM or DATA frame that
    the peer had already sent on that stream is then ignored by
    [cno_frame_handle] (a DATA frame is still counted for the connection
    window), where a frame on a stream that never was would end the
    connection with GOAWAY.  The id occurs once in its bucket and is not
    above [last_stream], which a well-formed stream table ensures. *)
Theorem cno_write_reset_is_remembered
        (c : cno_connection_t) (sid : Z) (s : cno_stream_t) (code : Z) :
  cno_connection_is_http2 c = true ->
  NoDup (map stream_id (streams c (bucket_of sid))) ->
  sid <= side_get (last_stream c) (cno_stream_is_local c sid) ->
  ring_ok c ->
  cno_stream_find c sid = Some s ->
  sid <> 0 ->
  has_flag (accept s) CNO_ACCEPT_HEADERS = false ->
  continued_stream c = 0 ->
  peer_accepts c 4 ->
  let c' := conn_of (cno_write_reset env sid code c) in
  cno_write_reset env sid code c
  = (c', wire (rst_stream_frame sid code) ++ [on_stream_end sid], Ok tt)
  /\ cno_stream_find c' sid = None
  /\ In sid (recently_reset c')
  /\ (forall data,
        cno_frame_handle env (mk_frame CNO_FRAME_RST_STREAM 0 sid data) c'
        = (c', [], Ok tt))
  /\ (forall data, 0 < zlen data < 2 ^ 32 ->
        cno_frame_handle env (mk_frame CNO_FRAME_DATA 0 sid data) c'
        = (c', wire (window_update_frame 0 (zlen data)), Ok tt)).
Proof using callbacks_ok.
  intros Hh2 Tn Tl (R1 & R2) Hfind Hne Hacc Hcont Hp c'.
  pose proof (find_stream_id _ _ _ Hfind) as Hid.
  assert (Hrun : cno_write_reset env sid code c
                 = (stream_unlink sid (remember_reset sid c),
                    wire (rst_stream_frame sid code) ++ [on_stream_end sid], Ok tt)).
  { unfold cno_write_reset. rewrite bind_get, Hh2. cbn [negb].
    replace (sid =? 0) with false by (symmetry; apply Z.eqb_neq; exact Hne).
    rewrite Hfind, Hid.
    rewrite (frame_write_rst_stream_ok env callbacks_ok c sid s code Hfind Hp).
    unfold rst_stream_state, rst_stream_trace. rewrite Hacc. reflexivity. }
  assert (Ec' : c' = stream_unlink sid (remember_reset sid c))
    by (subst c'; rewrite Hrun; reflexivity).
  clearbody c'. subst c'.
  set (c' := stream_unlink sid (remember_reset sid c)).
  assert (Hgone : cno_stream_find c' sid = None).
  { unfold cno_stream_find, c', stream_unlink, set_bucket. cbn [streams set_streams].
    rewrite Z.eqb_refl. apply chain_remove_find_none. exact Tn. }
  assert (Hring : In sid (recently_reset c')).
  { unfold c', stream_unlink, remember_reset. cbn. apply list_set_In.
    rewrite R1. unfold CNO_STREAM_RESET_HISTORY in *. lia. }
  assert (Hlast : sid <= side_get (last_stream c') (cno_stream_is_local c' sid)).
  { change (last_stream c') with (last_stream c).
    change (cno_stream_is_local c' sid) with (cno_stream_is_local c sid).
    exact Tl. }
  assert (Hinv : forall f, stream f = sid ->
            cno_frame_handle_invalid_stream env f c' = (c', [], Ok tt)).
  { intros f Hf. unfold cno_frame_handle_invalid_stream. rewrite bind_get, Hf.
    replace (sid =? 0) with false by (symmetry; apply Z.eqb_neq; exact Hne).
    replace (sid <=? side_get (last_stream c') (cno_stream_is_local c' sid))
      with true by (symmetry; apply Z.leb_le; exact Hlast).
    cbn [negb andb].
    rewrite firstn_all2.
    - rewrite (existsb_In_eqb _ _ Hring). reflexivity.
    - unfold c', stream_unlink, remember_reset. cbn. rewrite list_set_length, R1. apply Nat.le_refl. }
  split; [exact Hrun|]. split; [exact Hgone|]. split; [exact Hring|]. split.
  - intros data. unfold cno_frame_handle. rewrite bind_get.
    change (continued_stream c') with (continued_stream c). rewrite Hcont.
    cbn [Z.eqb negb andb type stream]. 
    change (CNO_FRAME_RST_STREAM >=? CNO_FRAME_UNKNOWN) with false. cbv iota zeta.
    rewrite Hgone. cbn [option_map].
    unfold CNO_FRAME_HANDLERS. change (Z.to_nat CNO_FRAME_RST_STREAM) with 3%nat.
    cbn [nth_error]. unfold cno_frame_handle_rst_stream. apply Hinv. reflexivity.
  - intros data Hlen. unfold cno_frame_handle. rewrite bind_get.
    change (continued_stream c') with (continued_stream c). rewrite Hcont.
    cbn [Z.eqb negb andb type stream].
    change (CNO_FRAME_DATA >=? CNO_FRAME_UNKNOWN) with false. cbv iota zeta.
    rewrite Hgone. cbn [option_map].
    unfold CNO_FRAME_HANDLERS. change (Z.to_nat CNO_FRAME_DATA) with 0%nat.
    cbn [nth_error]. unfold cno_frame_handle_data, cno_frame_handle_padding. cbv zeta.
    cbn [flags payload]. change (has_flag 0 CNO_FLAG_PADDED) with false. cbv iota.
    rewrite bind_ret.
    assert (Eu : u32 (zlen data) = zlen data).
    { unfold u32. apply Z.mod_small. change (2 ^ 32) with 4294967296 in Hlen. lia. }
    rewrite Eu. replace (zlen data =? 0) with false by (symmetry; apply Z.eqb_neq; lia).
    cbn [negb when]. unfold bind.
    rewrite (frame_write_fits env callbacks_ok) by exact Hp.
    rewrite Hinv by reflexivity. rewrite app_nil_r. reflexivity.
Qed.

End Remembered.

(** * Concrete runs *)

Lemma example_callbacks_ok hs : forall e, callback (example_env hs) e = None.
Proof. reflexivity. Qed.





Lemma cno_frame_write_splits_witness :
  (forall e, callback (example_env []) e = None)
  /\ max_frame_size (side_get (settings (small_peer server_ready)) CNO_REMOTE) = 4
  /\ zlen (payload example_big_data) = 9
  /\ has_flag (flags example_big_data) CNO_FLAG_PADDED = false
  /\ List.concat (map payload
        (sent_frames (trace_of (cno_frame_write (example_env []) example_big_data
                                                (small_peer server_ready)))))
     = [1; 2; 3; 4; 5; 6; 7; 8; 9]
  /\ cno_frame_write (example_env []) example_padded_big_data (small_peer server_ready)
     = (small_peer server_ready, [], Err ASSERTION)
  /\ cno_frame_write (example_env []) example_big_ping (small_peer server_ready)
     = (small_peer server_ready, [], Err ASSERTION)
  /\ result_of (cno_frame_write (example_env []) example_big_data (deaf_peer server_ready))
     = Stuck LOOPS_FOREVER.
Proof.
  assert (H1 : max_frame_size (side_get (settings (small_peer server_ready)) CNO_REMOTE)
               < zlen (payload example_big_data)) by (vm_compute; reflexivity).
  assert (H0 : max_frame_size (side_get (settings (deaf_peer server_ready)) CNO_REMOTE)
               < zlen (payload example_big_data)) by (vm_compute; reflexivity).
  split; [apply example_callbacks_ok|]. split; [reflexivity|]. split; [reflexivity|].
  split; [reflexivity|].
  split.
  { destruct (cno_frame_write_splits (example_env []) (example_callbacks_ok [])
                (small_peer server_ready) example_big_data H1) as [_ Hsplit].
    destruct (Hsplit eq_refl (or_introl eq_refl)) as [_ Hpos].
    destruct Hpos as (_ & Hcat & _); [vm_compute; reflexivity|]. exact Hcat. }
  split.
  { destruct (cno_frame_write_splits (example_env []) (example_callbacks_ok [])
                (small_peer server_ready) example_padded_big_data H1) as [Hrefused _].
    apply Hrefused. left. reflexivity. }
  split.
  { destruct (cno_frame_write_splits (example_env []) (example_callbacks_ok [])
                (small_peer server_ready) example_big_ping H1) as [Hrefused _].
    apply Hrefused. right. repeat split; discriminate. }
  destruct (cno_frame_write_splits (example_env []) (example_callbacks_ok [])
              (deaf_peer server_ready) example_big_data H0) as [_ Hsplit].
  destruct (Hsplit eq_refl (or_introl eq_refl)) as [Hzero _].
  destruct Hzero as [Hr _]; [vm_compute; discriminate|]. exact Hr.
Defined.

(** The first part of a split DATA frame keeps the PRIORITY bit: of the
    three parts written, the first, which is not the last, carries it. *)
Lemma cno_frame_write_splits_counterexample :
  map (fun p => (type p, flags p, payload p))
      (sent_frames (trace_of (cno_frame_write (example_env []) example_priority_data
                                              (small_peer server_ready))))
  = [(CNO_FRAME_DATA, CNO_FLAG_PRIORITY, [1; 2; 3; 4]);
     (CNO_FRAME_DATA, 0, [5; 6; 7; 8]);
     (CNO_FRAME_DATA, 0, [9])]
  /\ ~ data_split_as_specified (example_env []) (small_peer server_ready)
         example_priority_data.
Proof.
  split; [reflexivity|]. intros H.
  destruct (H eq_refl eq_refl) as (_ & _ & Hfl). vm_compute in Hfl.
  inversion Hfl as [|? ? [_ Hp] _]. discriminate Hp.
Qed.



Lemma cno_write_data_flow_control_witness :
  (forall e, callback (example_env []) e = None)
  /\ cno_connection_is_http2 (with_stream stream_open server_ready) = true
  /\ cno_stream_find (with_stream stream_open server_ready) 1 = Some stream_open
  /\ has_flag (accept stream_open) CNO_ACCEPT_WRITE_DATA = true
  /\ conn_window_send (with_stream stream_open server_ready) = 65535
  /\ window_send stream_open = 65535
  /\ result_of (cno_write_data (example_env []) 1 [1; 2; 3] false
                               (with_stream stream_open server_ready)) = Ok 3
  /\ conn_window_send (conn_of (cno_write_data (example_env []) 1 [1; 2; 3] false
                                               (with_stream stream_open server_ready)))
     = 65532
  /\ (exists s',
        cno_stream_find (conn_of (cno_write_data (example_env []) 1 [1; 2; 3] false
                                                 (with_stream stream_open server_ready))) 1
        = Some s'
        /\ window_send s' = 65532).
Proof.
  split; [apply example_callbacks_ok|]. split; [reflexivity|]. split; [reflexivity|].
  split; [reflexivity|]. split; [reflexivity|]. split; [reflexivity|].
  destruct (cno_write_data_flow_control (example_env []) (example_callbacks_ok [])
              (with_stream stream_open server_ready) 1 stream_open [1; 2; 3] false
              eq_refl eq_refl eq_refl) as (_ & Hsome & _).
  - vm_compute. split; discriminate.
  - vm_compute. split; discriminate.
  - vm_compute. discriminate.
  - destruct Hsome as (parts & tail & _ & _ & _ & Hr & Hw & _ & _ & _ & _ & _ & Hback).
    + vm_compute. discriminate.
    + vm_compute. discriminate.
    + left. reflexivity.
    + split; [exact Hr|]. split; [exact Hw|].
      destruct (Hback eq_refl) as (s' & Hfind & Hws).
      exists s'. split; [exact Hfind | exact Hws].
Defined.



Lemma cno_connection_set_config_delta_witness :
  (forall e, callback (example_env []) e = None)
  /\ cno_connection_set_config (example_env [])
       (mk_settings 4096 2 1024 65535 16384 UINT32_MAX) server_ready
     = (server_ready, [], Err ASSERTION)
  /\ side_get (settings server_ready) CNO_LOCAL
     = mk_settings 4096 1 1024 65535 16384 UINT32_MAX
  /\ trace_of (cno_connection_set_config (example_env [])
                 (mk_settings 4096 0 1024 65535 16384 UINT32_MAX) server_ready)
     = [on_frame_send (mk_frame 4 0 0 [0; 2; 0; 0; 0; 0]);
        on_write [0; 0; 6; 4; 0; 0; 0; 0; 0];
        on_write [0; 2; 0; 0; 0; 0]]
  /\ side_get (settings (conn_of (cno_connection_set_config (example_env [])
                 (mk_settings 4096 0 1024 65535 16384 UINT32_MAX) server_ready))) CNO_LOCAL
     = mk_settings 4096 0 1024 65535 16384 UINT32_MAX.
Proof.
  split; [apply example_callbacks_ok|].
  destruct (cno_connection_set_config_delta (example_env []) (example_callbacks_ok [])
              server_ready (mk_settings 4096 2 1024 65535 16384 UINT32_MAX)) as [Hbad _].
  split; [apply Hbad; left; vm_compute; intros [H|H]; discriminate H|].
  split; [reflexivity|].
  destruct (cno_connection_set_config_delta (example_env []) (example_callbacks_ok [])
              server_ready (mk_settings 4096 0 1024 65535 16384 UINT32_MAX)) as [_ Hgood].
  destruct Hgood as [Hh2 _];
    [left; reflexivity | vm_compute; split; discriminate |].
  destruct Hh2 as (entries & _ & Hin & Hnd & Htrace & Hlocal & _);
    [reflexivity | discriminate | vm_compute; discriminate |].
  split; [|exact Hlocal].
  assert (Hone : forall e, In e entries -> e = (2, 0)).
  { intros [i v] He. apply Hin in He. destruct He as (Hi & Hv & Hne).
    assert (Hcases : i = 1 \/ i = 2 \/ i = 3 \/ i = 4 \/ i = 5 \/ i = 6) by lia.
    destruct Hcases as [->|[->|[->|[->|[->| ->]]]]]; vm_compute in Hv; subst v;
      try reflexivity; exfalso; apply Hne; reflexivity. }
  assert (Hin2 : In (2, 0) entries).
  { apply Hin. split; [lia|]. split; [reflexivity|]. vm_compute. discriminate. }
  assert (Hes : entries = [(2, 0)]).
  { destruct entries as [|e1 [|e2 rest]].
    - destruct Hin2.
    - rewrite (Hone e1 (or_introl eq_refl)). reflexivity.
    - exfalso. rewrite (Hone e1 (or_introl eq_refl)) in Hnd.
      rewrite (Hone e2 (or_intror (or_introl eq_refl))) in Hnd.
      inversion Hnd as [|? ? Hnot _]. apply Hnot. left. reflexivity. }
  rewrite Htrace, Hes. reflexivity.
Defined.


Lemma cno_frame_handle_settings_tiny_frame_size_witness :
  stream example_zero_frame_size = 0
  /\ has_flag (flags example_zero_frame_size) CNO_FLAG_ACK = false
  /\ zlen (payload example_zero_frame_size) mod 6 = 0
  /\ max_frame_size (settings_received example_zero_frame_size server_ready) = 0
  /\ trace_of (cno_frame_handle_settings (example_env []) None example_zero_frame_size
                                         server_ready) = []
  /\ result_of (cno_frame_handle_settings (example_env []) None example_zero_frame_size
                                          server_ready) = Err ASSERTION.
Proof.
  split; [reflexivity|]. split; [reflexivity|]. split; [reflexivity|].
  split; [reflexivity|].
  destruct (cno_frame_handle_settings_tiny_frame_size (example_env []) server_ready None
              example_zero_frame_size eq_refl eq_refl eq_refl) as (Ht & Hr & _).
  - vm_compute. reflexivity.
  - split; [exact Ht | exact Hr].
Defined.

Lemma read_PACK_round_trip_witness :
  0 <= 9 < 256
  /\ I24 70000 ++ [9] = [1; 17; 112; 9]
  /\ read3 [1; 17; 112; 9] = 70000
  /\ read2 (I16 258) = 258
  /\ read4 (I32 16909060 ++ [5]) = 16909060.
Proof.
  destruct (read_PACK_round_trip 70000 []) as (_ & _ & H3 & _).
  destruct (read_PACK_round_trip 258 []) as (_ & H2 & _).
  destruct (read_PACK_round_trip 16909060 [5]) as (_ & _ & _ & H4).
  split; [lia|]. split; [reflexivity|].
  split; [exact (H3 9 ltac:(lia))|].
  split; [rewrite app_nil_r in H2; exact H2 | exact H4].
Defined.

Lemma cno_connection_proceed_ready_reads_frame_witness :
  frame_fits_header example_ping
  /\ buffer (set_buffer (frame_header example_ping ++ payload example_ping ++ [7; 7])
                        server_ready)
     = [0; 0; 8; 6; 0; 0; 0; 0; 0; 1; 2; 3; 4; 5; 6; 7; 8; 7; 7]
  /\ cno_connection_proceed_ready (example_env [])
       (set_buffer (frame_header example_ping ++ payload example_ping ++ [7; 7])
                   server_ready)
     = (set_buffer [7; 7] server_ready,
        on_frame example_ping
        :: wire (mk_frame CNO_FRAME_PING CNO_FLAG_ACK 0 [1; 2; 3; 4; 5; 6; 7; 8]),
        Ok true).
Proof.
  assert (Hfit : frame_fits_header example_ping)
    by (vm_compute; repeat split; discriminate).
  split; [exact Hfit|]. split; [reflexivity|].
  rewrite (cno_connection_proceed_ready_reads_frame (example_env [])
             (set_buffer (frame_header example_ping ++ payload example_ping ++ [7; 7])
                         server_ready)
             example_ping [7; 7] eq_refl Hfit).
  - reflexivity.
  - vm_compute. discriminate.
  - discriminate.
Defined.

Lemma cno_frame_write_settings_read_back_witness :
  (forall e, callback (example_env []) e = None)
  /\ Forall (fun v => 0 <= v < 2 ^ 32)
            (settings_array (mk_settings 8192 0 1024 65535 32768 UINT32_MAX))
  /\ peer_accepts server_ready 36
  /\ exists frame,
       cno_frame_write_settings (example_env [])
         (side_get (settings server_ready) CNO_REMOTE)
         (mk_settings 8192 0 1024 65535 32768 UINT32_MAX) server_ready
       = (server_ready, wire frame, Ok tt)
       /\ settings_received frame server_ready
          = mk_settings 8192 0 1024 65535 32768 UINT32_MAX.
Proof.
  assert (H1 : Forall (fun v => 0 <= v < 2 ^ 32)
                 (settings_array (mk_settings 8192 0 1024 65535 32768 UINT32_MAX)))
    by (repeat constructor; vm_compute; discriminate).
  assert (H2 : peer_accepts server_ready 36) by (vm_compute; discriminate).
  split; [apply example_callbacks_ok|]. split; [exact H1|]. split; [exact H2|].
  destruct (cno_frame_write_settings_read_back (example_env []) (example_callbacks_ok [])
              server_ready server_ready _ H1 H2) as (frame & Hw & _ & _ & _ & _ & Hr).
  exists frame. split; [exact Hw | exact Hr].
Defined.

Lemma cno_write_ping_round_trip_witness :
  (forall e, callback (example_env []) e = None)
  /\ zlen [1; 2; 3; 4; 5; 6; 7; 8] = 8
  /\ cno_frame_handle (example_env []) example_ping server_ready
     = (server_ready,
        [on_frame_send (mk_frame 6 1 0 [1; 2; 3; 4; 5; 6; 7; 8]);
         on_write [0; 0; 8; 6; 1; 0; 0; 0; 0];
         on_write [1; 2; 3; 4; 5; 6; 7; 8]],
        Ok tt)
  /\ cno_frame_handle (example_env []) (mk_frame 6 1 0 [1; 2; 3; 4; 5; 6; 7; 8])
                      server_ready
     = (server_ready, [on_pong [1; 2; 3; 4; 5; 6; 7; 8]], Ok tt).
Proof.
  split; [apply example_callbacks_ok|]. split; [reflexivity|].
  destruct (cno_write_ping_round_trip (example_env []) (example_callbacks_ok [])
              server_ready server_ready [1; 2; 3; 4; 5; 6; 7; 8]
              eq_refl eq_refl eq_refl eq_refl) as (_ & Hpong & Hback).
  - vm_compute. discriminate.
  - vm_compute. discriminate.
  - split; [exact Hpong | exact Hback].
Defined.


Lemma cno_frame_handle_goaway_never_ok_witness :
  stream example_goaway = 0
  /\ 8 <= zlen (payload example_goaway)
  /\ cno_frame_handle_goaway (example_env []) None example_goaway server_ready
     = (server_ready, [], Err DISCONNECT).
Proof.
  split; [reflexivity|]. split; [vm_compute; discriminate|].
  destruct (cno_frame_handle_goaway_never_ok (example_env []) None example_goaway
              server_ready) as [_ H].
  apply H; [reflexivity | vm_compute; discriminate].
Defined.

Lemma cno_frame_handle_headers_self_dependent_trailers_witness :
  (forall e, callback (example_env []) e = None)
  /\ cno_stream_find (with_stream stream_trailers server_ready) 1 = Some stream_trailers
  /\ Z.land (read4 (payload example_self_dependent_trailers)) 2147483647 = 1
  /\ trace_of (cno_frame_handle (example_env []) example_self_dependent_trailers
                                (with_stream stream_trailers server_ready))
     = wire (rst_stream_frame 1 CNO_RST_PROTOCOL_ERROR) ++ [on_stream_end 1]
  /\ result_of (cno_frame_handle (example_env []) example_self_dependent_trailers
                                 (with_stream stream_trailers server_ready))
     = Stuck FREED_STREAM.
Proof.
  split; [apply example_callbacks_ok|]. split; [reflexivity|]. split; [reflexivity|].
  destruct (cno_frame_handle_headers_self_dependent_trailers (example_env [])
              (example_callbacks_ok []) (with_stream stream_trailers server_ready)
              stream_trailers example_self_dependent_trailers
              eq_refl eq_refl eq_refl) as (Ht & _ & Hr).
  - vm_compute. repeat constructor. intros [].
  - reflexivity.
  - reflexivity.
  - reflexivity.
  - reflexivity.
  - reflexivity.
  - vm_compute. discriminate.
  - reflexivity.
  - vm_compute. discriminate.
  - split; [exact Ht | exact Hr].
Defined.


Lemma cno_connection_lost_ends_every_stream_witness :
  (forall e, callback (example_env []) e = None)
  /\ cno_connection_is_http2 (with_stream stream_open server_ready) = true
  /\ table_ids (with_stream stream_open server_ready) = [1]
  /\ trace_of (cno_connection_lost (example_env []) 1 (with_stream stream_open server_ready))
     = [on_stream_end 1]
  /\ cno_stream_find
       (conn_of (cno_connection_lost (example_env []) 1
                   (with_stream stream_open server_ready))) 1 = None.
Proof.
  split; [apply example_callbacks_ok|]. split; [reflexivity|]. split; [reflexivity|].
  assert (Hchain : forall b, streams (with_stream stream_open server_ready) b
                             = if b =? 1 then [stream_open] else []).
  { intros b. reflexivity. }
  destruct (cno_connection_lost_ends_every_stream (example_env []) (example_callbacks_ok [])
              (with_stream stream_open server_ready) 1 eq_refl) as (_ & Ht & _ & Hnone & _).
  - intros b s. rewrite Hchain. destruct (b =? 1) eqn:E; [|intros []].
    intros [<-|[]]. apply Z.eqb_eq in E. subst b. reflexivity.
  - intros b. rewrite Hchain. destruct (b =? 1); cbn; lia.
  - split; [exact Ht | apply Hnone].
Defined.

Lemma cno_connection_next_stream_is_new_witness :
  (forall e, callback (example_env []) e = None)
  /\ cno_connection_is_http2 server_ready = true
  /\ side_get (last_stream server_ready) CNO_LOCAL = 0
  /\ cno_connection_next_stream server_ready = 2
  /\ result_of (cno_stream_new (example_env []) 2 CNO_LOCAL server_ready) = Ok 2.
Proof.
  split; [apply example_callbacks_ok|]. split; [reflexivity|]. split; [reflexivity|].
  split; [reflexivity|].
  destruct (cno_connection_next_stream_is_new (example_env []) (example_callbacks_ok [])
              server_ready eq_refl (or_introl eq_refl)) as (_ & _ & _ & Hnew).
  - vm_compute. reflexivity.
  - apply Hnew; [vm_compute; reflexivity | reflexivity].
Defined.

Lemma cno_write_message_http1_header_line_cut_witness :
  (forall e, callback (example_env []) e = None)
  /\ cno_stream_find server_http1 1 = Some stream_fresh
  /\ ordinary_header_name (name example_long_header)
  /\ zlen (http1_header_line example_long_header ++ [13; 10]) = 2051
  /\ nth 1 (trace_of (cno_write_message (example_env []) (fun h _ => (h, inl []))
                        1 (mk_message 200 None None [example_long_header]) false
                        server_http1)) (on_pong [])
     = on_write (http1_header_line example_long_header ++ [13; 0]).
Proof.
  assert (H1 : ordinary_header_name (name example_long_header))
    by (repeat split; reflexivity).
  assert (H2 : zlen (http1_header_line example_long_header ++ [13; 10]) = 2051)
    by (vm_compute; reflexivity).
  split; [apply example_callbacks_ok|]. split; [reflexivity|]. split; [exact H1|].
  split; [exact H2|].
  destruct (cno_write_message_http1_header_line_cut (example_env []) (example_callbacks_ok [])
              (fun h _ => (h, inl [])) server_http1 1 stream_fresh example_long_header
              eq_refl eq_refl eq_refl eq_refl H1 H2) as (_ & Ht & _).
  rewrite Ht. reflexivity.
Defined.

Lemma cno_write_reset_is_remembered_witness :
  (forall e, callback (example_env []) e = None)
  /\ cno_stream_find example_served 1 = Some stream_open
  /\ ring_ok example_served
  /\ cno_frame_handle (example_env []) (mk_frame CNO_FRAME_DATA 0 1 [1; 2; 3])
       (conn_of (cno_write_reset (example_env []) 1 CNO_RST_CANCEL example_served))
     = (conn_of (cno_write_reset (example_env []) 1 CNO_RST_CANCEL example_served),
        wire (window_update_frame 0 3), Ok tt)
  /\ result_of (cno_frame_handle (example_env []) (mk_frame CNO_FRAME_DATA 0 3 [1; 2; 3])
                  (conn_of (cno_write_reset (example_env []) 1 CNO_RST_CANCEL
                              example_served)))
     = Err TRANSPORT.
Proof.
  assert (Hring : ring_ok example_served) by (split; [reflexivity | vm_compute; split; discriminate || reflexivity]).
  split; [apply example_callbacks_ok|]. split; [reflexivity|]. split; [exact Hring|].
  destruct (cno_write_reset_is_remembered (example_env []) (example_callbacks_ok [])
              example_served 1 stream_open CNO_RST_CANCEL eq_refl) as (_ & _ & _ & _ & Hdata).
  - vm_compute. repeat constructor. intros [].
  - vm_compute. discriminate.
  - exact Hring.
  - reflexivity.
  - discriminate.
  - reflexivity.
  - reflexivity.
  - vm_compute. discriminate.
  - split; [|vm_compute; reflexivity].
    apply (Hdata [1; 2; 3]). vm_compute. split; reflexivity.
Defined.
